(** * The vision-board server (server.js): model and verified properties

    The server keeps one JSON document in a text file, stores uploaded
    pictures in a directory and offers four HTTP handlers.  This file embeds
    the handlers and the helper functions of [server.js] as Rocq functions
    over an explicit file system, clock and random source, and proves the
    properties of the specification about them.

    Conventions of the embedding.
    - A JavaScript value is a [value]; objects are association lists in
      property order.  Numbers are the integer-valued ones ([Z]).
    - Text (JavaScript strings, file contents) is a [string] holding the
      UTF-8 bytes of the text.
    - The file system is a finite map from absolute normalised POSIX paths
      (lists of segments) to files and directories.
    - [new Date()] is the number of milliseconds since the epoch and
      [Math.random()] a non-negative binary64 number below one, both read
      from the environment and passed to the functions that use them.

    What is left out.
    - Numbers with a fraction or an exponent: [JSON.parse] of the model
      gives no value for a text that holds one, and integers are exact
      whatever their size.
    - The middleware in front of the handlers ([express.json], the static
      files, the limits of multer): a handler takes [req.body] or
      [req.files] as an argument.
    - Failures of the file system other than writing to a directory or
      below a missing one and unlinking a directory.
    - Lower case for letters outside ASCII: [toLowerCase] keeps their
      bytes, which the comparison in [safeExt] cannot tell apart from
      their lower case. *)

From Stdlib Require Import ZArith String Ascii List Bool Lia.
From Stdlib Require Import DecimalString DecimalZ DecimalPos DecimalFacts.
From stdpp Require Import gmap strings list.

#[local] Arguments String.append : simpl nomatch.
#[local] Open Scope Z_scope.
#[local] Set Warnings "-register-all".

(** ** Characters and text *)

Definition dquote : ascii := ascii_of_nat 34.
Definition backslash : ascii := ascii_of_nat 92.
Definition LF : ascii := ascii_of_nat 10.

Definition code (c : ascii) : nat := nat_of_ascii c.

Definition str1 (c : ascii) : string := String c "".

Fixpoint string_of_codes (l : list nat) : string :=
  match l with
  | [] => ""
  | n :: r => String (ascii_of_nat n) (string_of_codes r)
  end.

Fixpoint join (sep : string) (l : list string) : string :=
  match l with
  | [] => ""
  | [x] => x
  | x :: r => x +:+ sep +:+ join sep r
  end.

Fixpoint spaces (n : nat) : string :=
  match n with
  | O => ""
  | S k => String " " (spaces k)
  end.

Fixpoint string_forallb (p : ascii -> bool) (s : string) : bool :=
  match s with
  | "" => true
  | String c r => p c && string_forallb p r
  end.

Definition is_digit (c : ascii) : bool :=
  (48 <=? code c)%nat && (code c <=? 57)%nat.

(** [Number.prototype.toString] on an integer-valued number. *)
Definition Z_to_string (n : Z) : string := NilZero.string_of_int (Z.to_int n).

(** ** JavaScript values *)

Module JS.

Inductive value : Type :=
| VUndefined
| VNull
| VBool (b : bool)
| VNum (n : Z)
| VStr (s : string)
| VArr (l : list value)
| VObj (o : list (string * value)).

Definition props : Type := list (string * value).

(** ToBoolean. *)
Definition truthy (v : value) : bool :=
  match v with
  | VUndefined | VNull => false
  | VBool b => b
  | VNum n => negb (n =? 0)
  | VStr s => negb (String.eqb s "")
  | VArr _ | VObj _ => true
  end.

(** [typeof v]. *)
Definition typeof (v : value) : string :=
  match v with
  | VUndefined => "undefined"
  | VNull => "object"
  | VBool _ => "boolean"
  | VNum _ => "number"
  | VStr _ => "string"
  | VArr _ | VObj _ => "object"
  end.

(** [a || b] and [a && b]. *)
Definition or (a b : value) : value := if truthy a then a else b.
Definition and (a b : value) : value := if truthy a then b else a.

Definition isArray (v : value) : bool :=
  match v with VArr _ => true | _ => false end.

Fixpoint lookup_prop (k : string) (o : props) : option value :=
  match o with
  | [] => None
  | (k', x) :: r => if String.eqb k k' then Some x else lookup_prop k r
  end.

(** [v.k] for a property name [k] that no prototype defines and that is
    neither [length] nor an index (the handlers read [content],
    [moodImages] and [filename] only). *)
Definition get (v : value) (k : string) : value :=
  match v with
  | VObj o => match lookup_prop k o with Some x => x | None => VUndefined end
  | _ => VUndefined
  end.

(** A property key that is an array index: the canonical decimal form of an
    integer below 2^32 - 1.  Ordinary objects list such keys first, in
    ascending order, before the other keys in creation order. *)
Definition array_index (k : string) : option Z :=
  match NilZero.uint_of_string k with
  | Some d =>
      let n := Z.of_uint d in
      if String.eqb (Z_to_string n) k && (n <? 4294967295) then Some n else None
  | None => None
  end.

Fixpoint replace_prop (k : string) (v : value) (o : props) : props :=
  match o with
  | [] => []
  | (k', x) :: r =>
      if String.eqb k k' then (k', v) :: r else (k', x) :: replace_prop k v r
  end.

Fixpoint insert_index (i : Z) (k : string) (v : value) (o : props) : props :=
  match o with
  | [] => [(k, v)]
  | (k', x) :: r =>
      match array_index k' with
      | Some j => if i <? j then (k, v) :: o else (k', x) :: insert_index i k v r
      | None => (k, v) :: o
      end
  end.

(** [o.k = v] on an ordinary object (also CreateDataProperty, as JSON.parse
    uses it): an existing property keeps its place. *)
Definition set (o : props) (k : string) (v : value) : props :=
  match lookup_prop k o with
  | Some _ => replace_prop k v o
  | None =>
      match array_index k with
      | Some i => insert_index i k v o
      | None => o ++ [(k, v)]
      end
  end.

(** [x !== s] for a string [s]. *)
Definition strict_neq_str (s : string) (x : value) : bool :=
  match x with
  | VStr t => negb (String.eqb t s)
  | _ => true
  end.

End JS.
Import JS.

(** ** JSON.stringify and JSON.parse *)

Module JSON.

Definition hex_char (n : nat) : ascii :=
  ascii_of_nat (if (n <? 10)%nat then 48 + n else 87 + n)%nat.

(** One character of QuoteJSONString: the two-character escapes, a
    [\u00xx] escape for the other control characters, the character itself
    otherwise. *)
Definition escape_char (c : ascii) : string :=
  let n := code c in
  if (n =? 8)%nat then "\b"
  else if (n =? 9)%nat then "\t"
  else if (n =? 10)%nat then "\n"
  else if (n =? 12)%nat then "\f"
  else if (n =? 13)%nat then "\r"
  else if (n =? 34)%nat then String backslash (str1 dquote)
  else if (n =? 92)%nat then String backslash (str1 backslash)
  else if (n <? 32)%nat then
    "\u00" +:+ String (hex_char (n / 16)) (str1 (hex_char (n mod 16)))
  else str1 c.

Fixpoint escape (s : string) : string :=
  match s with
  | "" => ""
  | String c r => escape_char c +:+ escape r
  end.

Definition quote (s : string) : string :=
  String dquote (escape s +:+ str1 dquote).

Definition is_undefined (v : value) : bool :=
  match v with VUndefined => true | _ => false end.

Definition newline (depth : nat) : string := String LF (spaces (2 * depth)).

(** [wrap o c depth parts]: the text of an array or object at nesting
    [depth] whose members were serialised (one level deeper) to [parts]. *)
Definition wrap (o c : ascii) (depth : nat) (parts : list string) : string :=
  match parts with
  | [] => String o (str1 c)
  | _ =>
      String o (newline (S depth) +:+
                join (String "," (newline (S depth))) parts +:+
                newline depth +:+ str1 c)
  end.

(** SerializeJSONProperty with gap of two spaces, for a value that is not
    [undefined]; [undefined] is dealt with by the enclosing array (printed as
    [null]) or object (member left out). *)
Fixpoint serialize (depth : nat) (v : value) : string :=
  match v with
  | VUndefined => ""
  | VNull => "null"
  | VBool b => if b then "true" else "false"
  | VNum n => Z_to_string n
  | VStr s => quote s
  | VArr l =>
      wrap "[" "]" depth
        (List.map (fun x => if is_undefined x then "null"
                            else serialize (S depth) x) l)
  | VObj o =>
      wrap "{" "}" depth
        ((fix members (o : props) : list string :=
            match o with
            | [] => []
            | (k, x) :: r =>
                if is_undefined x then members r
                else (quote k +:+ ": " +:+ serialize (S depth) x) :: members r
            end) o)
  end.

Definition element_text (depth : nat) (x : value) : string :=
  if is_undefined x then "null" else serialize (S depth) x.

Fixpoint member_texts (depth : nat) (o : props) : list string :=
  match o with
  | [] => []
  | (k, x) :: r =>
      if is_undefined x then member_texts depth r
      else (quote k +:+ ": " +:+ serialize (S depth) x) :: member_texts depth r
  end.

(** The members of a non-empty array or object, each on a line of its own,
    followed by [tail]. *)
Fixpoint items (depth : nat) (texts : list string) (tail : string) : string :=
  match texts with
  | [] => tail
  | t :: r =>
      newline (S depth) +:+ t +:+
      match r with
      | [] => tail
      | _ => String "," (items depth r tail)
      end
  end.

(** [JSON.stringify(v, null, 2)]; [None] is the result [undefined]. *)
Definition stringify (v : value) : option string :=
  if is_undefined v then None else Some (serialize 0 v).

(** *** Parsing *)

Definition is_ws (c : ascii) : bool :=
  let n := code c in
  (n =? 32)%nat || (n =? 9)%nat || (n =? 10)%nat || (n =? 13)%nat.

Fixpoint skip_ws (s : string) : string :=
  match s with
  | "" => ""
  | String c r => if is_ws c then skip_ws r else s
  end.

Definition hex_val (c : ascii) : option N :=
  let n := code c in
  if (48 <=? n)%nat && (n <=? 57)%nat then Some (N.of_nat (n - 48))
  else if (97 <=? n)%nat && (n <=? 102)%nat then Some (N.of_nat (n - 87))
  else if (65 <=? n)%nat && (n <=? 70)%nat then Some (N.of_nat (n - 55))
  else None.

Definition hex4 (a b c d : ascii) : option N :=
  match hex_val a, hex_val b, hex_val c, hex_val d with
  | Some x, Some y, Some z, Some w => Some (((x * 16 + y) * 16 + z) * 16 + w)%N
  | _, _, _, _ => None
  end.

Fixpoint string_of_Ns (l : list N) : string :=
  match l with
  | [] => ""
  | n :: r => String (ascii_of_N n) (string_of_Ns r)
  end.

(** The UTF-8 bytes of a code point (a surrogate that is not part of a pair
    is kept as the three bytes of its own number). *)
Definition utf8 (n : N) : string :=
  (if n <? 128 then string_of_Ns [n]
   else if n <? 2048 then string_of_Ns [192 + n / 64; 128 + n mod 64]
   else if n <? 65536 then
     string_of_Ns [224 + n / 4096; 128 + (n / 64) mod 64; 128 + n mod 64]
   else
     string_of_Ns [240 + n / 262144; 128 + (n / 4096) mod 64;
                   128 + (n / 64) mod 64; 128 + n mod 64])%N.

Definition is_high_surrogate (n : N) : bool := ((55296 <=? n) && (n <? 56320))%N.
Definition is_low_surrogate (n : N) : bool := ((56320 <=? n) && (n <? 57344))%N.

Definition simple_escape (e : ascii) : option ascii :=
  let n := code e in
  if (n =? 34)%nat then Some dquote
  else if (n =? 92)%nat then Some backslash
  else if (n =? 47)%nat then Some "/"%char
  else if (n =? 98)%nat then Some (ascii_of_nat 8)
  else if (n =? 102)%nat then Some (ascii_of_nat 12)
  else if (n =? 110)%nat then Some (ascii_of_nat 10)
  else if (n =? 114)%nat then Some (ascii_of_nat 13)
  else if (n =? 116)%nat then Some (ascii_of_nat 9)
  else None.

Definition prepend (p : string) (r : option (string * string)) : option (string * string) :=
  match r with
  | Some (s, rest) => Some (p +:+ s, rest)
  | None => None
  end.

(** The characters of a string literal after its opening quote, up to and
    including the closing quote: the string denoted and the text left. *)
Fixpoint parse_chars (s : string) : option (string * string) :=
  match s with
  | "" => None
  | String c r =>
      if Ascii.eqb c dquote then Some ("", r)
      else if Ascii.eqb c backslash then
        match r with
        | "" => None
        | String e r1 =>
            match simple_escape e with
            | Some ch => prepend (str1 ch) (parse_chars r1)
            | None =>
                if Ascii.eqb e "u" then
                  match r1 with
                  | String h1 (String h2 (String h3 (String h4 r2))) =>
                      match hex4 h1 h2 h3 h4 with
                      | None => None
                      | Some n =>
                          if is_high_surrogate n then
                            match r2 with
                            | String b (String u (String l1 (String l2 (String l3 (String l4 r3))))) =>
                                match (if Ascii.eqb b backslash && Ascii.eqb u "u"
                                       then hex4 l1 l2 l3 l4 else None) with
                                | Some m =>
                                    if is_low_surrogate m
                                    then prepend (utf8 (65536 + (n - 55296) * 1024 + (m - 56320))%N)
                                                 (parse_chars r3)
                                    else prepend (utf8 n) (parse_chars r2)
                                | None => prepend (utf8 n) (parse_chars r2)
                                end
                            | _ => prepend (utf8 n) (parse_chars r2)
                            end
                          else prepend (utf8 n) (parse_chars r2)
                      end
                  | _ => None
                  end
                else None
            end
        end
      else if (code c <? 32)%nat then None
      else prepend (str1 c) (parse_chars r)
  end.

Fixpoint span_digits (s : string) : string * string :=
  match s with
  | "" => ("", "")
  | String c r =>
      if is_digit c then let (d, rest) := span_digits r in (String c d, rest)
      else ("", s)
  end.

Definition starts_fraction (s : string) : bool :=
  match s with
  | "" => false
  | String c _ => Ascii.eqb c "." || Ascii.eqb c "e" || Ascii.eqb c "E"
  end.

(** An integer literal: an optional minus sign, then [0] or a digit sequence
    that does not start with [0].  A literal that goes on with a fraction or
    an exponent denotes a number outside [Z] and is not given a value. *)
Definition parse_int (neg : bool) (s : string) : option (Z * string) :=
  let (ds, rest) := span_digits s in
  match ds with
  | "" => None
  | String d more =>
      if Ascii.eqb d "0" && negb (String.eqb more "") then None
      else if starts_fraction rest then None
      else
        match NilZero.uint_of_string ds with
        | Some u => Some (if neg then - Z.of_uint u else Z.of_uint u, rest)
        | None => None
        end
  end.

Definition parse_number (s : string) : option (Z * string) :=
  match s with
  | "" => None
  | String c r => if Ascii.eqb c "-" then parse_int true r else parse_int false s
  end.

Fixpoint strip_prefix (p s : string) : option string :=
  match p with
  | "" => Some s
  | String c p' =>
      match s with
      | "" => None
      | String d s' => if Ascii.eqb c d then strip_prefix p' s' else None
      end
  end.

Definition parse_literal (w : string) (v : value) (s : string) : option (value * string) :=
  match strip_prefix w s with
  | Some r => Some (v, r)
  | None => None
  end.

Fixpoint parse_value (fuel : nat) (s : string) {struct fuel} : option (value * string) :=
  match fuel with
  | O => None
  | S f =>
      match skip_ws s with
      | "" => None
      | String c r =>
          if Ascii.eqb c "{" then
            match skip_ws r with
            | "" => None
            | String c' r' =>
                if Ascii.eqb c' "}" then Some (VObj [], r') else parse_members f r []
            end
          else if Ascii.eqb c "[" then
            match skip_ws r with
            | "" => None
            | String c' r' =>
                if Ascii.eqb c' "]" then Some (VArr [], r') else parse_elements f r []
            end
          else if Ascii.eqb c dquote then
            match parse_chars r with
            | Some (str, r') => Some (VStr str, r')
            | None => None
            end
          else if Ascii.eqb c "n" then parse_literal "ull" VNull r
          else if Ascii.eqb c "t" then parse_literal "rue" (VBool true) r
          else if Ascii.eqb c "f" then parse_literal "alse" (VBool false) r
          else
            match parse_number (String c r) with
            | Some (n, r') => Some (VNum n, r')
            | None => None
            end
      end
  end
with parse_elements (fuel : nat) (s : string) (acc : list value) {struct fuel}
  : option (value * string) :=
  match fuel with
  | O => None
  | S f =>
      match parse_value f s with
      | None => None
      | Some (v, r) =>
          match skip_ws r with
          | "" => None
          | String c r' =>
              if Ascii.eqb c "," then parse_elements f r' (v :: acc)
              else if Ascii.eqb c "]" then Some (VArr (List.rev (v :: acc)), r')
              else None
          end
      end
  end
with parse_members (fuel : nat) (s : string) (acc : props) {struct fuel}
  : option (value * string) :=
  match fuel with
  | O => None
  | S f =>
      match skip_ws s with
      | "" => None
      | String q r =>
          if Ascii.eqb q dquote then
            match parse_chars r with
            | None => None
            | Some (k, r1) =>
                match skip_ws r1 with
                | "" => None
                | String c r2 =>
                    if Ascii.eqb c ":" then
                      match parse_value f r2 with
                      | None => None
                      | Some (v, r3) =>
                          match skip_ws r3 with
                          | "" => None
                          | String c' r4 =>
                              if Ascii.eqb c' "," then parse_members f r4 (JS.set acc k v)
                              else if Ascii.eqb c' "}" then Some (VObj (JS.set acc k v), r4)
                              else None
                          end
                      end
                    else None
                end
            end
          else None
      end
  end.

(** [JSON.parse(s)]; [None] is a SyntaxError (or a text outside the embedded
    values, see [parse_number]). *)
Definition parse (s : string) : option value :=
  match parse_value (S (String.length s)) s with
  | Some (v, r) => match skip_ws r with "" => Some v | _ => None end
  | None => None
  end.

End JSON.

(** *** The values that JSON texts denote *)

Module Wf.

Definition is_index (k : string) : bool :=
  match JS.array_index k with Some _ => true | None => false end.

(** [k] may come before the keys [r] in an object: it differs from them,
    an index key comes before larger ones only, and no index key follows
    a key that is not an index. *)
Definition key_before (k : string) (r : list string) : bool :=
  forallb (fun k' => negb (String.eqb k k')) r &&
  match JS.array_index k with
  | Some i =>
      forallb (fun k' => match JS.array_index k' with
                         | Some j => i <? j
                         | None => true
                         end) r
  | None => forallb (fun k' => negb (is_index k')) r
  end.

Fixpoint keys_ok (ks : list string) : bool :=
  match ks with
  | [] => true
  | k :: r => key_before k r && keys_ok r
  end.

(** The values without [undefined] whose objects have their properties in
    the order of an ordinary object: those that [JSON.parse] yields. *)
Fixpoint json (v : value) : bool :=
  match v with
  | VUndefined => false
  | VNull | VBool _ | VNum _ | VStr _ => true
  | VArr l => forallb json l
  | VObj o =>
      keys_ok (List.map fst o) &&
      (fix all (o : props) : bool :=
         match o with
         | [] => true
         | (_, x) :: r => json x && all r
         end) o
  end.

(** A bound on the recursion depth that parsing the text of [v] takes. *)
Fixpoint size (v : value) : nat :=
  match v with
  | VArr l =>
      S ((fix go (l : list value) : nat :=
            match l with
            | [] => O
            | x :: r => S (size x + go r)
            end) l)
  | VObj o =>
      S ((fix go (o : props) : nat :=
            match o with
            | [] => O
            | (_, x) :: r => S (size x + go r)
            end) o)
  | _ => 1%nat
  end.

Fixpoint sizes (l : list value) : nat :=
  match l with
  | [] => O
  | x :: r => S (size x + sizes r)
  end.

Fixpoint psizes (o : props) : nat :=
  match o with
  | [] => O
  | (_, x) :: r => S (size x + psizes r)
  end.

Definition all_json (o : props) : bool := forallb (fun kx => json (snd kx)) o.

(** What follows a value inside the text of an array or object, or at the
    end of the text. *)
Definition ends_ok (s : string) : bool :=
  match s with
  | "" => true
  | String c _ => Ascii.eqb c "," || Ascii.eqb c LF
  end.

(** The text of [v], at any depth and followed by any such text, parses
    back to [v] with enough fuel. *)
Definition parses (v : value) : Prop :=
  json v = true ->
  forall fuel depth rest, (size v <= fuel)%nat -> ends_ok rest = true ->
  JSON.parse_value fuel (JSON.serialize depth v +:+ rest) = Some (v, rest).

End Wf.
Import JSON Wf.

(** ** String methods *)

Module Str.

Definition of_codes (l : list nat) : list ascii := List.map ascii_of_nat l.

(** WhiteSpace and LineTerminator of ECMAScript, as UTF-8 byte sequences:
    U+0009 to U+000D, U+0020, U+00A0, U+1680, U+2000 to U+200A, U+2028,
    U+2029, U+202F, U+205F, U+3000 and U+FEFF. *)
Definition white_space : list (list ascii) :=
  List.map of_codes
    [ [9]; [10]; [11]; [12]; [13]; [32]; [194; 160]; [225; 154; 128];
      [226; 128; 128]; [226; 128; 129]; [226; 128; 130]; [226; 128; 131];
      [226; 128; 132]; [226; 128; 133]; [226; 128; 134]; [226; 128; 135];
      [226; 128; 136]; [226; 128; 137]; [226; 128; 138]; [226; 128; 168];
      [226; 128; 169]; [226; 128; 175]; [226; 129; 159]; [227; 128; 128];
      [239; 187; 191] ]%nat.

Fixpoint drop_prefix (p s : list ascii) : option (list ascii) :=
  match p with
  | [] => Some s
  | c :: p' =>
      match s with
      | [] => None
      | d :: s' => if Ascii.eqb c d then drop_prefix p' s' else None
      end
  end.

Fixpoint drop_one (units : list (list ascii)) (s : list ascii) : option (list ascii) :=
  match units with
  | [] => None
  | u :: r =>
      match drop_prefix u s with
      | Some s' => Some s'
      | None => drop_one r s
      end
  end.

Fixpoint drop_all (fuel : nat) (units : list (list ascii)) (s : list ascii) : list ascii :=
  match fuel with
  | O => s
  | S f =>
      match drop_one units s with
      | Some s' => drop_all f units s'
      | None => s
      end
  end.

Definition trimStart (s : list ascii) : list ascii :=
  drop_all (List.length s) white_space s.

Definition trimEnd (s : list ascii) : list ascii :=
  List.rev (drop_all (List.length s) (List.map (@List.rev ascii) white_space) (List.rev s)).

(** [s.trim()]. *)
Definition trim (s : string) : string :=
  string_of_list_ascii (trimEnd (trimStart (list_ascii_of_string s))).

Definition lower_char (c : ascii) : ascii :=
  let n := code c in
  if (65 <=? n)%nat && (n <=? 90)%nat then ascii_of_nat (n + 32) else c.

(** [s.toLowerCase()] on the letters A to Z; other bytes are kept (no
    character outside ASCII has a lower case made of ASCII letters other
    than [k] and [i] followed by a combining dot, which is all that the
    comparison in [safeExt] can observe). *)
Fixpoint toLowerCase (s : string) : string :=
  match s with
  | "" => ""
  | String c r => String (lower_char c) (toLowerCase r)
  end.

Fixpoint remove_chars (cs : list ascii) (s : string) : string :=
  match s with
  | "" => ""
  | String c r =>
      if existsb (Ascii.eqb c) cs then remove_chars cs r
      else String c (remove_chars cs r)
  end.

(** [s.slice(0, n)]. *)
Fixpoint take (n : nat) (s : string) : string :=
  match n, s with
  | S k, String c r => String c (take k r)
  | _, _ => ""
  end.

End Str.

(** ** POSIX paths *)

Module Path.

(** An absolute normalised path: its segments below the root. *)
Abbreviation path := (list string).

Fixpoint split (s : string) : list string :=
  match s with
  | "" => [""]
  | String c r =>
      if Ascii.eqb c "/" then "" :: split r
      else
        match split r with
        | h :: t => String c h :: t
        | [] => [str1 c]
        end
  end.

(** One segment of normalizeString on an absolute path whose segments so
    far are [stack], innermost first. *)
Definition step (stack : list string) (seg : string) : list string :=
  if String.eqb seg "" || String.eqb seg "." then stack
  else if String.eqb seg ".." then List.tl stack
  else seg :: stack.

Fixpoint ends_with_slash (s : string) : bool :=
  match s with
  | "" => false
  | String c "" => Ascii.eqb c "/"
  | String _ r => ends_with_slash r
  end.

(** [path.join(base, rel)] for an absolute normalised [base]: the segments
    of the result, and whether it keeps a trailing separator. *)
Definition join (base : path) (rel : string) : path * bool :=
  (List.rev (List.fold_left step (split rel) (List.rev base)), ends_with_slash rel).

Record scan : Type := Scan {
  startDot : Z;
  startPart : Z;
  stop : Z;
  matchedSlash : bool;
  preDotState : Z;
  finished : bool
}.

(** The body of the loop of [path.extname] at index [i], character [c]. *)
Definition scan_step (st : scan) (i : Z) (c : ascii) : scan :=
  if finished st then st
  else if Ascii.eqb c "/" then
    if negb (matchedSlash st)
    then Scan (startDot st) (i + 1) (stop st) (matchedSlash st) (preDotState st) true
    else st
  else
    let st1 :=
      if stop st =? -1
      then Scan (startDot st) (startPart st) (i + 1) false (preDotState st) false
      else st in
    if Ascii.eqb c "." then
      if startDot st1 =? -1
      then Scan i (startPart st1) (stop st1) (matchedSlash st1) (preDotState st1) false
      else if negb (preDotState st1 =? 1)
      then Scan (startDot st1) (startPart st1) (stop st1) (matchedSlash st1) 1 false
      else st1
    else if negb (startDot st1 =? -1)
    then Scan (startDot st1) (startPart st1) (stop st1) (matchedSlash st1) (-1) false
    else st1.

(** The loop, from the last character (index [i]) down to the first;
    [rs] holds the characters in that order. *)
Fixpoint scan_down (st : scan) (i : Z) (rs : list ascii) : scan :=
  match rs with
  | [] => st
  | c :: r => scan_down (scan_step st i c) (i - 1) r
  end.

(** [path.extname(p)]. *)
Definition extname (p : string) : string :=
  let st := scan_down (Scan (-1) 0 (-1) true 0 false)
                      (Z.of_nat (String.length p) - 1)
                      (List.rev (list_ascii_of_string p)) in
  if (startDot st =? -1) || (stop st =? -1) || (preDotState st =? 0) ||
     ((preDotState st =? 1) && (startDot st =? stop st - 1) &&
      (startDot st =? startPart st + 1))
  then ""
  else String.substring (Z.to_nat (startDot st)) (Z.to_nat (stop st - startDot st)) p.

End Path.

(** ** The file system *)

Module FS.

Inductive node : Type :=
| File (data : string)
| Dir.

Definition parent (p : Path.path) : Path.path := List.removelast p.

(** [fs.existsSync]: a path with a trailing separator names a directory. *)
Definition existsSync (fs : gmap (list string) node) (p : Path.path * bool) : bool :=
  match fs !! fst p with
  | Some Dir => true
  | Some (File _) => negb (snd p)
  | None => false
  end.

(** [fs.unlinkSync]; [None]: it throws (no such file, or a directory). *)
Definition unlinkSync (fs : gmap (list string) node) (p : Path.path * bool)
  : option (gmap (list string) node) :=
  match fs !! fst p with
  | Some (File _) => if snd p then None else Some (delete (fst p) fs)
  | _ => None
  end.

(** [fs.readFileSync(p, "utf-8")]; [None]: it throws. *)
Definition readFileSync (fs : gmap (list string) node) (p : Path.path) : option string :=
  match fs !! p with
  | Some (File s) => Some s
  | _ => None
  end.

(** [fs.writeFileSync(p, s, "utf-8")]; [None]: it throws (the target is a
    directory, or the directory to hold it is missing). *)
Definition writeFileSync (fs : gmap (list string) node) (p : Path.path) (s : string)
  : option (gmap (list string) node) :=
  match fs !! p, fs !! parent p with
  | Some Dir, _ => None
  | _, Some Dir => Some (<[p := File s]> fs)
  | _, _ => None
  end.

(** [fs.mkdirSync(p, { recursive: true })], seen from the directory [done]
    with the segments [todo] of [p] still to go: every directory on the way
    that is missing is made; [None]: it throws (a file is in the way). *)
Fixpoint mkdirs (fs : gmap (list string) node) (done : Path.path) (todo : list string)
  : option (gmap (list string) node) :=
  match fs !! done with
  | Some (File _) => None
  | found =>
      let fs1 := match found with None => <[done := Dir]> fs | _ => fs end in
      match todo with
      | [] => Some fs1
      | s :: r => mkdirs fs1 (done ++ [s]) r
      end
  end.

Definition mkdirSync (fs : gmap (list string) node) (p : Path.path)
  : option (gmap (list string) node) :=
  mkdirs fs [] p.

End FS.

(** ** Dates *)

Module Clock.

Definition digit (n : Z) : ascii := ascii_of_nat (48 + Z.to_nat (n mod 10)).

(** The last [w] decimal digits of [n], most significant first. *)
Fixpoint digits (w : nat) (n : Z) : string :=
  match w with
  | O => ""
  | S k => digits k (n / 10) +:+ str1 (digit n)
  end.

Definition msPerDay : Z := 86400000.

(** Year, month and day of the month of a day number (days since
    1970-01-01, proleptic Gregorian calendar). *)
Definition civil (day : Z) : Z * Z * Z :=
  let z := day + 719468 in
  let era := z / 146097 in
  let doe := z mod 146097 in
  let yoe := (doe - doe / 1460 + doe / 36524 - doe / 146096) / 365 in
  let doy := doe - (365 * yoe + yoe / 4 - yoe / 100) in
  let mp := (5 * doy + 2) / 153 in
  let d := doy - (153 * mp + 2) / 5 + 1 in
  let m := if mp <? 10 then mp + 3 else mp - 9 in
  let y := yoe + era * 400 + (if m <=? 2 then 1 else 0) in
  (y, m, d).

Definition YearFromTime (t : Z) : Z := fst (fst (civil (t / msPerDay))).
Definition MonthFromTime (t : Z) : Z := snd (fst (civil (t / msPerDay))).
Definition DateFromTime (t : Z) : Z := snd (civil (t / msPerDay)).
Definition HourFromTime (t : Z) : Z := (t / 3600000) mod 24.
Definition MinFromTime (t : Z) : Z := (t / 60000) mod 60.
Definition SecFromTime (t : Z) : Z := (t / 1000) mod 60.
Definition msFromTime (t : Z) : Z := t mod 1000.

(** The year of the ISO format: four digits from 0 to 9999, a sign and six
    digits otherwise. *)
Definition year_text (y : Z) : string :=
  if (0 <=? y) && (y <=? 9999) then digits 4 y
  else if y <? 0 then String "-" (digits 6 (- y))
  else String "+" (digits 6 y).

(** [new Date(t).toISOString()]. *)
Definition toISOString (t : Z) : string :=
  year_text (YearFromTime t) +:+ "-" +:+ digits 2 (MonthFromTime t) +:+ "-" +:+
  digits 2 (DateFromTime t) +:+ "T" +:+ digits 2 (HourFromTime t) +:+ ":" +:+
  digits 2 (MinFromTime t) +:+ ":" +:+ digits 2 (SecFromTime t) +:+ "." +:+
  digits 3 (msFromTime t) +:+ "Z".

End Clock.

(** ** Binary64 arithmetic on non-negative numbers

    A finite non-negative binary64 number is a multiple of 2^-1074 with at
    most 53 significant bits; it is represented by its quotient by 2^-1074.
    The numbers used here stay far below the overflow threshold. *)

Module F64.

Definition scale : Z := 2 ^ 1074.

(** Round to nearest, ties to even, the number [m * 2^(-1074 - j)] for
    [0 <= j]. *)
Definition round (j m : Z) : Z :=
  if m <=? 0 then 0
  else
    let s := Z.max (Z.log2 m - 52) j in
    if s <=? 0 then m
    else
      let q := m / 2 ^ s in
      let r := m mod 2 ^ s in
      let half := 2 ^ (s - 1) in
      let q' := if (half <? r) || ((r =? half) && Z.odd q) then q + 1 else q in
      q' * 2 ^ (s - j).

Definition is_f64 (x : Z) : bool := (0 <=? x) && (round 0 x =? x).

Definition of_int (n : Z) : Z := n * scale.
Definition add (x y : Z) : Z := round 0 (x + y).
Definition mul (x y : Z) : Z := round 1074 (x * y).

(** [Math.floor], as an integer. *)
Definition floor (x : Z) : Z := x / scale.

(** What [Math.random()] may return. *)
Definition is_random (x : Z) : bool := is_f64 x && (x <? scale).

End F64.

(** ** The server *)

Inductive response : Type :=
| Json (status : Z) (body : value)
| ServerError.

Record stored : Type := Stored { filename : string }.

(** The body of a JSON response. *)
Definition response_body (r : response) : value :=
  match r with
  | Json _ body => body
  | ServerError => VUndefined
  end.

Section Server.

(** [__dirname]. *)
Variable dirname : Path.path.

Definition PUBLIC_DIR : Path.path := fst (Path.join dirname "public").
Definition DATA_DIR : Path.path := fst (Path.join dirname "data").
Definition UPLOAD_DIR : Path.path := fst (Path.join dirname "uploads").
Definition DATA_FILE : Path.path := fst (Path.join DATA_DIR "vision-board.txt").

(** The three [fs.mkdirSync] calls made when the server starts; [None]: one
    of them throws. *)
Definition startup (fs : gmap (list string) FS.node) : option (gmap (list string) FS.node) :=
  match FS.mkdirSync fs PUBLIC_DIR with
  | None => None
  | Some fs1 =>
      match FS.mkdirSync fs1 DATA_DIR with
      | None => None
      | Some fs2 => FS.mkdirSync fs2 UPLOAD_DIR
      end
  end.

Definition allowed : list string := [".png"; ".jpg"; ".jpeg"; ".webp"; ".gif"].

(** [safeExt(originalName)]; [None] is an [originalName] that is
    [undefined]. *)
Definition safeExt (originalName : option string) : string :=
  let ext := Str.toLowerCase (Path.extname (default "" originalName)) in
  if existsb (String.eqb ext) allowed then ext else ".jpg".

(** [genMoodFilename(originalName)] at time [now], [Math.random()] being
    [rnd]. *)
Definition genMoodFilename (originalName : option string) (now rnd : Z) : string :=
  let ext := safeExt originalName in
  let ts := Str.take 14
              (Str.remove_chars ["-"; ":"; "."; "T"; "Z"]%char (Clock.toISOString now)) in
  let rand := F64.floor (F64.add (F64.of_int 1000) (F64.mul rnd (F64.of_int 9000))) in
  "mood_" +:+ ts +:+ "_" +:+ Z_to_string rand +:+ ext.

(** The disk storage of multer for one file: it is written to
    [path.join(UPLOAD_DIR, genMoodFilename(file.originalname))]. *)
Definition store_file (fs : gmap (list string) FS.node)
    (originalName : option string) (data : string) (now rnd : Z)
  : option (gmap (list string) FS.node * stored) :=
  let name := genMoodFilename originalName now rnd in
  match FS.writeFileSync fs (fst (Path.join UPLOAD_DIR name)) data with
  | Some fs' => Some (fs', Stored name)
  | None => None
  end.

(** [readBoard()]: every exception is caught. *)
Definition readBoard (fs : gmap (list string) FS.node) : value :=
  if negb (FS.existsSync fs (DATA_FILE, false)) then VNull
  else
    match FS.readFileSync fs DATA_FILE with
    | None => VNull
    | Some text =>
        let raw := Str.trim text in
        if String.eqb raw "" then VNull
        else
          match JSON.parse raw with
          | Some v => v
          | None => VNull
          end
    end.

(** [writeBoard(data)]; [None]: it throws. *)
Definition writeBoard (fs : gmap (list string) FS.node) (data : value)
  : option (gmap (list string) FS.node) :=
  match JSON.stringify data with
  | Some text => FS.writeFileSync fs DATA_FILE text
  | None => None
  end.

Definition defaultContent : value :=
  VObj [
    ("subtitle", VStr "Click the text to edit. Upload images in Mood & Aesthetic.");
    ("intentionsTitle", VStr "Intentions");
    ("intentionsTag", VStr "Focus");
    ("intentionsItems", VArr [
        VStr "Choose clarity over chaos.";
        VStr "Build momentum with small daily wins.";
        VStr "Be present with people I love.";
        VStr "Create work I’m proud to share." ]);
    ("quoteMain", VStr "“Warm heart, clear mind, steady steps.”");
    ("quoteSub", VStr "My energy for 2026");
    ("habitsTitle", VStr "Habits");
    ("habitsTag", VStr "Daily");
    ("habitsItems", VArr [
        VStr "30 minutes deep work before scrolling.";
        VStr "Move my body (walk, swim, stretch).";
        VStr "One meaningful check-in with someone.";
        VStr "Write 3 lines of gratitude." ]);
    ("moodTitle", VStr "Mood & Aesthetic");
    ("moodTag", VStr "Playful + Warm");
    ("moodHint", VStr "No crop: images keep their full height. This panel scrolls.");
    ("goalsTitle", VStr "Goals");
    ("goalsTag", VStr "Milestones");
    ("goalsItems", VArr [
        VStr "One project shipped that I truly care about.";
        VStr "Stronger health routine (sleep, movement, meals).";
        VStr "More time outdoors + mini trips.";
        VStr "Save and invest consistently." ]);
    ("peopleTitle", VStr "People & Places");
    ("peopleTag", VStr "Connection");
    ("peopleItems", VArr [
        VStr "Make space for friendships that feel easy.";
        VStr "Plan 2–3 meaningful catch-ups each month.";
        VStr "Create a home vibe that feels calm and warm." ]);
    ("footerTip", VStr "Tip: click text to edit. Mood images show fully (no cropping).")
  ].

(** [defaultBoard()] at time [now]. *)
Definition defaultBoard (now : Z) : value :=
  VObj [
    ("version", VNum 1);
    ("updatedAt", VStr (Clock.toISOString now));
    ("content", defaultContent);
    ("moodImages", VArr [])
  ].

(** The store can be written: the data directory is there and the path of
    the document does not name a directory. *)
Definition writable (fs : gmap (list string) FS.node) : Prop :=
  fs !! DATA_DIR = Some FS.Dir /\ fs !! DATA_FILE <> Some FS.Dir.

Definition ok_body : value := VObj [("ok", VBool true)].

Definition error_body (msg : string) : value :=
  VObj [("ok", VBool false); ("error", VStr msg)].


(** POST /api/board with [req.body]. *)
Definition post_board (fs : gmap (list string) FS.node) (now : Z) (req_body : value)
  : gmap (list string) FS.node * response :=
  let body := JS.or req_body (VObj []) in
  if negb (String.eqb (JS.typeof body) "object")
  then (fs, Json 400 (error_body "Invalid payload"))
  else
    let current := JS.or (readBoard fs) (defaultBoard now) in
    let next :=
      VObj [
        ("version", VNum 1);
        ("updatedAt", VStr (Clock.toISOString now));
        ("content",
          if JS.truthy
               (JS.and (JS.get body "content")
                       (VBool (String.eqb (JS.typeof (JS.get body "content")) "object")))
          then JS.get body "content"
          else JS.get current "content");
        ("moodImages",
          if JS.isArray (JS.get body "moodImages")
          then JS.get body "moodImages"
          else JS.get current "moodImages")
      ] in
    match writeBoard fs next with
    | Some fs' => (fs', Json 200 ok_body)
    | None => (fs, ServerError)
    end.

(** The handler of POST /api/upload-mood, after multer has stored the
    files: [files] is [req.files]. *)
Definition upload_mood (fs : gmap (list string) FS.node) (files : option (list stored))
  : gmap (list string) FS.node * response :=
  let saved :=
    List.map (fun f => VObj [("filename", VStr (filename f));
                             ("url", VStr ("/uploads/" +:+ filename f))])
             (default [] files) in
  (fs, Json 200 (VObj [("ok", VBool true); ("files", VArr saved)])).

(** POST /api/delete-mood with [req.body]. *)
Definition delete_mood (fs : gmap (list string) FS.node) (now : Z) (req_body : value)
  : gmap (list string) FS.node * response :=
  let filename := JS.get (JS.or req_body (VObj [])) "filename" in
  match filename with
  | VStr name =>
      if negb (JS.truthy filename)
      then (fs, Json 400 (error_body "filename required"))
      else
        let full := Path.join UPLOAD_DIR name in
        match (if FS.existsSync fs full then FS.unlinkSync fs full else Some fs) with
        | None => (fs, ServerError)
        | Some fs1 =>
            let board := readBoard fs1 in
            match board, JS.get board "moodImages" with
            | VObj o, VArr images =>
                let o1 := JS.set o "moodImages"
                            (VArr (List.filter (JS.strict_neq_str name) images)) in
                let o2 := JS.set o1 "updatedAt" (VStr (Clock.toISOString now)) in
                match writeBoard fs1 (VObj o2) with
                | Some fs2 => (fs2, Json 200 ok_body)
                | None => (fs1, ServerError)
                end
            | _, _ => (fs1, Json 200 ok_body)
            end
        end
  | _ => (fs, Json 400 (error_body "filename required"))
  end.

End Server.

(** ** Notions of the specification *)

(** A structured object in the sense of the specification, which lists
    arrays and numbers as bodies that are not objects. *)
Definition structured_object (v : value) : bool :=
  match v with VObj _ => true | _ => false end.

(** The bodies that the guard of POST /api/board turns down: [req.body || {}]
    does not have type object. *)
Definition rejected (body : value) : bool :=
  JS.truthy body && negb (String.eqb (JS.typeof body) "object").

(** [c && typeof c === "object"], the test of the handler on [body.content]. *)
Definition is_object (c : value) : bool :=
  JS.truthy (JS.and c (VBool (String.eqb (JS.typeof c) "object"))).


(** The content and the images that POST /api/board keeps, for the body
    [body] and the current document [current]. *)
Definition next_content (body current : value) : value :=
  if is_object (JS.get body "content") then JS.get body "content"
  else JS.get current "content".

Definition next_images (body current : value) : value :=
  if JS.isArray (JS.get body "moodImages") then JS.get body "moodImages"
  else JS.get current "moodImages".


(** A small store to run the handlers on: the directories made at start-up
    and nothing else. *)
Definition app : Path.path := ["srv"; "app"].

Definition fresh_store : gmap (list string) FS.node :=
  <[ ["srv"; "app"; "uploads"] := FS.Dir ]>
  (<[ ["srv"; "app"; "data"] := FS.Dir ]>
  (<[ ["srv"; "app"; "public"] := FS.Dir ]>
  (<[ ["srv"; "app"] := FS.Dir ]>
  (<[ ["srv"] := FS.Dir ]>
  (<[ [] := FS.Dir ]> ∅))))).

(** 2026-11-01T18:15:00.123Z *)
Definition some_time : Z := 1793556900123.

Definition with_board (text : string) : gmap (list string) FS.node :=
  <[ DATA_FILE app := FS.File text ]> fresh_store.

(** The BoardDocument of the data model: [version] an integer, [updatedAt]
    a string, [content] a mapping from names to strings or sequences of
    strings, [moodImages] a sequence of strings, in the property order of
    an object. *)
Definition is_text (v : value) : bool :=
  match v with VStr _ => true | _ => false end.

Definition is_text_list (v : value) : bool :=
  match v with VArr l => forallb is_text l | _ => false end.

Definition is_content (v : value) : bool :=
  match v with
  | VObj c =>
      Wf.keys_ok (List.map fst c) &&
      forallb (fun kx => is_text (snd kx) || is_text_list (snd kx)) c
  | _ => false
  end.

Definition is_field (kx : string * value) : bool :=
  let (k, x) := kx in
  if String.eqb k "version" then match x with VNum _ => true | _ => false end
  else if String.eqb k "updatedAt" then is_text x
  else if String.eqb k "content" then is_content x
  else if String.eqb k "moodImages" then is_text_list x
  else false.

Definition is_board (d : value) : bool :=
  match d with
  | VObj o =>
      Wf.keys_ok (List.map fst o) && forallb is_field o &&
      forallb (fun k => match JS.lookup_prop k o with Some _ => true | None => false end)
              ["version"; "updatedAt"; "content"; "moodImages"]
  | _ => false
  end.

Definition a_board : value :=
  VObj [("version", VNum 1);
        ("updatedAt", VStr "2026-01-01T00:00:00.000Z");
        ("content", VObj [("subtitle", VStr "hello"); ("goalsItems", VArr [VStr "one"; VStr "two"])]);
        ("moodImages", VArr [VStr "mood_20260101000000_1234.png"])].

Definition a_picture : string := "mood_20260101000000_1234.png".

(** A store that holds [a_board] and the picture it lists. *)
Definition pictures_store : gmap (list string) FS.node :=
  <[ ["srv"; "app"; "uploads"; a_picture] := FS.File "PNG" ]>
  (with_board (JSON.serialize 0 a_board)).

(** The six fields of the time stamp of a file name, as digits. *)
Definition stamp (t : Z) : string :=
  Clock.digits 4 (Clock.YearFromTime t) +:+ Clock.digits 2 (Clock.MonthFromTime t) +:+
  Clock.digits 2 (Clock.DateFromTime t) +:+ Clock.digits 2 (Clock.HourFromTime t) +:+
  Clock.digits 2 (Clock.MinFromTime t) +:+ Clock.digits 2 (Clock.SecFromTime t).

Definition no_slash (s : string) : bool :=
  string_forallb (fun c => negb (Ascii.eqb c "/")) s.

(** The integers from 1000 to 9999 are printed with four digits. *)
Definition four_digits (n : Z) : bool :=
  (String.length (Z_to_string n) =? 4)%nat && string_forallb is_digit (Z_to_string n).

Fixpoint all_from (p : Z -> bool) (start : Z) (count : nat) : bool :=
  match count with
  | O => true
  | S k => p start && all_from p (start + 1) k
  end.

(** ** Further notions *)

(** A text without a dot. *)
Definition no_dot (s : string) : bool :=
  string_forallb (fun c => negb (Ascii.eqb c ".")) s.

(** A character that is neither a dot nor a separator. *)
Definition plainb (c : ascii) : bool := negb (Ascii.eqb c ".") && negb (Ascii.eqb c "/").


(** *** Dates back from their fields *)

(** Year of the era, month and day of the month of a day of the era, as
    [Clock.civil] computes them. *)
Definition of_doe (doe : Z) : Z * Z * Z :=
  let yoe := (doe - doe / 1460 + doe / 36524 - doe / 146096) / 365 in
  let doy := doe - (365 * yoe + yoe / 4 - yoe / 100) in
  let mp := (5 * doy + 2) / 153 in
  let d := doy - (153 * mp + 2) / 5 + 1 in
  let m := if mp <? 10 then mp + 3 else mp - 9 in
  (yoe, m, d).

(** The day of the era of a year of the era, a month and a day. *)
Definition to_doe (yoe m d : Z) : Z :=
  let mp := if 2 <? m then m - 3 else m + 9 in
  let doy := (153 * mp + 2) / 5 + d - 1 in
  yoe * 365 + yoe / 4 - yoe / 100 + doy.

(** The day number of a date. *)
Definition days_from_civil (y m d : Z) : Z :=
  let y' := if m <=? 2 then y - 1 else y in
  (y' / 400) * 146097 + to_doe (y' mod 400) m d - 719468.

Definition doe_ok (doe : Z) : bool :=
  let '(yoe, m, d) := of_doe doe in
  (0 <=? yoe) && (yoe <=? 399) && (1 <=? m) && (m <=? 12) && (1 <=? d) && (d <=? 31) &&
  (to_doe yoe m d =? doe).

(** The time value of a date and a time of day. *)
Definition time_of_fields (y m d h mi s ms : Z) : Z :=
  (((days_from_civil y m d * 24 + h) * 60 + mi) * 60 + s) * 1000 + ms.

(** The integer that [genMoodFilename] draws, [Math.random()] being [rnd]. *)
Definition drawn (rnd : Z) : Z :=
  F64.floor (F64.add (F64.of_int 1000) (F64.mul rnd (F64.of_int 9000))).


(** *** The states that the requests reach *)

(** One request that may change the store: POST /api/board with a body out
    of a JSON text or with none ([req.body || {}] is a value of a JSON
    text), POST /api/delete-mood with any body, or the storing of one
    uploaded file.  (GET /api/board and the handler of the upload leave
    the store alone.) *)
Inductive request (dirname : Path.path)
  : gmap (list string) FS.node -> gmap (list string) FS.node -> Prop :=
| request_post fs now body :
    Wf.json (JS.or body (VObj [])) = true ->
    request dirname fs (fst (post_board dirname fs now body))
| request_delete fs now body :
    request dirname fs (fst (delete_mood dirname fs now body))
| request_upload fs name data now rnd fs' st :
    store_file dirname fs name data now rnd = Some (fs', st) -> request dirname fs fs'.


(** ** Facts about text *)

Lemma app_assoc_s (a b c : string) : (a +:+ b) +:+ c = a +:+ (b +:+ c).
Proof. induction a as [|x a IH]; simpl; [reflexivity | now rewrite IH]. Qed.

Lemma app_nil_r_s (a : string) : a +:+ "" = a.
Proof. induction a as [|x a IH]; simpl; [reflexivity | now rewrite IH]. Qed.

Lemma length_app_s (a b : string) :
  String.length (a +:+ b) = (String.length a + String.length b)%nat.
Proof. induction a as [|x a IH]; simpl; [reflexivity | now rewrite IH]. Qed.

Module RoundTrip.

#[local] Arguments wrap : simpl never.
#[local] Arguments newline : simpl never.

Lemma skip_ws_spaces n s : skip_ws (spaces n +:+ s) = skip_ws s.
Proof. induction n as [|n IH]; simpl; [reflexivity | exact IH]. Qed.

Lemma skip_ws_newline d s : skip_ws (newline d +:+ s) = skip_ws s.
Proof. unfold newline. simpl. apply skip_ws_spaces. Qed.


Lemma parse_chars_escape c r :
  parse_chars (escape_char c +:+ r) = prepend (str1 c) (parse_chars r).
Proof.
  destruct c as [[] [] [] [] [] [] [] []]; reflexivity.
Qed.

Lemma parse_chars_quote s rest :
  parse_chars (escape s +:+ String dquote rest) = Some (s, rest).
Proof.
  induction s as [|c s IH]; simpl.
  - reflexivity.
  - rewrite app_assoc_s, parse_chars_escape, IH. reflexivity.
Qed.


Lemma digits_of_uint d : string_forallb is_digit (NilEmpty.string_of_uint d) = true.
Proof. induction d; simpl; auto. Qed.

Lemma span_digits_app ds rest :
  string_forallb is_digit ds = true -> ends_ok rest = true ->
  span_digits (ds +:+ rest) = (ds, rest).
Proof.
  intros Hd Hr. induction ds as [|c ds IH]; simpl in *.
  - destruct rest as [|c r]; [reflexivity|]. simpl in *.
    apply orb_true_iff in Hr as [H|H]; apply Ascii.eqb_eq in H; subst c; reflexivity.
  - apply andb_true_iff in Hd as [Hc Hd]. rewrite Hc, (IH Hd). reflexivity.
Qed.

Lemma unorm_no_leading_zero d u : Decimal.unorm d = Decimal.D0 u -> u = Decimal.Nil.
Proof.
  induction d as [|d IH|d IH|d IH|d IH|d IH|d IH|d IH|d IH|d IH|d IH];
    simpl; intros H; try discriminate.
  - now inversion H.
  - auto.
Qed.

Lemma to_uint_unorm p : Pos.to_uint p = Decimal.unorm (Pos.to_uint p).
Proof.
  pose proof (DecimalN.Unsigned.to_of (Pos.to_uint p)) as H.
  change (N.of_uint (Pos.to_uint p)) with (Pos.of_uint (Pos.to_uint p)) in H.
  rewrite DecimalPos.Unsigned.of_to in H. simpl in H. exact H.
Qed.

Lemma of_to_uint p : Z.of_uint (Pos.to_uint p) = Z.pos p.
Proof. unfold Z.of_uint. now rewrite DecimalPos.Unsigned.of_to. Qed.

(** The decimal text of a positive number: digits, the first one not 0. *)
Lemma pos_text p :
  exists c t, NilZero.string_of_uint (Pos.to_uint p) = String c t /\
    is_digit c = true /\ Ascii.eqb c "0" = false /\
    string_forallb is_digit t = true /\
    NilZero.uint_of_string (String c t) = Some (Pos.to_uint p).
Proof.
  pose proof (DecimalPos.Unsigned.to_uint_nonnil p) as Hn.
  pose proof (to_uint_unorm p) as Hu.
  pose proof (NilZero.usu _ Hn) as Hr.
  pose proof (digits_of_uint (Pos.to_uint p)) as Hd.
  destruct (Pos.to_uint p) as [|u|u|u|u|u|u|u|u|u|u] eqn:E; try congruence.
  1: { symmetry in Hu. apply unorm_no_leading_zero in Hu. subst u.
       exfalso. now apply (DecimalPos.Unsigned.to_uint_nonzero p). }
  all: simpl in Hd; simpl NilZero.string_of_uint in *;
    eexists _, _; split; [reflexivity|]; split; [reflexivity|]; split; [reflexivity|];
    split; [exact Hd | exact Hr].
Qed.

Lemma ends_ok_not_fraction rest : ends_ok rest = true -> starts_fraction rest = false.
Proof.
  destruct rest as [|x r]; [reflexivity|]. simpl. intros Hr.
  apply orb_true_iff in Hr as [H|H]; apply Ascii.eqb_eq in H; subst x; reflexivity.
Qed.

Lemma parse_int_pos neg p rest :
  ends_ok rest = true ->
  parse_int neg (NilZero.string_of_uint (Pos.to_uint p) +:+ rest) =
  Some (if neg then Z.neg p else Z.pos p, rest).
Proof.
  intros Hr. destruct (pos_text p) as (c & t & E & Hc & H0 & Ht & Hu). rewrite E.
  unfold parse_int. rewrite span_digits_app; [|simpl; now rewrite Hc, Ht|assumption].
  rewrite H0. simpl andb. cbv iota. rewrite (ends_ok_not_fraction _ Hr), Hu, of_to_uint.
  now destruct neg.
Qed.

Lemma digit_not_minus p c t :
  NilZero.string_of_uint (Pos.to_uint p) = String c t -> Ascii.eqb c "-" = false.
Proof.
  intros E. destruct (pos_text p) as (c' & t' & E' & Hc & _). rewrite E in E'.
  inversion E'; subst c' t'.
  destruct c as [[] [] [] [] [] [] [] []]; try reflexivity; discriminate.
Qed.

Lemma parse_number_text z rest :
  ends_ok rest = true ->
  parse_number (Z_to_string z +:+ rest) = Some (z, rest).
Proof.
  intros Hr. unfold Z_to_string. destruct z as [|p|p]; simpl Z.to_int; simpl NilZero.string_of_int.
  - simpl. unfold parse_int. simpl.
    assert (Hs : span_digits rest = ("", rest)) by (apply (span_digits_app ""); auto).
    rewrite Hs. simpl. now rewrite (ends_ok_not_fraction _ Hr).
  - pose proof (parse_int_pos false p rest Hr) as H.
    destruct (NilZero.string_of_uint (Pos.to_uint p)) as [|c t] eqn:E.
    + destruct (pos_text p) as (c' & t' & E' & _). congruence.
    + simpl. rewrite (digit_not_minus p c t E). exact H.
  - simpl. apply (parse_int_pos true p rest Hr).
Qed.


Lemma value_ind' (P : value -> Prop)
  (Hu : P VUndefined) (Hn : P VNull) (Hb : forall b, P (VBool b))
  (Hz : forall n, P (VNum n)) (Hs : forall s, P (VStr s))
  (Ha : forall l, Forall P l -> P (VArr l))
  (Ho : forall o, Forall (fun kx => P (snd kx)) o -> P (VObj o)) :
  forall v, P v.
Proof.
  fix IH 1. intros [| |b|n|s|l|o].
  - exact Hu.
  - exact Hn.
  - apply Hb.
  - apply Hz.
  - apply Hs.
  - apply Ha. induction l as [|x l IHl]; constructor; [apply IH | exact IHl].
  - apply Ho. induction o as [|[k x] o IHo]; constructor; [apply IH | exact IHo].
Qed.

Lemma serialize_arr d l :
  serialize d (VArr l) = wrap "[" "]" d (List.map (element_text d) l).
Proof. reflexivity. Qed.

Lemma serialize_obj d o :
  serialize d (VObj o) = wrap "{" "}" d (member_texts d o).
Proof.
  simpl. f_equal. induction o as [|[k x] o IH]; [reflexivity|].
  simpl. now rewrite IH.
Qed.

Lemma size_arr l : size (VArr l) = S (sizes l).
Proof. reflexivity. Qed.

Lemma size_obj o : size (VObj o) = S (psizes o).
Proof. reflexivity. Qed.

Lemma json_obj o : json (VObj o) = keys_ok (List.map fst o) && all_json o.
Proof.
  simpl. f_equal. induction o as [|[k x] o IH]; [reflexivity|].
  simpl. now rewrite IH.
Qed.



Lemma join_items d ts tail :
  ts <> [] ->
  newline (S d) +:+ join (String "," (newline (S d))) ts +:+ tail = items d ts tail.
Proof.
  induction ts as [|t ts IH]; [congruence|]. intros _.
  destruct ts as [|t' ts].
  - reflexivity.
  - change (items d (t :: t' :: ts) tail)
      with (newline (S d) +:+ t +:+ String "," (items d (t' :: ts) tail)).
    rewrite <- IH by congruence.
    change (join (String "," (newline (S d))) (t :: t' :: ts))
      with (t +:+ String "," (newline (S d)) +:+ join (String "," (newline (S d))) (t' :: ts)).
    rewrite !app_assoc_s. reflexivity.
Qed.

Lemma wrap_cons o c d t ts rest :
  wrap o c d (t :: ts) +:+ rest =
  String o (items d (t :: ts) (newline d +:+ String c rest)).
Proof.
  unfold wrap.
  match goal with |- String o ?X +:+ rest = _ =>
    change (String o X +:+ rest) with (String o (X +:+ rest)) end.
  rewrite !app_assoc_s. change (str1 c +:+ rest) with (String c rest).
  f_equal. apply join_items. congruence.
Qed.

Lemma parse_value_skip f s s' : skip_ws s = skip_ws s' -> parse_value f s = parse_value f s'.
Proof. intros H. destruct f; simpl; [reflexivity | now rewrite H]. Qed.

Lemma parse_members_skip f s s' acc :
  skip_ws s = skip_ws s' -> parse_members f s acc = parse_members f s' acc.
Proof. intros H. destruct f; simpl; [reflexivity | now rewrite H]. Qed.


Lemma num_head z :
  exists c t, Z_to_string z = String c t /\ (is_digit c = true \/ c = "-"%char).
Proof.
  unfold Z_to_string. destruct z as [|p|p]; simpl.
  - eexists _, _. split; [reflexivity | now left].
  - destruct (pos_text p) as (c & t & E & Hc & _). rewrite E. eauto.
  - eexists _, _. split; [reflexivity | now right].
Qed.

Lemma num_head_char c :
  is_digit c = true \/ c = "-"%char ->
  is_ws c = false /\ Ascii.eqb c "]" = false /\ Ascii.eqb c "{" = false /\
  Ascii.eqb c "[" = false /\ Ascii.eqb c dquote = false /\ Ascii.eqb c "n" = false /\
  Ascii.eqb c "t" = false /\ Ascii.eqb c "f" = false.
Proof.
  intros [H|H]; [|subst c; repeat split; reflexivity].
  destruct c as [[] [] [] [] [] [] [] []]; try discriminate H; repeat split; reflexivity.
Qed.

Lemma wrap_head o c d ts : exists t, wrap o c d ts = String o t.
Proof. destruct ts; unfold wrap; eauto. Qed.

Lemma serialize_head d v :
  json v = true ->
  exists c t, serialize d v = String c t /\ is_ws c = false /\ Ascii.eqb c "]" = false.
Proof.
  destruct v as [| |b|n|s|l|o]; intros H; try discriminate H.
  - simpl; eauto.
  - destruct b; simpl; eauto.
  - destruct (num_head n) as (c & t & E & Hc). simpl. rewrite E.
    apply num_head_char in Hc. exists c, t. tauto.
  - simpl. unfold quote. eexists _, _. split; [reflexivity | split; reflexivity].
  - rewrite serialize_arr. destruct (wrap_head "[" "]" d (List.map (element_text d) l)) as [t E].
    rewrite E. eexists _, _. split; [reflexivity | split; reflexivity].
  - rewrite serialize_obj. destruct (wrap_head "{" "}" d (member_texts d o)) as [t E].
    rewrite E. eexists _, _. split; [reflexivity | split; reflexivity].
Qed.


Lemma key_before_app k a b :
  key_before k (a ++ b) = true -> key_before k a = true /\ key_before k b = true.
Proof.
  unfold key_before. rewrite forallb_app. intros H.
  apply andb_true_iff in H as [H1 H2]. apply andb_true_iff in H1 as [Ha Hb].
  rewrite Ha, Hb. simpl.
  destruct (JS.array_index k); rewrite forallb_app in H2;
    apply andb_true_iff in H2 as [-> ->]; auto.
Qed.

Lemma keys_ok_app a b : keys_ok (a ++ b) = true -> keys_ok a = true /\ keys_ok b = true.
Proof.
  induction a as [|k a IH]; simpl; [auto|]. intros H.
  apply andb_true_iff in H as [H1 H2]. destruct (IH H2) as [Ha Hb].
  apply key_before_app in H1 as [H1 _]. rewrite H1, Ha. auto.
Qed.

Lemma lookup_fresh acc k :
  keys_ok (List.map fst acc ++ [k]) = true -> JS.lookup_prop k acc = None.
Proof.
  induction acc as [|[k0 x] acc IH]; simpl; [reflexivity|]. intros H.
  apply andb_true_iff in H as [H1 H2]. rewrite (IH H2).
  apply key_before_app in H1 as [_ H1]. unfold key_before in H1. simpl in H1.
  apply andb_true_iff in H1 as [H1 _]. rewrite andb_true_r in H1.
  rewrite String.eqb_sym. apply negb_true_iff in H1. now rewrite H1.
Qed.

Lemma insert_index_last acc i k v :
  JS.array_index k = Some i ->
  keys_ok (List.map fst acc ++ [k]) = true ->
  JS.insert_index i k v acc = acc ++ [(k, v)].
Proof.
  intros Hk. induction acc as [|[k0 x] acc IH]; simpl; [reflexivity|]. intros H.
  apply andb_true_iff in H as [H1 H2]. rewrite (IH H2).
  apply key_before_app in H1 as [_ H1]. unfold key_before in H1. simpl in H1.
  apply andb_true_iff in H1 as [_ H1].
  destruct (JS.array_index k0) as [j|].
  - simpl in H1. rewrite Hk, andb_true_r in H1.
    assert ((i <? j) = false) as -> by lia. reflexivity.
  - simpl in H1. unfold is_index in H1. rewrite Hk in H1. discriminate.
Qed.

Lemma set_append acc k v :
  keys_ok (List.map fst acc ++ [k]) = true -> JS.set acc k v = acc ++ [(k, v)].
Proof.
  intros H. unfold JS.set. rewrite (lookup_fresh _ _ H).
  destruct (JS.array_index k) as [i|] eqn:E; [|reflexivity].
  now apply insert_index_last.
Qed.

Lemma element_text_json d x : json x = true -> element_text d x = serialize (S d) x.
Proof. destruct x; simpl; intros H; try reflexivity; discriminate. Qed.

Lemma items_head d t ts tail : exists s, items d (t :: ts) tail = newline (S d) +:+ t +:+ s.
Proof. simpl. eauto. Qed.

Lemma ends_ok_newline d s : ends_ok (newline d +:+ s) = true.
Proof. reflexivity. Qed.

Lemma items_one d t tail : items d [t] tail = newline (S d) +:+ t +:+ tail.
Proof. reflexivity. Qed.

Lemma items_more d t t' r tail :
  items d (t :: t' :: r) tail = newline (S d) +:+ t +:+ String "," (items d (t' :: r) tail).
Proof. reflexivity. Qed.

Lemma parse_elements_items l :
  Forall parses l -> forallb json l = true -> l <> [] ->
  forall fuel acc d rest, (sizes l <= fuel)%nat ->
  parse_elements fuel (items d (List.map (element_text d) l) (newline d +:+ String "]" rest)) acc
  = Some (VArr (List.rev acc ++ l), rest).
Proof.
  induction l as [|x l IH]; [congruence|].
  intros HP Hj _ fuel acc d rest Hf.
  apply Forall_cons_1 in HP as [Px Pl]. simpl in Hj. apply andb_true_iff in Hj as [Hx Hl].
  simpl in Hf. destruct fuel as [|f]; [lia|].
  destruct l as [|y l].
  - cbn [List.map]. rewrite items_one, (element_text_json d x Hx).
    cbn [parse_elements].
    rewrite (parse_value_skip f _ _ (skip_ws_newline (S d) _)).
    rewrite (Px Hx f (S d) _ ltac:(lia) (ends_ok_newline d _)).
    rewrite skip_ws_newline. reflexivity.
  - change (List.map (element_text d) (x :: y :: l))
      with (element_text d x :: element_text d y :: List.map (element_text d) l).
    rewrite items_more, (element_text_json d x Hx).
    cbn [parse_elements].
    rewrite (parse_value_skip f _ _ (skip_ws_newline (S d) _)).
    unfold parses in Px. rewrite Px; [|exact Hx|lia|reflexivity].
    cbn [skip_ws]. change (is_ws ",") with false. cbv iota.
    change (Ascii.eqb "," ",") with true. cbv iota.
    change (element_text d y :: List.map (element_text d) l)
      with (List.map (element_text d) (y :: l)).
    rewrite (IH Pl Hl ltac:(congruence) f (x :: acc) d rest ltac:(simpl in *; lia)).
    simpl. rewrite <- app_assoc. reflexivity.
Qed.


Lemma member_texts_cons d k x r :
  json x = true ->
  member_texts d ((k, x) :: r) =
  (quote k +:+ ": " +:+ serialize (S d) x) :: member_texts d r.
Proof. destruct x; simpl; intros H; try reflexivity; discriminate. Qed.

Lemma member_text_shape k s tail :
  (quote k +:+ ": " +:+ s) +:+ tail =
  String dquote (escape k +:+ String dquote (String ":" (String " " (s +:+ tail)))).
Proof.
  unfold quote. cbn [String.append]. f_equal. rewrite !app_assoc_s. reflexivity.
Qed.

Lemma parse_member f d k x tail acc :
  parses x -> json x = true -> (size x <= f)%nat -> ends_ok tail = true ->
  parse_members (S f) (newline (S d) +:+ (quote k +:+ ": " +:+ serialize (S d) x) +:+ tail) acc =
  match skip_ws tail with
  | "" => None
  | String c' r4 =>
      if Ascii.eqb c' "," then parse_members f r4 (JS.set acc k x)
      else if Ascii.eqb c' "}" then Some (VObj (JS.set acc k x), r4)
      else None
  end.
Proof.
  intros Px Hx Hf He.
  rewrite (parse_members_skip (S f) _ _ acc (skip_ws_newline (S d) _)).
  rewrite member_text_shape. cbn [parse_members skip_ws].
  change (is_ws dquote) with false. cbv iota.
  change (Ascii.eqb dquote dquote) with true. cbv iota.
  rewrite parse_chars_quote. cbn [skip_ws].
  change (is_ws ":") with false. cbv iota.
  change (Ascii.eqb ":" ":") with true. cbv iota.
  rewrite (parse_value_skip f (String " " (serialize (S d) x +:+ tail))
             (serialize (S d) x +:+ tail) eq_refl).
  unfold parses in Px. rewrite Px by assumption. reflexivity.
Qed.

Lemma parse_members_items o :
  Forall (fun kx => parses (snd kx)) o -> all_json o = true -> o <> [] ->
  forall fuel acc d rest, (psizes o <= fuel)%nat ->
  keys_ok (List.map fst (acc ++ o)) = true ->
  parse_members fuel (items d (member_texts d o) (newline d +:+ String "}" rest)) acc
  = Some (VObj (acc ++ o), rest).
Proof.
  induction o as [|[k x] o IH]; [congruence|].
  intros HP Hj _ fuel acc d rest Hf Hk.
  apply Forall_cons_1 in HP as [Px Po]. simpl in Px.
  unfold all_json in Hj. simpl in Hj. apply andb_true_iff in Hj as [Hx Ho].
  simpl in Hf. destruct fuel as [|f]; [lia|].
  assert (Hset : JS.set acc k x = acc ++ [(k, x)]).
  { apply set_append. rewrite List.map_app in Hk.
    change (List.map fst ((k, x) :: o)) with ([k] ++ List.map fst o) in Hk.
    rewrite app_assoc in Hk. now apply keys_ok_app in Hk as [Hk _]. }
  rewrite (member_texts_cons d k x o Hx).
  destruct o as [|[k' x'] o].
  - cbn [member_texts]. rewrite items_one.
    rewrite parse_member; [|assumption|assumption|lia|apply ends_ok_newline].
    rewrite skip_ws_newline. cbn [skip_ws]. rewrite Hset. reflexivity.
  - assert (Hx' : json x' = true).
    { simpl in Ho. now apply andb_true_iff in Ho as [Hx' _]. }
    rewrite (member_texts_cons d k' x' o Hx').
    rewrite items_more.
    rewrite parse_member; [|assumption|assumption|lia|reflexivity].
    cbn [skip_ws]. change (is_ws ",") with false. cbv iota.
    change (Ascii.eqb "," ",") with true. cbv iota.
    rewrite <- (member_texts_cons d k' x' o Hx').
    rewrite Hset.
    rewrite (IH Po Ho ltac:(congruence) f (acc ++ [(k, x)]) d rest ltac:(simpl in *; lia)).
    + rewrite <- app_assoc. reflexivity.
    + rewrite <- app_assoc. exact Hk.
Qed.

Lemma parse_serialize v : parses v.
Proof.
  induction v as [| |b|n|s|l IHl|o IHo] using value_ind';
    intros Hj fuel d rest Hf He; try discriminate Hj;
    (destruct fuel as [|f]; [simpl in Hf; lia|]).
  - reflexivity.
  - destruct b; reflexivity.
  - destruct (num_head n) as (c & t & E & Hc).
    apply num_head_char in Hc as (H1 & H2 & H3 & H4 & H5 & H6 & H7 & H8).
    pose proof (parse_number_text n rest He) as Hn.
    cbn [serialize]. rewrite E in *. cbn [String.append] in *.
    cbn [parse_value skip_ws]. rewrite H1, H3, H4, H5, H6, H7, H8, Hn. reflexivity.
  - cbn [serialize]. unfold quote. cbn [String.append parse_value skip_ws].
    change (is_ws dquote) with false. cbv iota.
    change (Ascii.eqb dquote "{") with false. change (Ascii.eqb dquote "[") with false.
    change (Ascii.eqb dquote dquote) with true. cbv iota.
    rewrite app_assoc_s. change (str1 dquote +:+ rest) with (String dquote rest).
    rewrite parse_chars_quote. reflexivity.
  - rewrite serialize_arr. rewrite size_arr in Hf. destruct l as [|x l]; [reflexivity|].
    cbn [List.map]. rewrite wrap_cons. cbn [parse_value skip_ws].
    change (is_ws "[") with false. cbv iota.
    change (Ascii.eqb "[" "{") with false. change (Ascii.eqb "[" "[") with true. cbv iota.
    assert (Hx : json x = true /\ forallb json l = true).
    { simpl in Hj. now apply andb_true_iff in Hj. }
    destruct (items_head d (element_text d x) (List.map (element_text d) l)
                (newline d +:+ String "]" rest)) as [tl Etl].
    destruct (serialize_head (S d) x (proj1 Hx)) as (c & t & Ec & Hc1 & Hc2).
    assert (Hsk : skip_ws (items d (element_text d x :: List.map (element_text d) l)
                             (newline d +:+ String "]" rest)) = String c (t +:+ tl)).
    { rewrite Etl, skip_ws_newline, (element_text_json _ _ (proj1 Hx)), Ec.
      cbn [String.append skip_ws]. now rewrite Hc1. }
    rewrite Hsk, Hc2.
    change (element_text d x :: List.map (element_text d) l)
      with (List.map (element_text d) (x :: l)).
    rewrite parse_elements_items; [reflexivity|assumption|assumption|congruence|lia].
  - rewrite serialize_obj. rewrite size_obj in Hf. rewrite json_obj in Hj.
    apply andb_true_iff in Hj as [Hk Ha].
    destruct o as [|[k x] o]; [reflexivity|].
    assert (Hx : json x = true).
    { unfold all_json in Ha. simpl in Ha. now apply andb_true_iff in Ha as [Hx _]. }
    rewrite (member_texts_cons d k x o Hx). rewrite wrap_cons. cbn [parse_value skip_ws].
    change (is_ws "{") with false. cbv iota.
    change (Ascii.eqb "{" "{") with true. cbv iota.
    destruct (items_head d (quote k +:+ ": " +:+ serialize (S d) x) (member_texts d o)
                (newline d +:+ String "}" rest)) as [tl Etl].
    assert (Hsk : skip_ws (items d ((quote k +:+ ": " +:+ serialize (S d) x) :: member_texts d o)
                             (newline d +:+ String "}" rest))
                  = String dquote (((escape k +:+ str1 dquote) +:+ ": " +:+ serialize (S d) x) +:+ tl)).
    { rewrite Etl, skip_ws_newline. reflexivity. }
    rewrite Hsk. change (Ascii.eqb dquote "}") with false. cbv iota.
    rewrite <- (member_texts_cons d k x o Hx).
    rewrite (parse_members_items _ IHo Ha ltac:(congruence) f [] d rest ltac:(lia) Hk).
    reflexivity.
Qed.


Lemma length_items d ts tail :
  (list_sum (List.map (fun t => S (String.length t)) ts) <= String.length (items d ts tail))%nat.
Proof.
  induction ts as [|t ts IH]; [simpl; lia|].
  destruct ts as [|t' ts].
  - rewrite items_one, !length_app_s. simpl. lia.
  - rewrite items_more, !length_app_s.
    change (String.length (String "," (items d (t' :: ts) tail)))
      with (S (String.length (items d (t' :: ts) tail))).
    change (list_sum (List.map (fun t => S (String.length t)) (t :: t' :: ts)))
      with (S (String.length t) + list_sum (List.map (fun t => S (String.length t)) (t' :: ts)))%nat.
    lia.
Qed.

Lemma length_wrap o c d ts :
  (S (list_sum (List.map (fun t => S (String.length t)) ts)) <= String.length (wrap o c d ts))%nat.
Proof.
  destruct ts as [|t ts]; [simpl; lia|].
  rewrite <- (app_nil_r_s (wrap o c d (t :: ts))), wrap_cons. cbn [String.length].
  pose proof (length_items d (t :: ts) (newline d +:+ String c "")). lia.
Qed.

Lemma size_le_length v : json v = true -> forall d, (size v <= String.length (serialize d v))%nat.
Proof.
  induction v as [| |b|n|s|l IHl|o IHo] using value_ind'; intros Hj d; try discriminate Hj.
  - simpl; lia.
  - destruct b; simpl; lia.
  - destruct (num_head n) as (c & t & E & _). simpl. rewrite E. simpl. lia.
  - simpl. lia.
  - rewrite serialize_arr, size_arr. pose proof (length_wrap "[" "]" d (List.map (element_text d) l)) as H.
    enough (sizes l <= list_sum (List.map (fun t => S (String.length t)) (List.map (element_text d) l)))%nat by lia.
    clear H. simpl in Hj. induction l as [|x l IH]; [simpl; lia|].
    apply Forall_cons_1 in IHl as [Hx Hl]. simpl in Hj. apply andb_true_iff in Hj as [Jx Jl].
    simpl. rewrite (element_text_json d x Jx). specialize (Hx Jx (S d)). specialize (IH Hl Jl). lia.
  - rewrite serialize_obj, size_obj. rewrite json_obj in Hj. apply andb_true_iff in Hj as [_ Hj].
    pose proof (length_wrap "{" "}" d (member_texts d o)) as H.
    enough (psizes o <= list_sum (List.map (fun t => S (String.length t)) (member_texts d o)))%nat by lia.
    clear H. induction o as [|[k x] o IH]; [simpl; lia|].
    apply Forall_cons_1 in IHo as [Hx Ho]. unfold all_json in Hj. simpl in Hj, Hx.
    apply andb_true_iff in Hj as [Jx Jo].
    rewrite (member_texts_cons d k x o Jx). cbn [List.map list_sum fold_right psizes].
    rewrite !length_app_s.
    specialize (Hx Jx (S d)). specialize (IH Ho Jo). unfold list_sum in IH. lia.
Qed.

(** Parsing the text that [JSON.stringify] gives for a value gives the value
    back. *)
Lemma parse_stringify v text :
  json v = true -> stringify v = Some text -> parse text = Some v.
Proof.
  intros Hj Hs. unfold stringify in Hs.
  destruct (is_undefined v); [discriminate|]. injection Hs as <-.
  unfold parse. rewrite <- (app_nil_r_s (serialize 0 v)) at 2.
  rewrite (parse_serialize v Hj); [reflexivity | | reflexivity].
  pose proof (size_le_length v Hj 0%nat). lia.
Qed.

Lemma stringify_json v : json v = true -> stringify v = Some (serialize 0 v).
Proof. destruct v; simpl; intros H; try reflexivity; discriminate. Qed.

End RoundTrip.
Import RoundTrip.
Module ParseWf.

Lemma array_index_text k i : JS.array_index k = Some i -> Z_to_string i = k.
Proof.
  unfold JS.array_index. destruct (NilZero.uint_of_string k) as [u|]; [|discriminate].
  destruct (String.eqb (Z_to_string (Z.of_uint u)) k) eqn:E; simpl; [|discriminate].
  destruct (Z.of_uint u <? 4294967295); [|discriminate].
  intros H. injection H as <-. now apply String.eqb_eq.
Qed.

Lemma map_fst_replace k v o : List.map fst (JS.replace_prop k v o) = List.map fst o.
Proof.
  induction o as [|[k0 x] o IH]; simpl; [reflexivity|].
  destruct (String.eqb k k0); simpl; [reflexivity | now rewrite IH].
Qed.

Lemma lookup_none_keys k o :
  JS.lookup_prop k o = None ->
  forallb (fun k' => negb (String.eqb k k')) (List.map fst o) = true.
Proof.
  induction o as [|[k0 x] o IH]; simpl; [reflexivity|].
  destruct (String.eqb k k0); [discriminate|]. intros H. now rewrite IH.
Qed.


Lemma key_before_spec k r :
  key_before k r = true <->
  forall k', In k' r ->
    String.eqb k k' = false /\
    match JS.array_index k, JS.array_index k' with
    | Some i, Some j => i < j
    | Some _, None => True
    | None, Some _ => False
    | None, None => True
    end.
Proof.
  unfold key_before. rewrite andb_true_iff, forallb_forall. split.
  - intros [H1 H2] k' Hk. split; [specialize (H1 k' Hk); now apply negb_true_iff in H1|].
    destruct (JS.array_index k) as [i|]; rewrite forallb_forall in H2; specialize (H2 k' Hk).
    + destruct (JS.array_index k'); [lia | exact I].
    + unfold is_index in H2. destruct (JS.array_index k'); [discriminate | exact I].
  - intros H. split.
    + intros k' Hk. apply negb_true_iff. apply (H k' Hk).
    + destruct (JS.array_index k) as [i|]; apply forallb_forall; intros k' Hk;
        destruct (H k' Hk) as [_ H2]; unfold is_index;
        destruct (JS.array_index k'); try lia; try reflexivity; contradiction.
Qed.

Lemma keys_ok_single k : keys_ok [k] = true.
Proof. unfold keys_ok, key_before. simpl. now destruct (JS.array_index k). Qed.

Lemma keys_ok_snoc ks k :
  keys_ok ks = true ->
  forallb (fun k' => negb (String.eqb k k')) ks = true ->
  JS.array_index k = None ->
  keys_ok (ks ++ [k]) = true.
Proof.
  intros Hk Hn Hi. induction ks as [|k0 ks IH]; [apply keys_ok_single|].
  simpl in *. apply andb_true_iff in Hk as [H1 H2]. apply andb_true_iff in Hn as [N1 N2].
  rewrite (IH H2 N2), andb_true_r. apply key_before_spec. intros k' Hin.
  apply in_app_or in Hin as [Hin|[<-|[]]].
  - now apply (proj1 (key_before_spec k0 ks) H1).
  - rewrite Hi. split.
    + rewrite String.eqb_sym. now apply negb_true_iff.
    + destruct (JS.array_index k0); exact I.
Qed.

Lemma insert_index_in i k v o k' :
  In k' (List.map fst (JS.insert_index i k v o)) -> k' = k \/ In k' (List.map fst o).
Proof.
  induction o as [|[k0 x] o IH]; simpl.
  - intros [<-|[]]. now left.
  - destruct (JS.array_index k0) as [j|]; [destruct (i <? j)|]; simpl; intros H;
      try (destruct H as [<-|H]; [now left | now right]).
    destruct H as [<-|H]; [right; now left|]. destruct (IH H); [now left | right; now right].
Qed.

Lemma keys_ok_insert_index i k v o :
  keys_ok (List.map fst o) = true ->
  forallb (fun k' => negb (String.eqb k k')) (List.map fst o) = true ->
  JS.array_index k = Some i ->
  keys_ok (List.map fst (JS.insert_index i k v o)) = true.
Proof.
  intros Hk Hn Hi. induction o as [|[k0 x] o IH]; [apply keys_ok_single|].
  simpl in Hk, Hn. apply andb_true_iff in Hk as [H1 H2]. apply andb_true_iff in Hn as [N1 N2].
  apply negb_true_iff in N1.
  pose proof (proj1 (key_before_spec k0 _) H1) as B0.
  assert (Hfresh : forall k', In k' (List.map fst o) -> String.eqb k k' = false).
  { intros k' Hin. rewrite forallb_forall in N2. apply negb_true_iff. now apply N2. }
  cbn [JS.insert_index]. destruct (JS.array_index k0) as [j|] eqn:E0.
  - destruct (i <? j) eqn:Hij.
    + change (List.map fst ((k, v) :: (k0, x) :: o)) with (k :: k0 :: List.map fst o).
      cbn [keys_ok]. rewrite H1, H2, !andb_true_r. apply key_before_spec.
      intros k' [<-|Hin].
      * rewrite N1, Hi, E0. split; [reflexivity | lia].
      * split; [now apply Hfresh|]. rewrite Hi. destruct (B0 k' Hin) as [_ B].
        destruct (JS.array_index k'); [lia | exact I].
    + change (List.map fst ((k0, x) :: JS.insert_index i k v o))
        with (k0 :: List.map fst (JS.insert_index i k v o)).
      cbn [keys_ok]. rewrite (IH H2 N2), andb_true_r. apply key_before_spec.
      intros k' Hin. apply insert_index_in in Hin as [->|Hin].
      * rewrite String.eqb_sym, N1, E0, Hi. split; [reflexivity|].
        assert (i <> j).
        { intros ->. apply array_index_text in Hi, E0. rewrite Hi in E0. subst k0.
          rewrite String.eqb_refl in N1. discriminate. }
        lia.
      * rewrite E0. now apply B0.
  - change (List.map fst ((k, v) :: (k0, x) :: o)) with (k :: k0 :: List.map fst o).
    cbn [keys_ok]. rewrite H1, H2, !andb_true_r. apply key_before_spec.
    intros k' [<-|Hin].
    + rewrite N1, Hi, E0. split; [reflexivity | exact I].
    + split; [now apply Hfresh|]. rewrite Hi. destruct (B0 k' Hin) as [_ B].
      destruct (JS.array_index k'); [contradiction | exact I].
Qed.

Lemma keys_ok_set o k v :
  keys_ok (List.map fst o) = true -> keys_ok (List.map fst (JS.set o k v)) = true.
Proof.
  intros H. unfold JS.set. destruct (JS.lookup_prop k o) eqn:E.
  - now rewrite map_fst_replace.
  - pose proof (lookup_none_keys k o E) as Hn.
    destruct (JS.array_index k) as [i|] eqn:Ei.
    + now apply keys_ok_insert_index.
    + rewrite List.map_app. now apply keys_ok_snoc.
Qed.

Lemma all_json_replace o k v :
  all_json o = true -> json v = true -> all_json (JS.replace_prop k v o) = true.
Proof.
  unfold all_json. intros Ho Hv. induction o as [|[k0 x] o IH]; [reflexivity|].
  simpl in *. apply andb_true_iff in Ho as [H1 H2].
  destruct (String.eqb k k0); simpl; [now rewrite Hv, H2 | now rewrite H1, IH].
Qed.

Lemma all_json_insert_index o i k v :
  all_json o = true -> json v = true -> all_json (JS.insert_index i k v o) = true.
Proof.
  unfold all_json. intros Ho Hv. induction o as [|[k0 x] o IH]; [simpl; now rewrite Hv|].
  simpl in Ho. apply andb_true_iff in Ho as [H1 H2]. simpl.
  destruct (JS.array_index k0) as [j|]; [destruct (i <? j)|]; simpl;
    rewrite ?Hv, ?H1, ?H2, ?IH; auto.
Qed.

Lemma all_json_set o k v :
  all_json o = true -> json v = true -> all_json (JS.set o k v) = true.
Proof.
  intros Ho Hv. unfold JS.set. destruct (JS.lookup_prop k o).
  - now apply all_json_replace.
  - destruct (JS.array_index k).
    + now apply all_json_insert_index.
    + unfold all_json in *. rewrite forallb_app, Ho. simpl. now rewrite Hv.
Qed.

Lemma json_set o k v :
  json (VObj o) = true -> json v = true -> json (VObj (JS.set o k v)) = true.
Proof.
  rewrite !json_obj. intros Ho Hv. apply andb_true_iff in Ho as [H1 H2].
  now rewrite keys_ok_set, all_json_set.
Qed.

Lemma json_arr l : json (VArr l) = forallb json l.
Proof. reflexivity. Qed.


Lemma forallb_rev' {A} (p : A -> bool) l : forallb p (List.rev l) = forallb p l.
Proof.
  induction l as [|x l IH]; [reflexivity|].
  simpl. rewrite forallb_app, IH. simpl. rewrite andb_true_r. apply andb_comm.
Qed.

Lemma parse_literal_json w v0 s v r :
  json v0 = true -> parse_literal w v0 s = Some (v, r) -> json v = true.
Proof.
  unfold parse_literal. intros Hv H. destruct (strip_prefix w s); [|discriminate].
  injection H as <- _. exact Hv.
Qed.

Lemma parse_json_all fuel :
  (forall s v r, parse_value fuel s = Some (v, r) -> json v = true) /\
  (forall s acc v r, forallb json acc = true ->
     parse_elements fuel s acc = Some (v, r) -> json v = true) /\
  (forall s acc v r, json (VObj acc) = true ->
     parse_members fuel s acc = Some (v, r) -> json v = true).
Proof.
  induction fuel as [|f (IHv & IHe & IHm)]; [repeat split; intros; discriminate|].
  repeat split.
  - intros s v r H. cbn [parse_value] in H.
    destruct (skip_ws s) as [|c t]; [discriminate|].
    destruct (Ascii.eqb c "{").
    { destruct (skip_ws t) as [|c' t']; [discriminate|].
      destruct (Ascii.eqb c' "}"); [injection H as <- _; reflexivity|].
      now apply (IHm t [] v r). }
    destruct (Ascii.eqb c "[").
    { destruct (skip_ws t) as [|c' t']; [discriminate|].
      destruct (Ascii.eqb c' "]"); [injection H as <- _; reflexivity|].
      now apply (IHe t [] v r). }
    destruct (Ascii.eqb c dquote).
    { destruct (parse_chars t) as [[str r']|]; [|discriminate]. injection H as <- _. reflexivity. }
    destruct (Ascii.eqb c "n"); [now apply (parse_literal_json "ull" VNull t v r)|].
    destruct (Ascii.eqb c "t"); [now apply (parse_literal_json "rue" (VBool true) t v r)|].
    destruct (Ascii.eqb c "f"); [now apply (parse_literal_json "alse" (VBool false) t v r)|].
    destruct (parse_number (String c t)) as [[n r']|]; [|discriminate].
    injection H as <- _. reflexivity.
  - intros s acc v r Hacc H. cbn [parse_elements] in H.
    destruct (parse_value f s) as [[x r1]|] eqn:Ex; [|discriminate].
    apply IHv in Ex.
    destruct (skip_ws r1) as [|c t]; [discriminate|].
    destruct (Ascii.eqb c ",").
    { apply (IHe t (x :: acc) v r); [simpl; now rewrite Ex, Hacc | exact H]. }
    destruct (Ascii.eqb c "]"); [|discriminate].
    injection H as <- _. rewrite json_arr. simpl. rewrite forallb_app, forallb_rev'.
    simpl. now rewrite Hacc, Ex.
  - intros s acc v r Hacc H. cbn [parse_members] in H.
    destruct (skip_ws s) as [|q t]; [discriminate|].
    destruct (Ascii.eqb q dquote); [|discriminate].
    destruct (parse_chars t) as [[k r1]|]; [|discriminate].
    destruct (skip_ws r1) as [|c r2]; [discriminate|].
    destruct (Ascii.eqb c ":"); [|discriminate].
    destruct (parse_value f r2) as [[x r3]|] eqn:Ex; [|discriminate].
    apply IHv in Ex.
    destruct (skip_ws r3) as [|c' r4]; [discriminate|].
    pose proof (json_set acc k x Hacc Ex) as Hset.
    destruct (Ascii.eqb c' ","); [now apply (IHm r4 _ v r Hset)|].
    destruct (Ascii.eqb c' "}"); [|discriminate].
    injection H as <- _. exact Hset.
Qed.

(** [JSON.parse] yields values without [undefined] whose objects are in
    property order. *)
Lemma parse_json text v : parse text = Some v -> json v = true.
Proof.
  unfold parse. intros H.
  destruct (parse_value (S (String.length text)) text) as [[x r]|] eqn:E; [|discriminate].
  destruct (skip_ws r); [|discriminate]. injection H as <-.
  now apply (proj1 (parse_json_all _) _ _ _ E).
Qed.


End ParseWf.
Import ParseWf.

(** ** The fuel of the parser

    [parse] runs [parse_value] with more fuel than the text has characters.
    That is enough for every text: a parse that succeeds with any fuel at
    all succeeds with the fuel of [parse], so [None] is never a lack of
    fuel. *)

Module Fuel.

Lemma skip_ws_length s : (String.length (skip_ws s) <= String.length s)%nat.
Proof.
  induction s as [|c r IH]; simpl; [lia|]. destruct (is_ws c); simpl; lia.
Qed.

Lemma skip_ws_cons s c r :
  skip_ws s = String c r -> (S (String.length r) <= String.length s)%nat.
Proof. intros H. pose proof (skip_ws_length s) as L. rewrite H in L. exact L. Qed.

Lemma prepend_length p t str rest n :
  prepend p (parse_chars t) = Some (str, rest) ->
  (forall str', parse_chars t = Some (str', rest) -> (String.length rest < n)%nat) ->
  (String.length rest < n)%nat.
Proof.
  unfold prepend. destruct (parse_chars t) as [[s' r']|]; [|discriminate].
  intros H K. injection H as _ <-. now apply (K s').
Qed.

Lemma parse_chars_length n :
  forall s str rest, (String.length s <= n)%nat ->
  parse_chars s = Some (str, rest) -> (String.length rest < String.length s)%nat.
Proof.
  induction n as [|n IH]; intros s str rest Hn H.
  { destruct s; [discriminate | simpl in Hn; lia]. }
  assert (Hrec : forall t p, (String.length t <= n)%nat ->
            prepend p (parse_chars t) = Some (str, rest) ->
            (String.length rest < String.length t)%nat).
  { intros t p Ht Hp. apply (prepend_length p t str rest _ Hp).
    intros str' H'. now apply (IH t str'). }
  destruct s as [|c r]; [discriminate|]. cbn [parse_chars] in H.
  cbn [String.length] in *.
  destruct (Ascii.eqb c dquote); [injection H as _ <-; lia|].
  destruct (Ascii.eqb c backslash).
  - destruct r as [|e r1]; [discriminate|]. cbn [String.length] in *.
    destruct (simple_escape e).
    { apply Hrec in H; lia. }
    destruct (Ascii.eqb e "u"); [|discriminate].
    destruct r1 as [|h1 [|h2 [|h3 [|h4 r2]]]]; try discriminate.
    cbn [String.length] in *.
    destruct (hex4 h1 h2 h3 h4) as [m|]; [|discriminate].
    destruct (is_high_surrogate m); [|apply Hrec in H; lia].
    destruct r2 as [|b [|u [|l1 [|l2 [|l3 [|l4 r3]]]]]];
      try (apply Hrec in H; cbn [String.length] in *; lia).
    cbn [String.length] in *.
    destruct (if Ascii.eqb b backslash && Ascii.eqb u "u" then hex4 l1 l2 l3 l4 else None)
      as [k|]; [|apply Hrec in H; cbn [String.length] in *; lia].
    destruct (is_low_surrogate k); apply Hrec in H; cbn [String.length] in *; lia.
  - destruct (code c <? 32)%nat; [discriminate|]. apply Hrec in H; lia.
Qed.

Lemma span_digits_length s ds rest :
  span_digits s = (ds, rest) ->
  String.length s = (String.length ds + String.length rest)%nat.
Proof.
  revert ds rest. induction s as [|c r IH]; intros ds rest H; simpl in H.
  - injection H as <- <-. reflexivity.
  - destruct (is_digit c).
    + destruct (span_digits r) as [d t]. injection H as <- <-.
      simpl. now rewrite (IH d t eq_refl).
    + injection H as <- <-. reflexivity.
Qed.

Lemma parse_int_length neg s z rest :
  parse_int neg s = Some (z, rest) -> (String.length rest < String.length s)%nat.
Proof.
  unfold parse_int. destruct (span_digits s) as [ds t] eqn:E.
  apply span_digits_length in E. destruct ds as [|d more]; [discriminate|].
  destruct (Ascii.eqb d "0" && negb (String.eqb more "")); [discriminate|].
  destruct (starts_fraction t); [discriminate|].
  destruct (NilZero.uint_of_string (String d more)); [|discriminate].
  intros H. injection H as _ <-. simpl in E. lia.
Qed.

Lemma parse_number_length s z rest :
  parse_number s = Some (z, rest) -> (String.length rest < String.length s)%nat.
Proof.
  destruct s as [|c r]; [discriminate|]. unfold parse_number.
  destruct (Ascii.eqb c "-"); intros H; apply parse_int_length in H;
    cbn [String.length] in *; lia.
Qed.

Lemma strip_prefix_length p s r :
  strip_prefix p s = Some r -> (String.length r <= String.length s)%nat.
Proof.
  revert s. induction p as [|c p IH]; intros s H; simpl in H.
  - injection H as <-. lia.
  - destruct s as [|d s']; [discriminate|]. destruct (Ascii.eqb c d); [|discriminate].
    apply IH in H. simpl. lia.
Qed.

Lemma parse_literal_length w v0 s v r :
  parse_literal w v0 s = Some (v, r) -> (String.length r <= String.length s)%nat.
Proof.
  unfold parse_literal. destruct (strip_prefix w s) as [t|] eqn:E; [|discriminate].
  intros H. injection H as _ <-. now apply strip_prefix_length in E.
Qed.

(** More fuel keeps a result. *)
Lemma parse_mono f :
  (forall f' s res, (f <= f')%nat -> parse_value f s = Some res -> parse_value f' s = Some res) /\
  (forall f' s acc res, (f <= f')%nat ->
     parse_elements f s acc = Some res -> parse_elements f' s acc = Some res) /\
  (forall f' s acc res, (f <= f')%nat ->
     parse_members f s acc = Some res -> parse_members f' s acc = Some res).
Proof.
  induction f as [|f (IHv & IHe & IHm)]; [repeat split; intros; discriminate|].
  repeat split.
  - intros [|f'] s res Hf H; [lia|]. cbn [parse_value] in *.
    destruct (skip_ws s) as [|c t]; [discriminate|].
    destruct (Ascii.eqb c "{").
    { destruct (skip_ws t) as [|c' t']; [discriminate|].
      destruct (Ascii.eqb c' "}"); [exact H|]. apply (IHm f'); [lia | exact H]. }
    destruct (Ascii.eqb c "[").
    { destruct (skip_ws t) as [|c' t']; [discriminate|].
      destruct (Ascii.eqb c' "]"); [exact H|]. apply (IHe f'); [lia | exact H]. }
    exact H.
  - intros [|f'] s acc res Hf H; [lia|]. cbn [parse_elements] in *.
    destruct (parse_value f s) as [[x r1]|] eqn:Ex; [|discriminate].
    rewrite (IHv f' s (x, r1)) by (lia || exact Ex).
    destruct (skip_ws r1) as [|c t]; [discriminate|].
    destruct (Ascii.eqb c ","); [apply (IHe f'); [lia | exact H]|]. exact H.
  - intros [|f'] s acc res Hf H; [lia|]. cbn [parse_members] in *.
    destruct (skip_ws s) as [|q t]; [discriminate|].
    destruct (Ascii.eqb q dquote); [|discriminate].
    destruct (parse_chars t) as [[k r1]|]; [|discriminate].
    destruct (skip_ws r1) as [|c r2]; [discriminate|].
    destruct (Ascii.eqb c ":"); [|discriminate].
    destruct (parse_value f r2) as [[x r3]|] eqn:Ex; [|discriminate].
    rewrite (IHv f' r2 (x, r3)) by (lia || exact Ex).
    destruct (skip_ws r3) as [|c' r4]; [discriminate|].
    destruct (Ascii.eqb c' ","); [apply (IHm f'); [lia | exact H]|]. exact H.
Qed.

(** A parse that succeeds needs no more fuel than it reads characters. *)
Lemma parse_need f :
  (forall s v rest, parse_value f s = Some (v, rest) ->
     exists n, (1 <= n)%nat /\ (n + String.length rest <= String.length s)%nat /\
       parse_value n s = Some (v, rest)) /\
  (forall s acc v rest, parse_elements f s acc = Some (v, rest) ->
     exists n, (1 <= n)%nat /\ (n + String.length rest <= String.length s)%nat /\
       parse_elements n s acc = Some (v, rest)) /\
  (forall s acc v rest, parse_members f s acc = Some (v, rest) ->
     exists n, (1 <= n)%nat /\ (n + String.length rest <= String.length s)%nat /\
       parse_members n s acc = Some (v, rest)).
Proof.
  induction f as [|f (IHv & IHe & IHm)]; [repeat split; intros; discriminate|].
  repeat split.
  - intros s v rest H. cbn [parse_value] in H.
    destruct (skip_ws s) as [|c t] eqn:Es; [discriminate|].
    pose proof (skip_ws_cons s c t Es) as Ls.
    destruct (Ascii.eqb c "{") eqn:E1.
    { destruct (skip_ws t) as [|c' t'] eqn:Et; [discriminate|].
      pose proof (skip_ws_cons t c' t' Et) as Lt.
      destruct (Ascii.eqb c' "}") eqn:E2.
      - injection H as <- <-. exists 1%nat. split; [lia|]. split; [lia|].
        cbn [parse_value]. now rewrite Es, E1, Et, E2.
      - destruct (IHm t [] v rest H) as (n & Hn & Ln & Pn).
        exists (S n). split; [lia|]. split; [lia|].
        cbn [parse_value]. now rewrite Es, E1, Et, E2. }
    destruct (Ascii.eqb c "[") eqn:E3.
    { destruct (skip_ws t) as [|c' t'] eqn:Et; [discriminate|].
      pose proof (skip_ws_cons t c' t' Et) as Lt.
      destruct (Ascii.eqb c' "]") eqn:E2.
      - injection H as <- <-. exists 1%nat. split; [lia|]. split; [lia|].
        cbn [parse_value]. now rewrite Es, E1, E3, Et, E2.
      - destruct (IHe t [] v rest H) as (n & Hn & Ln & Pn).
        exists (S n). split; [lia|]. split; [lia|].
        cbn [parse_value]. now rewrite Es, E1, E3, Et, E2. }
    assert (L : (String.length rest <= String.length t)%nat).
    { destruct (Ascii.eqb c dquote).
      { destruct (parse_chars t) as [[str r']|] eqn:Ec; [|discriminate].
        injection H as _ <-. apply (parse_chars_length _ t str r' (le_n _)) in Ec. lia. }
      destruct (Ascii.eqb c "n"); [now apply parse_literal_length in H|].
      destruct (Ascii.eqb c "t"); [now apply parse_literal_length in H|].
      destruct (Ascii.eqb c "f"); [now apply parse_literal_length in H|].
      destruct (parse_number (String c t)) as [[z r']|] eqn:En; [|discriminate].
      injection H as _ <-. apply parse_number_length in En. simpl in En. lia. }
    exists 1%nat. split; [lia|]. split; [lia|].
    cbn [parse_value]. now rewrite Es, E1, E3.
  - intros s acc v rest H. cbn [parse_elements] in H.
    destruct (parse_value f s) as [[x r1]|] eqn:Ex; [|discriminate].
    destruct (IHv s x r1 Ex) as (n1 & Hn1 & Ln1 & Pn1).
    destruct (skip_ws r1) as [|c t] eqn:Er; [discriminate|].
    pose proof (skip_ws_cons r1 c t Er) as Lr.
    destruct (Ascii.eqb c ",") eqn:E1.
    + destruct (IHe t (x :: acc) v rest H) as (n2 & Hn2 & Ln2 & Pn2).
      exists (S (Nat.max n1 n2)). split; [lia|]. split; [lia|].
      cbn [parse_elements].
      rewrite (proj1 (parse_mono n1) (Nat.max n1 n2) s (x, r1)) by (lia || exact Pn1).
      rewrite Er, E1.
      apply (proj1 (proj2 (parse_mono n2))); [lia | exact Pn2].
    + destruct (Ascii.eqb c "]") eqn:E2; [|discriminate]. injection H as <- <-.
      exists (S n1). split; [lia|]. split; [lia|].
      cbn [parse_elements]. now rewrite Pn1, Er, E1, E2.
  - intros s acc v rest H. cbn [parse_members] in H.
    destruct (skip_ws s) as [|q t] eqn:Es; [discriminate|].
    pose proof (skip_ws_cons s q t Es) as Ls.
    destruct (Ascii.eqb q dquote) eqn:Eq; [|discriminate].
    destruct (parse_chars t) as [[k r1]|] eqn:Ek; [|discriminate].
    pose proof (parse_chars_length _ t k r1 (le_n _) Ek) as Lk.
    destruct (skip_ws r1) as [|c r2] eqn:Er1; [discriminate|].
    pose proof (skip_ws_cons r1 c r2 Er1) as Lr1.
    destruct (Ascii.eqb c ":") eqn:Ec; [|discriminate].
    destruct (parse_value f r2) as [[x r3]|] eqn:Ex; [|discriminate].
    destruct (IHv r2 x r3 Ex) as (n1 & Hn1 & Ln1 & Pn1).
    destruct (skip_ws r3) as [|c' r4] eqn:Er3; [discriminate|].
    pose proof (skip_ws_cons r3 c' r4 Er3) as Lr3.
    destruct (Ascii.eqb c' ",") eqn:E1.
    + destruct (IHm r4 (JS.set acc k x) v rest H) as (n2 & Hn2 & Ln2 & Pn2).
      exists (S (Nat.max n1 n2)). split; [lia|]. split; [lia|].
      cbn [parse_members]. rewrite Es, Eq, Ek, Er1, Ec.
      rewrite (proj1 (parse_mono n1) (Nat.max n1 n2) r2 (x, r3)) by (lia || exact Pn1).
      rewrite Er3, E1.
      apply (proj2 (proj2 (parse_mono n2))); [lia | exact Pn2].
    + destruct (Ascii.eqb c' "}") eqn:E2; [|discriminate]. injection H as <- <-.
      exists (S n1). split; [lia|]. split; [lia|].
      cbn [parse_members]. now rewrite Es, Eq, Ek, Er1, Ec, Pn1, Er3, E1, E2.
Qed.

(** Whatever the fuel of a successful parse, the fuel of [parse] gives the
    same result. *)
Lemma parse_value_enough f s v rest :
  parse_value f s = Some (v, rest) ->
  parse_value (S (String.length s)) s = Some (v, rest).
Proof.
  intros H. destruct (proj1 (parse_need f) s v rest H) as (n & Hn & Ln & Pn).
  apply (proj1 (parse_mono n)); [lia | exact Pn].
Qed.

Lemma parse_enough f s v rest :
  parse_value f s = Some (v, rest) -> skip_ws rest = "" -> parse s = Some v.
Proof.
  intros H Hr. unfold parse. now rewrite (parse_value_enough f s v rest H), Hr.
Qed.

(** So [parse] fails only where every amount of fuel fails or leaves text
    behind. *)
Lemma parse_none s :
  parse s = None ->
  forall f v rest, parse_value f s = Some (v, rest) -> skip_ws rest <> "".
Proof.
  intros H f v rest Hf Hr. now rewrite (parse_enough f s v rest Hf Hr) in H.
Qed.

End Fuel.

(** ** Facts about the store *)

Module TrimFacts.

Lemma list_of_app a b :
  list_ascii_of_string (a +:+ b) = list_ascii_of_string a ++ list_ascii_of_string b.
Proof. induction a as [|c a IH]; simpl; [reflexivity | now rewrite IH]. Qed.

Lemma drop_all_keep fuel units c l :
  Str.drop_one units (c :: l) = None -> Str.drop_all fuel units (c :: l) = c :: l.
Proof. intros H. destruct fuel; simpl; [reflexivity | now rewrite H]. Qed.

Lemma trim_ends l :
  Str.trimEnd (Str.trimStart ("{"%char :: l ++ ["}"%char])) = "{"%char :: l ++ ["}"%char].
Proof.
  unfold Str.trimStart. rewrite drop_all_keep by reflexivity.
  unfold Str.trimEnd.
  assert (E : List.rev ("{"%char :: l ++ ["}"%char]) = "}"%char :: List.rev l ++ ["{"%char]).
  { simpl. now rewrite rev_app_distr. }
  rewrite E, drop_all_keep by reflexivity. rewrite <- E. apply rev_involutive.
Qed.

(** Text between braces is left alone by [trim]. *)
Lemma trim_braces x : Str.trim (String "{" (x +:+ "}")) = String "{" (x +:+ "}").
Proof.
  unfold Str.trim.
  assert (E : list_ascii_of_string (String "{" (x +:+ "}"))
              = "{"%char :: list_ascii_of_string x ++ ["}"%char]).
  { cbn [list_ascii_of_string]. now rewrite list_of_app. }
  rewrite E, trim_ends, <- E. apply string_of_list_ascii_of_string.
Qed.

Lemma wrap_shape o c d ts : exists x, wrap o c d ts = String o (x +:+ str1 c).
Proof.
  destruct ts as [|t ts]; unfold wrap.
  - now exists "".
  - eexists. rewrite <- !app_assoc_s. reflexivity.
Qed.

Lemma trim_object d o : Str.trim (serialize d (VObj o)) = serialize d (VObj o).
Proof.
  rewrite serialize_obj. destruct (wrap_shape "{" "}" d (member_texts d o)) as [x ->].
  apply trim_braces.
Qed.


End TrimFacts.
Import TrimFacts.

Section StoreFacts.

Variable dirname : Path.path.

Lemma join_name (base : Path.path) (name : string) :
  Path.split name = [name] -> name <> "" -> name <> "." -> name <> ".." ->
  Path.join base name = (base ++ [name], Path.ends_with_slash name).
Proof.
  intros Hs H1 H2 H3. unfold Path.join. rewrite Hs. simpl. unfold Path.step.
  apply String.eqb_neq in H1, H2, H3. rewrite H1, H2, H3. simpl.
  now rewrite rev_involutive.
Qed.

Lemma DATA_DIR_eq : DATA_DIR dirname = dirname ++ ["data"].
Proof. unfold DATA_DIR. now rewrite join_name. Qed.

Lemma UPLOAD_DIR_eq : UPLOAD_DIR dirname = dirname ++ ["uploads"].
Proof. unfold UPLOAD_DIR. now rewrite join_name. Qed.

Lemma DATA_FILE_eq : DATA_FILE dirname = dirname ++ ["data"; "vision-board.txt"].
Proof.
  unfold DATA_FILE. rewrite join_name by easy. rewrite DATA_DIR_eq.
  simpl. now rewrite <- app_assoc.
Qed.

Lemma parent_DATA_FILE : FS.parent (DATA_FILE dirname) = DATA_DIR dirname.
Proof.
  rewrite DATA_FILE_eq, DATA_DIR_eq. unfold FS.parent.
  change (dirname ++ ["data"; "vision-board.txt"])
    with (dirname ++ ["data"] ++ ["vision-board.txt"]).
  rewrite app_assoc. apply removelast_last.
Qed.

Lemma writeBoard_writable fs d :
  writable dirname fs -> JSON.is_undefined d = false ->
  writeBoard dirname fs d = Some (<[DATA_FILE dirname := FS.File (serialize 0 d)]> fs).
Proof.
  intros [Hd Hf] Hu. unfold writeBoard, stringify, FS.writeFileSync.
  rewrite Hu, parent_DATA_FILE, Hd.
  destruct (fs !! DATA_FILE dirname) as [[s|]|]; try reflexivity. congruence.
Qed.

Lemma writeBoard_inv fs fs' d :
  writeBoard dirname fs d = Some fs' ->
  JSON.is_undefined d = false /\
  fs' = <[DATA_FILE dirname := FS.File (serialize 0 d)]> fs.
Proof.
  unfold writeBoard, stringify, FS.writeFileSync.
  destruct (is_undefined d); [discriminate|]. intros H. split; [reflexivity|].
  destruct (fs !! DATA_FILE dirname) as [[s|]|];
    destruct (fs !! FS.parent (DATA_FILE dirname)) as [[s'|]|]; congruence.
Qed.

Lemma readBoard_file fs text :
  fs !! DATA_FILE dirname = Some (FS.File text) ->
  readBoard dirname fs =
  match JSON.parse (Str.trim text) with Some v => v | None => VNull end.
Proof.
  intros H. unfold readBoard, FS.existsSync, FS.readFileSync. simpl. rewrite H. simpl.
  destruct (String.eqb (Str.trim text) "") eqn:E; [|reflexivity].
  apply String.eqb_eq in E. now rewrite E.
Qed.

Lemma readBoard_missing fs :
  fs !! DATA_FILE dirname = None -> readBoard dirname fs = VNull.
Proof. intros H. unfold readBoard, FS.existsSync. simpl. now rewrite H. Qed.

Lemma readBoard_dir fs :
  fs !! DATA_FILE dirname = Some FS.Dir -> readBoard dirname fs = VNull.
Proof.
  intros H. unfold readBoard, FS.existsSync, FS.readFileSync. simpl. now rewrite H.
Qed.

(** Reading the store after an object was written to it gives the object. *)
Lemma readBoard_written fs o :
  json (VObj o) = true ->
  readBoard dirname (<[DATA_FILE dirname := FS.File (serialize 0 (VObj o))]> fs) = VObj o.
Proof.
  intros Hj. rewrite (readBoard_file _ _ (lookup_insert_eq _ _ _)).
  rewrite trim_object, (parse_stringify (VObj o) _ Hj (stringify_json _ Hj)). reflexivity.
Qed.

(** What [readBoard] returns is [null] or a value of a JSON text. *)
Lemma readBoard_json fs : readBoard dirname fs = VNull \/ json (readBoard dirname fs) = true.
Proof.
  unfold readBoard.
  destruct (FS.existsSync fs (DATA_FILE dirname, false)); simpl; [|now left].
  destruct (FS.readFileSync fs (DATA_FILE dirname)) as [text|]; [|now left].
  destruct (String.eqb (Str.trim text) ""); [now left|].
  destruct (JSON.parse (Str.trim text)) as [v|] eqn:E; [|now left].
  right. now apply parse_json in E.
Qed.

End StoreFacts.
(** ** The handlers *)

Section BoardFacts.

Variable dirname : Path.path.

Lemma rejected_spec body :
  rejected body = true <->
  body = VBool true \/ (exists n, body = VNum n /\ n <> 0) \/
  (exists s, body = VStr s /\ s <> "").
Proof.
  unfold rejected. destruct body as [| |b|n|s|l|o]; simpl; split; intros H;
    try discriminate H; try (destruct H as [H|[[? [H ?]]|[? [H ?]]]]; discriminate H).
  - destruct b; [now left | discriminate].
  - destruct H as [H|[[? [H ?]]|[? [H ?]]]]; try discriminate H. now injection H as ->.
  - right; left. exists n. split; [reflexivity|]. rewrite andb_true_r in H.
    apply negb_true_iff in H. lia.
  - destruct H as [H|[[m [H Hm]]|[? [H ?]]]]; try discriminate H. injection H as ->.
    rewrite andb_true_r. apply negb_true_iff. lia.
  - right; right. exists s. split; [reflexivity|]. rewrite andb_true_r in H.
    apply negb_true_iff in H. now apply String.eqb_neq in H.
  - destruct H as [H|[[? [H ?]]|[t [H Ht]]]]; try discriminate H. injection H as ->.
    rewrite andb_true_r. apply negb_true_iff. now apply String.eqb_neq.
Qed.

Lemma post_board_guard fs now body :
  post_board dirname fs now body =
  if rejected body then (fs, Json 400 (error_body "Invalid payload"))
  else
    let b := JS.or body (VObj []) in
    let current := JS.or (readBoard dirname fs) (defaultBoard now) in
    let next :=
      VObj [("version", VNum 1); ("updatedAt", VStr (Clock.toISOString now));
            ("content", if is_object (JS.get b "content") then JS.get b "content"
                        else JS.get current "content");
            ("moodImages", if JS.isArray (JS.get b "moodImages") then JS.get b "moodImages"
                           else JS.get current "moodImages")] in
    match writeBoard dirname fs next with
    | Some fs' => (fs', Json 200 ok_body)
    | None => (fs, ServerError)
    end.
Proof.
  unfold post_board, rejected, JS.or.
  destruct (JS.truthy body) eqn:E; simpl; [|reflexivity].
  destruct (String.eqb (JS.typeof body) "object"); reflexivity.
Qed.

(** C1, as amended: the guard of POST /api/board turns down exactly the truthy
    bodies whose type is not object (true, a number other than 0, a string
    other than the empty one), with status 400, an error message and the
    store as it was; every other body, arrays included, gets no 400. *)
Theorem C1_post_board_guard fs now body :
  (rejected body = true ->
     post_board dirname fs now body = (fs, Json 400 (error_body "Invalid payload"))) /\
  (rejected body = false ->
     forall b, snd (post_board dirname fs now body) <> Json 400 b) /\
  (rejected body = true <->
     body = VBool true \/ (exists n, body = VNum n /\ n <> 0) \/
     (exists s, body = VStr s /\ s <> "")).
Proof.
  split; [|split].
  - intros H. now rewrite post_board_guard, H.
  - intros H b. rewrite post_board_guard, H. cbv zeta.
    destruct (writeBoard dirname fs _); simpl; discriminate.
  - apply rejected_spec.
Qed.

End BoardFacts.

Lemma C1_guard_witness :
  post_board app fresh_store some_time (VNum 5)
    = (fresh_store, Json 400 (error_body "Invalid payload")) /\
  (forall b, snd (post_board app fresh_store some_time (VArr [])) <> Json 400 b).
Proof.
  split.
  - apply (proj1 (C1_post_board_guard app fresh_store some_time (VNum 5))). reflexivity.
  - apply (proj1 (proj2 (C1_post_board_guard app fresh_store some_time (VArr [])))). reflexivity.
Defined.

(** C1 as stated fails: an array is not a structured object, yet the handler
    answers 200 and writes the store. *)
Lemma C1_array_body_counterexample :
  structured_object (VArr [VNum 1]) = false /\
  snd (post_board app fresh_store some_time (VArr [VNum 1])) = Json 200 ok_body /\
  fst (post_board app fresh_store some_time (VArr [VNum 1])) !! DATA_FILE app
    <> fresh_store !! DATA_FILE app.
Proof.
  split; [reflexivity|]. split; [vm_compute; reflexivity|].
  vm_compute. discriminate.
Qed.

Section ReadFacts.

Variable dirname : Path.path.



End ReadFacts.



Section WriteFacts.

Variable dirname : Path.path.

Lemma text_json v : is_text v = true -> json v = true.
Proof. destruct v; simpl; intros H; try discriminate; reflexivity. Qed.

Lemma text_list_json v : is_text_list v = true -> json v = true.
Proof.
  destruct v as [| | | | |l|]; simpl; intros H; try discriminate.
  induction l as [|x l IH]; [reflexivity|]. simpl in *.
  apply andb_true_iff in H as [Hx Hl]. now rewrite (text_json x Hx), IH.
Qed.

Lemma content_json v : is_content v = true -> json v = true.
Proof.
  destruct v as [| | | | | |c]; simpl is_content; intros H; try discriminate.
  apply andb_true_iff in H as [Hk Hc]. rewrite json_obj, Hk. simpl. unfold all_json.
  induction c as [|[k x] c IH]; [reflexivity|]. simpl in *.
  apply andb_true_iff in Hk as [_ Hk]. apply andb_true_iff in Hc as [Hx Hc].
  rewrite (IH Hk Hc), andb_true_r.
  apply orb_true_iff in Hx as [Hx|Hx]; [now apply text_json | now apply text_list_json].
Qed.

Lemma field_json k x : is_field (k, x) = true -> json x = true.
Proof.
  unfold is_field.
  destruct (String.eqb k "version"); [destruct x; simpl; intros H; try discriminate; reflexivity|].
  destruct (String.eqb k "updatedAt"); [apply text_json|].
  destruct (String.eqb k "content"); [apply content_json|].
  destruct (String.eqb k "moodImages"); [apply text_list_json|]. discriminate.
Qed.

Lemma board_json d : is_board d = true -> json d = true.
Proof.
  destruct d as [| | | | | |o]; simpl is_board; intros H; try discriminate.
  apply andb_true_iff in H as [H _]. apply andb_true_iff in H as [Hk Hf].
  rewrite json_obj, Hk. simpl. unfold all_json. clear Hk.
  induction o as [|[k x] o IH]; [reflexivity|]. simpl in *.
  apply andb_true_iff in Hf as [Hx Hf]. now rewrite (field_json k x Hx), IH.
Qed.

(** C6: after [writeBoard(d)] for a valid board document [d], which succeeds
    on a store that can be written, [readBoard()] returns [d] itself, so the
    same [content] and [moodImages]. *)
Theorem C6_write_read_round_trip fs d :
  is_board d = true -> writable dirname fs ->
  exists fs', writeBoard dirname fs d = Some fs' /\
    readBoard dirname fs' = d /\
    JS.get (readBoard dirname fs') "content" = JS.get d "content" /\
    JS.get (readBoard dirname fs') "moodImages" = JS.get d "moodImages".
Proof.
  intros Hb Hw. pose proof (board_json d Hb) as Hj.
  destruct d as [| | | | | |o]; try discriminate Hb.
  eexists. split; [now apply writeBoard_writable|].
  rewrite (readBoard_written dirname fs o Hj). auto.
Qed.

End WriteFacts.


Lemma C6_round_trip_witness :
  exists fs', writeBoard app fresh_store a_board = Some fs' /\
    readBoard app fs' = a_board /\
    JS.get (readBoard app fs') "content" = JS.get a_board "content" /\
    JS.get (readBoard app fs') "moodImages" = JS.get a_board "moodImages".
Proof.
  apply (C6_write_read_round_trip app fresh_store a_board); [reflexivity|].
  split; [reflexivity | vm_compute; discriminate].
Defined.

Section PostFacts.

Variable dirname : Path.path.



Lemma lookup_json k o x :
  all_json o = true -> JS.lookup_prop k o = Some x -> json x = true.
Proof.
  unfold all_json. induction o as [|[k0 y] o IH]; simpl; [discriminate|].
  intros H. apply andb_true_iff in H as [Hy Ho].
  destruct (String.eqb k k0); [intros E; now injection E as <- | now apply IH].
Qed.

Lemma get_json v k : json v = true -> JS.get v k = VUndefined \/ json (JS.get v k) = true.
Proof.
  destruct v as [| | | | | |o]; simpl JS.get; auto. rewrite json_obj. intros H.
  apply andb_true_iff in H as [_ H].
  destruct (JS.lookup_prop k o) as [x|] eqn:E; [right; now apply (lookup_json k o x) | now left].
Qed.






End PostFacts.


Module SetFacts.

Lemma lookup_replace_same k v o x :
  JS.lookup_prop k o = Some x -> JS.lookup_prop k (JS.replace_prop k v o) = Some v.
Proof.
  induction o as [|[k0 y] o IH]; simpl; [discriminate|].
  destruct (String.eqb k k0) eqn:E; simpl; rewrite E; [reflexivity | exact IH].
Qed.

Lemma lookup_replace_other k k' v o :
  k' <> k -> JS.lookup_prop k' (JS.replace_prop k v o) = JS.lookup_prop k' o.
Proof.
  intros Hne. induction o as [|[k0 y] o IH]; simpl; [reflexivity|].
  destruct (String.eqb k k0) eqn:E; simpl.
  - apply String.eqb_eq in E. subst k0.
    apply String.eqb_neq in Hne. now rewrite Hne.
  - now rewrite IH.
Qed.

Lemma lookup_insert_index k' i k v o :
  JS.lookup_prop k o = None ->
  JS.lookup_prop k' (JS.insert_index i k v o) =
  if String.eqb k' k then Some v else JS.lookup_prop k' o.
Proof.
  induction o as [|[k0 y] o IH]; cbn [JS.insert_index JS.lookup_prop]; [reflexivity|].
  destruct (String.eqb k k0) eqn:Ek; [discriminate|]. intros Hn.
  destruct (JS.array_index k0) as [j|]; [destruct (i <? j)|];
    cbn [JS.lookup_prop]; try reflexivity.
  rewrite (IH Hn). destruct (String.eqb k' k0) eqn:E0; [|reflexivity].
  destruct (String.eqb k' k) eqn:E; [|reflexivity].
  apply String.eqb_eq in E0, E. subst. rewrite String.eqb_refl in Ek. discriminate.
Qed.

Lemma lookup_app k' o o' :
  JS.lookup_prop k' (o ++ o') =
  match JS.lookup_prop k' o with Some x => Some x | None => JS.lookup_prop k' o' end.
Proof.
  induction o as [|[k0 y] o IH]; simpl; [reflexivity|].
  now destruct (String.eqb k' k0).
Qed.

Lemma lookup_set_same o k v : JS.lookup_prop k (JS.set o k v) = Some v.
Proof.
  unfold JS.set. destruct (JS.lookup_prop k o) as [x|] eqn:E.
  - now apply (lookup_replace_same k v o x).
  - destruct (JS.array_index k).
    + now rewrite lookup_insert_index, String.eqb_refl.
    + rewrite lookup_app, E. simpl. now rewrite String.eqb_refl.
Qed.

Lemma lookup_set_other o k k' v :
  k' <> k -> JS.lookup_prop k' (JS.set o k v) = JS.lookup_prop k' o.
Proof.
  intros Hne. pose proof Hne as Hb. apply String.eqb_neq in Hb.
  unfold JS.set. destruct (JS.lookup_prop k o) as [x|] eqn:E.
  - now apply lookup_replace_other.
  - destruct (JS.array_index k).
    + now rewrite lookup_insert_index, Hb.
    + rewrite lookup_app. simpl. rewrite Hb. now destruct (JS.lookup_prop k' o).
Qed.

Lemma get_set_same o k v : JS.get (VObj (JS.set o k v)) k = v.
Proof. simpl. now rewrite lookup_set_same. Qed.

Lemma get_set_other o k k' v :
  k' <> k -> JS.get (VObj (JS.set o k v)) k' = JS.get (VObj o) k'.
Proof. intros H. simpl. now rewrite lookup_set_other. Qed.

Lemma replace_same k v o : JS.lookup_prop k o = Some v -> JS.replace_prop k v o = o.
Proof.
  induction o as [|[k0 y] o IH]; simpl; [reflexivity|].
  destruct (String.eqb k k0) eqn:E.
  - intros H. injection H as ->. reflexivity.
  - intros H. now rewrite IH.
Qed.

Lemma set_same o k v : JS.lookup_prop k o = Some v -> JS.set o k v = o.
Proof. intros H. unfold JS.set. rewrite H. now apply replace_same. Qed.

Lemma filter_neq_id name images :
  ~ In (VStr name) images -> List.filter (JS.strict_neq_str name) images = images.
Proof.
  induction images as [|x l IH]; [reflexivity|]. intros H. cbn [List.filter].
  assert (JS.strict_neq_str name x = true) as ->.
  { destruct x as [| | | |s| |]; try reflexivity. simpl. apply negb_true_iff, String.eqb_neq.
    intros ->. apply H. now left. }
  rewrite IH; [reflexivity|]. intros Hin. apply H. now right.
Qed.

Lemma filter_neq_gone name images :
  ~ In (VStr name) (List.filter (JS.strict_neq_str name) images).
Proof.
  intros H. apply filter_In in H as [_ H]. simpl in H.
  now rewrite String.eqb_refl in H.
Qed.

Lemma forallb_filter {A} (p q : A -> bool) l :
  forallb p l = true -> forallb p (List.filter q l) = true.
Proof.
  induction l as [|x l IH]; [reflexivity|]. simpl. intros H.
  apply andb_true_iff in H as [Hx Hl]. destruct (q x); simpl; [now rewrite Hx, IH | now apply IH].
Qed.

End SetFacts.
Import SetFacts.

Section DeleteFacts.

Variable dirname : Path.path.

Lemma delete_mood_400 fs now body :
  (forall name, JS.get (JS.or body (VObj [])) "filename" = VStr name -> name = "") ->
  delete_mood dirname fs now body = (fs, Json 400 (error_body "filename required")).
Proof.
  intros H. unfold delete_mood.
  destruct (JS.get (JS.or body (VObj [])) "filename") as [| | | |s| |]; try reflexivity.
  rewrite (H s eq_refl). reflexivity.
Qed.

Lemma delete_mood_run fs now body name :
  JS.get (JS.or body (VObj [])) "filename" = VStr name -> name <> "" ->
  delete_mood dirname fs now body =
  match (if FS.existsSync fs (Path.join (UPLOAD_DIR dirname) name)
         then FS.unlinkSync fs (Path.join (UPLOAD_DIR dirname) name) else Some fs) with
  | None => (fs, ServerError)
  | Some fs1 =>
      match readBoard dirname fs1 with
      | VObj o =>
          match JS.get (VObj o) "moodImages" with
          | VArr images =>
              match writeBoard dirname fs1
                      (VObj (JS.set (JS.set o "moodImages"
                                       (VArr (List.filter (JS.strict_neq_str name) images)))
                                    "updatedAt" (VStr (Clock.toISOString now)))) with
              | Some fs2 => (fs2, Json 200 ok_body)
              | None => (fs1, ServerError)
              end
          | _ => (fs1, Json 200 ok_body)
          end
      | _ => (fs1, Json 200 ok_body)
      end
  end.
Proof.
  intros Hf Hn. unfold delete_mood. rewrite Hf. simpl JS.truthy.
  apply String.eqb_neq in Hn. rewrite Hn. cbn [negb]. reflexivity.
Qed.


(** The update of the stored document by POST /api/delete-mood. *)
Lemma board_step (fs1 : gmap (list string) FS.node) now name o images :
  readBoard dirname fs1 = VObj o ->
  JS.get (VObj o) "moodImages" = VArr images ->
  writable dirname fs1 ->
  let o' := JS.set (JS.set o "moodImages" (VArr (List.filter (JS.strict_neq_str name) images)))
                   "updatedAt" (VStr (Clock.toISOString now)) in
  let fs2 := <[DATA_FILE dirname := FS.File (serialize 0 (VObj o'))]> fs1 in
  writeBoard dirname fs1 (VObj o') = Some fs2 /\ readBoard dirname fs2 = VObj o'.
Proof.
  intros Hr Hg Hw o' fs2. split; [now apply writeBoard_writable|].
  apply readBoard_written. subst o'.
  assert (Hj : json (VObj o) = true).
  { destruct (readBoard_json dirname fs1) as [E|E]; rewrite Hr in E; [discriminate | exact E]. }
  apply json_set; [apply json_set|]; [exact Hj| |reflexivity].
  destruct (get_json (VObj o) "moodImages" Hj) as [E|E]; rewrite Hg in E; [discriminate|].
  rewrite json_arr in *. now apply forallb_filter.
Qed.



End DeleteFacts.

Section TraversalFacts.

Variable dirname : Path.path.

Lemma join_traversal :
  Path.join (UPLOAD_DIR dirname) "../data/vision-board.txt" = (DATA_FILE dirname, false).
Proof.
  rewrite UPLOAD_DIR_eq, DATA_FILE_eq. unfold Path.join. rewrite rev_app_distr. simpl.
  change (Path.step ("uploads" :: List.rev dirname) "..") with (List.rev dirname).
  now rewrite rev_involutive, <- app_assoc.
Qed.

Lemma data_file_outside : ~ (exists rest, DATA_FILE dirname = UPLOAD_DIR dirname ++ rest).
Proof.
  intros [rest H]. rewrite DATA_FILE_eq, UPLOAD_DIR_eq, <- app_assoc in H.
  apply app_inv_head in H. discriminate.
Qed.

(** The store after POST /api/delete-mood with a good filename: the store
    after the unlink, with or without a new text of the document. *)
Lemma delete_mood_store fs now body name :
  JS.get (JS.or body (VObj [])) "filename" = VStr name -> name <> "" ->
  forall fs1,
    (if FS.existsSync fs (Path.join (UPLOAD_DIR dirname) name)
     then FS.unlinkSync fs (Path.join (UPLOAD_DIR dirname) name) else Some fs) = Some fs1 ->
    fst (delete_mood dirname fs now body) = fs1 \/
    (exists text v, fs1 !! DATA_FILE dirname = Some (FS.File text) /\
       fst (delete_mood dirname fs now body) = <[DATA_FILE dirname := FS.File v]> fs1).
Proof.
  intros E Hn fs1 H1. rewrite (delete_mood_run dirname fs now body name E Hn), H1.
  destruct (readBoard dirname fs1) as [| | | | | |o] eqn:Er; try (now left).
  destruct (JS.get (VObj o) "moodImages"); try (now left).
  destruct (writeBoard dirname fs1 _) as [fs2|] eqn:Ew; [|now left].
  right. apply writeBoard_inv in Ew as [_ ->].
  destruct (fs1 !! DATA_FILE dirname) as [[text|]|] eqn:Ef.
  - eauto.
  - rewrite readBoard_dir in Er by assumption. discriminate.
  - rewrite readBoard_missing in Er by assumption. discriminate.
Qed.

Lemma unlink_cases (fs fs1 : gmap (list string) FS.node) full :
  (if FS.existsSync fs full then FS.unlinkSync fs full else Some fs) = Some fs1 ->
  fs1 = fs \/ fs1 = delete (fst full) fs.
Proof.
  unfold FS.existsSync, FS.unlinkSync.
  destruct (fs !! fst full) as [[data|]|]; destruct (snd full); simpl; intros H;
    try discriminate H; injection H as <-; auto.
Qed.

(** C3: POST /api/delete-mood unlinks the path that [path.join] makes of
    the upload directory and the filename as it was sent: a file there is
    gone afterwards and no path other than it and the data file changes.
    With the filename [../data/vision-board.txt] that path is the data
    file itself, outside the upload directory, and the stored document is
    deleted. *)
Theorem C3_delete_unlinks_joined_path fs now body name :
  JS.get (JS.or body (VObj [])) "filename" = VStr name -> name <> "" ->
  let full := Path.join (UPLOAD_DIR dirname) name in
  let fs' := fst (delete_mood dirname fs now body) in
  (forall p, p <> fst full -> p <> DATA_FILE dirname -> fs' !! p = fs !! p) /\
  (forall data, fs !! fst full = Some (FS.File data) -> snd full = false ->
     fs' !! fst full = None) /\
  Path.join (UPLOAD_DIR dirname) "../data/vision-board.txt" = (DATA_FILE dirname, false) /\
  ~ (exists rest, DATA_FILE dirname = UPLOAD_DIR dirname ++ rest) /\
  (forall data, fs !! DATA_FILE dirname = Some (FS.File data) ->
     delete_mood dirname fs now (VObj [("filename", VStr "../data/vision-board.txt")])
       = (delete (DATA_FILE dirname) fs, Json 200 ok_body)).
Proof.
  intros E Hn full fs'. split; [|split; [|split; [|split]]].
  - intros p Hp Hp'. subst fs'.
    destruct (if FS.existsSync fs full then FS.unlinkSync fs full else Some fs)
      as [fs1|] eqn:H1.
    + assert (Hfs1 : fs1 !! p = fs !! p).
      { destruct (unlink_cases fs fs1 full H1) as [->| ->];
          [reflexivity | now apply lookup_delete_ne]. }
      destruct (delete_mood_store fs now body name E Hn _ H1) as [->|(text & v & Hd & ->)].
      * exact Hfs1.
      * rewrite lookup_insert_ne by congruence. exact Hfs1.
    + rewrite (delete_mood_run dirname fs now body name E Hn). fold full. now rewrite H1.
  - intros data Hf Hs. subst fs'.
    assert (H1 : (if FS.existsSync fs full then FS.unlinkSync fs full else Some fs)
                 = Some (delete (fst full) fs)).
    { unfold FS.existsSync, FS.unlinkSync. now rewrite Hf, Hs. }
    destruct (delete_mood_store fs now body name E Hn _ H1) as [->|(text & v & Hd & ->)].
    + apply lookup_delete_eq.
    + assert (Hne : DATA_FILE dirname <> fst full).
      { intros Heq. rewrite Heq, lookup_delete_eq in Hd. discriminate. }
      rewrite lookup_insert_ne by exact Hne. apply lookup_delete_eq.
  - apply join_traversal.
  - apply data_file_outside.
  - intros data Hf.
    rewrite (delete_mood_run dirname fs now
               (VObj [("filename", VStr "../data/vision-board.txt")])
               "../data/vision-board.txt" eq_refl) by discriminate.
    rewrite join_traversal. unfold FS.existsSync, FS.unlinkSync. cbn [fst snd].
    rewrite Hf. cbn [negb].
    rewrite readBoard_missing by apply lookup_delete_eq. reflexivity.
Qed.

End TraversalFacts.

Lemma C3_traversal_witness :
  fst (delete_mood app pictures_store some_time (VObj [("filename", VStr a_picture)]))
    !! ["srv"; "app"; "uploads"; a_picture] = None /\
  delete_mood app pictures_store some_time (VObj [("filename", VStr "../data/vision-board.txt")])
    = (delete (DATA_FILE app) pictures_store, Json 200 ok_body).
Proof.
  split.
  - destruct (C3_delete_unlinks_joined_path app pictures_store some_time
                (VObj [("filename", VStr a_picture)]) a_picture eq_refl)
      as (_ & H & _); [discriminate|].
    apply (H "PNG" eq_refl eq_refl).
  - destruct (C3_delete_unlinks_joined_path app pictures_store some_time
                (VObj [("filename", VStr a_picture)]) a_picture eq_refl)
      as (_ & _ & _ & _ & H); [discriminate|].
    apply (H (JSON.serialize 0 a_board)). reflexivity.
Defined.





(** ** Facts about binary64 rounding *)

Module F64Facts.
Import F64.

Lemma round_small j m : m <= 0 -> round j m = 0.
Proof. intros H. unfold round. destruct (m <=? 0) eqn:E; [reflexivity | lia]. Qed.

Lemma round_unfold j m :
  0 < m ->
  round j m =
  let s := Z.max (Z.log2 m - 52) j in
  if s <=? 0 then m
  else
    let q := m / 2 ^ s in
    let r := m mod 2 ^ s in
    let half := 2 ^ (s - 1) in
    let q' := if (half <? r) || ((r =? half) && Z.odd q) then q + 1 else q in
    q' * 2 ^ (s - j).
Proof. intros H. unfold round. destruct (m <=? 0) eqn:E; [lia | reflexivity]. Qed.

(** The quotient after rounding is the quotient or the next integer. *)
Lemma round0_cases m :
  0 < m -> 0 < Z.log2 m - 52 ->
  (round 0 m = (m / 2 ^ (Z.log2 m - 52)) * 2 ^ (Z.log2 m - 52) /\
   m mod 2 ^ (Z.log2 m - 52) <= 2 ^ (Z.log2 m - 52 - 1)) \/
  (round 0 m = (m / 2 ^ (Z.log2 m - 52) + 1) * 2 ^ (Z.log2 m - 52) /\
   2 ^ (Z.log2 m - 52 - 1) <= m mod 2 ^ (Z.log2 m - 52)).
Proof.
  intros Hm Hs. set (s := Z.log2 m - 52). rewrite (round_unfold 0 m Hm). cbv zeta.
  replace (Z.max (Z.log2 m - 52) 0) with s by (subst s; lia).
  destruct (s <=? 0) eqn:E; [subst s; lia|]. rewrite Z.sub_0_r.
  destruct ((2 ^ (s - 1) <? m mod 2 ^ s) || ((m mod 2 ^ s =? 2 ^ (s - 1)) && Z.odd (m / 2 ^ s)))
    eqn:Eu.
  - right. split; [reflexivity|]. apply orb_true_iff in Eu as [H|H]; [lia|].
    apply andb_true_iff in H as [H _]. lia.
  - left. split; [reflexivity|]. apply orb_false_iff in Eu as [H _]. lia.
Qed.

Lemma round0_nonneg m : 0 <= round 0 m.
Proof.
  destruct (Z_le_gt_dec m 0) as [H|H]; [rewrite round_small by assumption; lia|].
  assert (Hm : 0 < m) by lia.
  destruct (Z_le_gt_dec (Z.log2 m - 52) 0) as [Hs|Hs].
  - rewrite (round_unfold 0 m Hm). cbv zeta.
    replace (Z.max (Z.log2 m - 52) 0) with 0 by lia. simpl. lia.
  - assert (Hs' : 0 < Z.log2 m - 52) by lia.
    pose proof (round0_cases m Hm Hs') as Hc.
    pose proof (Z.pow_pos_nonneg 2 (Z.log2 m - 52) ltac:(lia) ltac:(lia)) as Hp.
    pose proof (Z.div_pos m (2 ^ (Z.log2 m - 52)) ltac:(lia) ltac:(lia)) as Hq.
    destruct Hc as [[-> _]|[-> _]]; nia.
Qed.

(** Rounding does not go beyond the next power of two. *)
Lemma round0_le_pow m : 0 < m -> round 0 m <= 2 ^ (Z.log2 m + 1).
Proof.
  intros Hm. pose proof (Z.log2_spec m Hm) as [_ Hlt].
  replace (Z.succ (Z.log2 m)) with (Z.log2 m + 1) in Hlt by lia.
  destruct (Z_le_gt_dec (Z.log2 m - 52) 0) as [Hs|Hs].
  - rewrite (round_unfold 0 m Hm). cbv zeta.
    replace (Z.max (Z.log2 m - 52) 0) with 0 by lia. simpl. lia.
  - assert (Hs' : 0 < Z.log2 m - 52) by lia.
    pose proof (round0_cases m Hm Hs') as Hc.
    assert (E : 2 ^ (Z.log2 m + 1) = 2 ^ 53 * 2 ^ (Z.log2 m - 52)).
    { rewrite <- Z.pow_add_r by lia. f_equal. lia. }
    rewrite E in *. clear E.
    remember (Z.log2 m - 52) as s eqn:Es. clear Es.
    assert (Hp : 0 < 2 ^ s) by (apply Z.pow_pos_nonneg; lia).
    remember (2 ^ s) as w eqn:Ew. clear Ew.
    assert (Hq : m / w < 2 ^ 53) by (apply Z.div_lt_upper_bound; lia).
    destruct Hc as [[-> _]|[-> _]]; nia.
Qed.

(** A number below the middle between two neighbours on the grid of its
    binade is rounded to the lower one at most. *)
Lemma round0_le_grid m i :
  0 < m -> 0 < Z.log2 m - 52 ->
  m < i * 2 ^ (Z.log2 m - 52) + 2 ^ (Z.log2 m - 52 - 1) ->
  round 0 m <= i * 2 ^ (Z.log2 m - 52).
Proof.
  intros Hm Hs Hlt. pose proof (round0_cases m Hm Hs) as Hc.
  remember (Z.log2 m - 52) as s eqn:Es. clear Es.
  assert (Hh : 2 ^ s = 2 * 2 ^ (s - 1)).
  { rewrite <- (Z.pow_succ_r 2 (s - 1)) by lia. f_equal. lia. }
  assert (Hp : 0 < 2 ^ (s - 1)) by (apply Z.pow_pos_nonneg; lia).
  remember (2 ^ (s - 1)) as h eqn:Eh. clear Eh. rewrite Hh in *. clear Hh.
  pose proof (Z.div_mod m (2 * h) ltac:(lia)) as Hdm.
  pose proof (Z.mod_pos_bound m (2 * h) ltac:(lia)) as Hr.
  remember (m / (2 * h)) as q eqn:Eq. remember (m mod (2 * h)) as r eqn:Er.
  clear Eq Er.
  destruct Hc as [[-> Hl]|[-> Hu]].
  - assert (q <= i) by (destruct (Z_le_gt_dec q i); [assumption | exfalso; nia]). nia.
  - assert (q + 1 <= i) by (destruct (Z_le_gt_dec (q + 1) i); [assumption | exfalso; nia]). nia.
Qed.

(** Rounding does not go below a multiple of a power of two of the grid. *)
Lemma round0_ge_grid m c k :
  0 <= c -> Z.log2 m - 52 <= k -> 0 <= k -> c * 2 ^ k <= m -> c * 2 ^ k <= round 0 m.
Proof.
  intros Hc Hk Hk0 Hle.
  destruct (Z_le_gt_dec m 0) as [H0|H0].
  { rewrite round_small by assumption.
    pose proof (Z.pow_pos_nonneg 2 k ltac:(lia) Hk0). nia. }
  assert (Hm : 0 < m) by lia.
  destruct (Z_le_gt_dec (Z.log2 m - 52) 0) as [Hs|Hs].
  - rewrite (round_unfold 0 m Hm). cbv zeta.
    replace (Z.max (Z.log2 m - 52) 0) with 0 by lia. simpl. lia.
  - assert (Hs' : 0 < Z.log2 m - 52) by lia.
    pose proof (round0_cases m Hm Hs') as Hcs.
    remember (Z.log2 m - 52) as s eqn:Es. clear Es.
    assert (E : 2 ^ k = 2 ^ (k - s) * 2 ^ s).
    { rewrite <- Z.pow_add_r by lia. f_equal. lia. }
    assert (Hp : 0 < 2 ^ s) by (apply Z.pow_pos_nonneg; lia).
    assert (Hpk : 0 < 2 ^ (k - s)) by (apply Z.pow_pos_nonneg; lia).
    rewrite E in *. clear E.
    remember (2 ^ s) as w eqn:Ew. remember (2 ^ (k - s)) as u eqn:Eu. clear Ew Eu.
    assert (Hq : c * u <= m / w).
    { apply Z.div_le_lower_bound; [lia|]. nia. }
    remember (m / w) as q eqn:Eq. clear Eq.
    destruct Hcs as [[-> _]|[-> _]]; nia.
Qed.



Lemma ltb_scale a b c : 0 < c -> (a * c <? b * c) = (a <? b).
Proof. intros H. destruct (Z.ltb_spec (a * c) (b * c)), (Z.ltb_spec a b); try reflexivity; nia. Qed.

Lemma eqb_scale a b c : 0 < c -> (a * c =? b * c) = (a =? b).
Proof. intros H. destruct (Z.eqb_spec (a * c) (b * c)), (Z.eqb_spec a b); try reflexivity; nia. Qed.

(** Rounding the product with a power of two of the unit is rounding the
    factor. *)
Lemma round_scaled k : round 1074 (k * 2 ^ 1074) = round 0 k.
Proof.
  assert (Hu : 0 < 2 ^ 1074) by (apply Z.pow_pos_nonneg; lia).
  destruct (Z_le_gt_dec k 0) as [H|H].
  { rewrite !round_small; [reflexivity | lia | nia]. }
  assert (Hk : 0 < k) by lia.
  rewrite (round_unfold 1074 (k * 2 ^ 1074)) by nia.
  rewrite (round_unfold 0 k Hk). cbv zeta.
  rewrite Z.log2_mul_pow2 by lia.
  destruct (Z_le_gt_dec (Z.log2 k - 52) 0) as [Hs|Hs].
  - replace (Z.max (1074 + Z.log2 k - 52) 1074) with 1074 by lia.
    replace (Z.max (Z.log2 k - 52) 0) with 0 by lia.
    change (1074 <=? 0) with false. change (0 <=? 0) with true. cbv iota.
    rewrite Z.div_mul, Z.mod_mul by lia.
    assert (Hh : 0 < 2 ^ (1074 - 1)) by (apply Z.pow_pos_nonneg; lia).
    assert ((2 ^ (1074 - 1) <? 0) = false) as -> by lia.
    assert ((0 =? 2 ^ (1074 - 1)) = false) as -> by lia.
    cbn [orb andb]. rewrite Z.sub_diag. change (2 ^ 0) with 1. lia.
  - remember (Z.log2 k - 52) as s eqn:Es.
    replace (Z.max (1074 + Z.log2 k - 52) 1074) with (s + 1074) by lia.
    replace (Z.max s 0) with s by lia.
    assert ((s + 1074 <=? 0) = false) as -> by lia.
    assert ((s <=? 0) = false) as -> by lia.
    assert (Hp : 0 < 2 ^ s) by (apply Z.pow_pos_nonneg; lia).
    assert (Hh : 0 < 2 ^ (s - 1)) by (apply Z.pow_pos_nonneg; lia).
    rewrite (Z.pow_add_r 2 s 1074) by lia.
    replace (s + 1074 - 1) with ((s - 1) + 1074) by lia.
    rewrite (Z.pow_add_r 2 (s - 1) 1074) by lia.
    rewrite Z.div_mul_cancel_r, Z.mul_mod_distr_r by lia.
    rewrite ltb_scale, eqb_scale by assumption.
    replace (s + 1074 - 1074) with s by lia. now rewrite Z.sub_0_r.
Qed.

(** A binary64 number below one is at most 1 - 2^-53. *)
Lemma random_bound r : is_random r = true -> 0 <= r <= 2 ^ 1074 - 2 ^ 1021.
Proof.
  unfold is_random, is_f64, scale. intros H.
  apply andb_true_iff in H as [H Hlt]. apply andb_true_iff in H as [H0 Hr].
  apply Z.leb_le in H0. apply Z.eqb_eq in Hr. apply Z.ltb_lt in Hlt.
  assert (E : 2 ^ 1074 = 2 ^ 53 * 2 ^ 1021) by (rewrite <- Z.pow_add_r by lia; reflexivity).
  assert (Hu : 2 <= 2 ^ 1021).
  { change 2 with (2 ^ 1) at 1. apply Z.pow_le_mono_r; lia. }
  split; [assumption|].
  destruct (Z.eq_dec r 0) as [->|Hne]; [rewrite E; nia|].
  assert (Hpos : 0 < r) by lia.
  pose proof (Z.log2_spec r Hpos) as [_ Hub].
  assert (HL : Z.log2 r < 1074) by (apply Z.log2_lt_pow2; assumption).
  pose proof (Z.log2_nonneg r) as HL0.
  destruct (Z_le_gt_dec (Z.log2 r - 52) 0) as [Hs|Hs].
  - assert (2 ^ Z.succ (Z.log2 r) <= 2 ^ 53) by (apply Z.pow_le_mono_r; lia).
    rewrite E. remember (2 ^ 1021) as u. clear Hequ E. nia.
  - assert (Hs' : 0 < Z.log2 r - 52) by lia.
    pose proof (round0_cases r Hpos Hs') as Hc.
    assert (Eb : 2 ^ Z.succ (Z.log2 r) = 2 ^ 53 * 2 ^ (Z.log2 r - 52)).
    { rewrite <- Z.pow_add_r by lia. f_equal. lia. }
    assert (Hw : 2 ^ (Z.log2 r - 52) <= 2 ^ 1021) by (apply Z.pow_le_mono_r; lia).
    assert (Hp : 0 < 2 ^ (Z.log2 r - 52)) by (apply Z.pow_pos_nonneg; lia).
    rewrite Eb in Hub. rewrite E. rewrite Hr in Hc.
    remember (2 ^ (Z.log2 r - 52)) as w. remember (2 ^ 1021) as u.
    remember (r / w) as q. clear Heqw Hequ Heqq E Eb.
    destruct Hc as [[Hq _]|[Hq _]].
    + assert (q < 2 ^ 53) by nia. nia.
    + assert (q + 1 < 2 ^ 53) by nia. nia.
Qed.



(** Powers of two in terms of [u = 2^1021]. *)
Lemma pow_units :
  2 ^ 1074 = 2 ^ 53 * 2 ^ 1021 /\ 2 ^ 1035 = 2 ^ 14 * 2 ^ 1021 /\
  2 ^ 1034 = 2 ^ 13 * 2 ^ 1021 /\ 2 ^ 1087 = 2 ^ 66 * 2 ^ 1021 /\
  2 ^ 1077 = 2 ^ 56 * 2 ^ 1021 /\ 2 ^ 1088 = 2 ^ 67 * 2 ^ 1021 /\ 0 < 2 ^ 1021.
Proof.
  repeat split; try (rewrite <- Z.pow_add_r by lia; reflexivity).
Qed.

(** An upper bound for the rounding of a positive number below 2^1088 that
    lies below the middle of the last two grid points under [i * 2^1035]. *)
Lemma round0_below m i :
  0 < m -> 2 ^ 66 * 2 ^ 1021 <= i * (2 ^ 14 * 2 ^ 1021) ->
  m < i * (2 ^ 14 * 2 ^ 1021) + 2 ^ 13 * 2 ^ 1021 ->
  m < 2 ^ 67 * 2 ^ 1021 ->
  round 0 m <= i * (2 ^ 14 * 2 ^ 1021).
Proof.
  intros Hm Hi Hlt Hlt'.
  destruct pow_units as (E1 & E2 & E3 & E4 & E5 & E6 & Hu).
  assert (HL : Z.log2 m < 1088) by (apply Z.log2_lt_pow2; [assumption | now rewrite E6]).
  destruct (Z.eq_dec (Z.log2 m) 1087) as [HL1|HL1].
  - pose proof (round0_le_grid m i Hm ltac:(lia)) as H.
    rewrite HL1 in H. change (1087 - 52 - 1) with 1034 in H. change (1087 - 52) with 1035 in H.
    rewrite E2, E3 in H. now apply H.
  - pose proof (round0_le_pow m Hm) as H.
    assert (2 ^ (Z.log2 m + 1) <= 2 ^ 1087) by (apply Z.pow_le_mono_r; lia).
    rewrite E4 in *. lia.
Qed.

(** [Math.floor(1000 + Math.random() * 9000)] lies between 1000 and 9999. *)
Lemma rand_range r :
  is_random r = true ->
  1000 <= floor (add (of_int 1000) (mul r (of_int 9000))) <= 9999.
Proof.
  intros Hr. apply random_bound in Hr as [Hr0 Hr1].
  destruct pow_units as (E1 & E2 & E3 & E4 & E5 & E6 & Hu).
  unfold floor, add, mul, of_int, scale.
  replace (r * (9000 * 2 ^ 1074)) with ((9000 * r) * 2 ^ 1074) by ring.
  rewrite round_scaled.
  assert (Hp0 : 0 <= round 0 (9000 * r)) by apply round0_nonneg.
  assert (Hp1 : round 0 (9000 * r) <= (9000 * 2 ^ 39 - 1) * (2 ^ 14 * 2 ^ 1021)).
  { destruct (Z.eq_dec r 0) as [->|Hne].
    - rewrite round_small by lia. lia.
    - apply round0_below; rewrite ?E1 in *; lia. }
  remember (round 0 (9000 * r)) as p eqn:Ep. clear Ep.
  assert (Hm : 0 < 1000 * 2 ^ 1074 + p) by (rewrite E1; lia).
  assert (Hq1 : round 0 (1000 * 2 ^ 1074 + p) <= (10000 * 2 ^ 39 - 1) * (2 ^ 14 * 2 ^ 1021)).
  { apply round0_below; rewrite ?E1 in *; lia. }
  assert (Hq0 : 125 * 2 ^ 1077 <= round 0 (1000 * 2 ^ 1074 + p)).
  { apply round0_ge_grid; [lia| |lia|rewrite E1, E5; lia].
    assert (Z.log2 (1000 * 2 ^ 1074 + p) < 1088); [|lia].
    apply Z.log2_lt_pow2; [assumption|]. rewrite E1, E6. lia. }
  remember (round 0 (1000 * 2 ^ 1074 + p)) as q eqn:Eq. clear Eq.
  rewrite E5 in Hq0. rewrite E1.
  remember (2 ^ 1021) as u eqn:Eu. clear Eu.
  split.
  - apply Z.div_le_lower_bound; lia.
  - assert (q / (2 ^ 53 * u) < 10000); [|lia]. apply Z.div_lt_upper_bound; lia.
Qed.

End F64Facts.
Import F64Facts.

(** ** File names *)

Module NameFacts.

Lemma forallb_app_s p a b :
  string_forallb p (a +:+ b) = string_forallb p a && string_forallb p b.
Proof.
  induction a as [|c a IH]; simpl; [reflexivity|]. rewrite IH. now rewrite andb_assoc.
Qed.

Lemma remove_chars_app cs a b :
  Str.remove_chars cs (a +:+ b) = Str.remove_chars cs a +:+ Str.remove_chars cs b.
Proof.
  induction a as [|c a IH]; simpl; [reflexivity|].
  destruct (existsb (Ascii.eqb c) cs); simpl; now rewrite IH.
Qed.

Lemma digit_not_separator c :
  is_digit c = true -> existsb (Ascii.eqb c) ["-"; ":"; "."; "T"; "Z"]%char = false.
Proof.
  intros H. simpl.
  repeat match goal with
  | |- context [Ascii.eqb c ?x] =>
      destruct (Ascii.eqb_spec c x) as [->|_]; [discriminate H|]
  end. reflexivity.
Qed.

Lemma remove_chars_digits s :
  string_forallb is_digit s = true ->
  Str.remove_chars ["-"; ":"; "."; "T"; "Z"]%char s = s.
Proof.
  induction s as [|c s IH]; [reflexivity|]. cbn [string_forallb Str.remove_chars].
  intros H. apply andb_true_iff in H as [Hc Hs].
  now rewrite (digit_not_separator c Hc), (IH Hs).
Qed.

Lemma digit_is_digit n : is_digit (Clock.digit n) = true.
Proof.
  unfold Clock.digit. pose proof (Z.mod_pos_bound n 10 ltac:(lia)) as H.
  assert (Hk : (Z.to_nat (n mod 10) < 10)%nat) by lia.
  destruct (Z.to_nat (n mod 10)) as [|[|[|[|[|[|[|[|[|[|k]]]]]]]]]]; try reflexivity. lia.
Qed.

Lemma digits_digits w n : string_forallb is_digit (Clock.digits w n) = true.
Proof.
  revert n. induction w as [|w IH]; intros n; [reflexivity|].
  cbn [Clock.digits]. rewrite forallb_app_s, IH. unfold str1.
  cbn [string_forallb andb]. now rewrite digit_is_digit.
Qed.

Lemma length_digits w n : String.length (Clock.digits w n) = w.
Proof.
  revert n. induction w as [|w IH]; intros n; [reflexivity|].
  cbn [Clock.digits]. rewrite length_app_s, IH. unfold str1. cbn [String.length]. lia.
Qed.

Lemma remove_digits w n :
  Str.remove_chars ["-"; ":"; "."; "T"; "Z"]%char (Clock.digits w n) = Clock.digits w n.
Proof. apply remove_chars_digits, digits_digits. Qed.

Lemma take_app n a b : String.length a = n -> Str.take n (a +:+ b) = a.
Proof.
  revert n. induction a as [|c a IH]; intros n H; simpl in *.
  - subst n. now destruct b.
  - destruct n as [|n]; [discriminate|]. simpl. rewrite IH; [reflexivity | lia].
Qed.

Lemma stamp_digits t : string_forallb is_digit (stamp t) = true.
Proof. unfold stamp. now rewrite !forallb_app_s, !digits_digits. Qed.

Lemma length_stamp t : String.length (stamp t) = 14%nat.
Proof. unfold stamp. now rewrite !length_app_s, !length_digits. Qed.

(** The first 14 characters of the ISO text without its separators. *)
Lemma stamp_of_iso t :
  0 <= Clock.YearFromTime t <= 9999 ->
  Str.take 14 (Str.remove_chars ["-"; ":"; "."; "T"; "Z"]%char (Clock.toISOString t)) = stamp t.
Proof.
  intros Hy. unfold Clock.toISOString, Clock.year_text.
  assert ((0 <=? Clock.YearFromTime t) && (Clock.YearFromTime t <=? 9999) = true) as ->
    by (apply andb_true_iff; lia).
  rewrite !remove_chars_app, !remove_digits.
  change (Str.remove_chars ["-"; ":"; "."; "T"; "Z"]%char "-") with "".
  change (Str.remove_chars ["-"; ":"; "."; "T"; "Z"]%char ":") with "".
  change (Str.remove_chars ["-"; ":"; "."; "T"; "Z"]%char ".") with "".
  change (Str.remove_chars ["-"; ":"; "."; "T"; "Z"]%char "T") with "".
  change (Str.remove_chars ["-"; ":"; "."; "T"; "Z"]%char "Z") with "".
  cbn [String.append]. rewrite app_nil_r_s.
  replace (Clock.digits 4 (Clock.YearFromTime t) +:+ Clock.digits 2 (Clock.MonthFromTime t) +:+
           Clock.digits 2 (Clock.DateFromTime t) +:+ Clock.digits 2 (Clock.HourFromTime t) +:+
           Clock.digits 2 (Clock.MinFromTime t) +:+ Clock.digits 2 (Clock.SecFromTime t) +:+
           Clock.digits 3 (Clock.msFromTime t))
    with (stamp t +:+ Clock.digits 3 (Clock.msFromTime t))
    by (unfold stamp; now rewrite !app_assoc_s).
  apply take_app, length_stamp.
Qed.

Lemma all_from_spec p start count n :
  all_from p start count = true -> start <= n < start + Z.of_nat count -> p n = true.
Proof.
  revert start. induction count as [|k IH]; intros start H Hn; [lia|].
  simpl in H. apply andb_true_iff in H as [H0 H1].
  destruct (Z.eq_dec n start) as [->|Hne]; [exact H0|].
  apply (IH (start + 1) H1). lia.
Qed.

Lemma four_digits_all : all_from four_digits 1000 (Z.to_nat 9000) = true.
Proof. vm_compute. reflexivity. Qed.

Lemma four_digits_range n : 1000 <= n <= 9999 -> four_digits n = true.
Proof. intros H. apply (all_from_spec _ 1000 (Z.to_nat 9000) n four_digits_all). lia. Qed.

End NameFacts.
Import NameFacts.

Section UploadFacts.

Variable dirname : Path.path.

Lemma allowed_spec ext : existsb (String.eqb ext) allowed = true <-> In ext allowed.
Proof.
  rewrite existsb_exists. split.
  - intros (x & Hin & E). apply String.eqb_eq in E. now subst.
  - intros H. exists ext. split; [exact H | apply String.eqb_refl].
Qed.

(** C8: with the clock in the years 0000 to 9999, where the ISO text starts
    with a four-digit year, the name made for an upload is [mood_], the 14
    digits of year, month, day, hour, minute and second, [_], an integer
    from 1000 to 9999 in four digits, and the safe extension: the
    lower-cased extension of the original name when that is one of .png,
    .jpg, .jpeg, .webp, .gif and [.jpg] otherwise. *)
Theorem C8_genMoodFilename name now rnd :
  F64.is_random rnd = true -> 0 <= Clock.YearFromTime now <= 9999 ->
  let ext := Str.toLowerCase (Path.extname (default "" name)) in
  exists n,
    genMoodFilename name now rnd =
      "mood_" +:+ stamp now +:+ "_" +:+ Z_to_string n +:+ safeExt name /\
    String.length (stamp now) = 14%nat /\ string_forallb is_digit (stamp now) = true /\
    1000 <= n <= 9999 /\
    String.length (Z_to_string n) = 4%nat /\ string_forallb is_digit (Z_to_string n) = true /\
    (In ext allowed -> safeExt name = ext) /\
    (~ In ext allowed -> safeExt name = ".jpg") /\
    safeExt (Some "photo.png") = ".png" /\ safeExt (Some "scan.bmp") = ".jpg".
Proof.
  intros Hr Hy ext.
  exists (F64.floor (F64.add (F64.of_int 1000) (F64.mul rnd (F64.of_int 9000)))).
  pose proof (rand_range rnd Hr) as Hn.
  pose proof (four_digits_range _ Hn) as Hd. unfold four_digits in Hd.
  apply andb_true_iff in Hd as [Hl Hd]. apply Nat.eqb_eq in Hl.
  split; [|split; [|split; [|split; [|split; [|split; [|split; [|split; [|split]]]]]]]].
  - unfold genMoodFilename. now rewrite (stamp_of_iso now Hy).
  - apply length_stamp.
  - apply stamp_digits.
  - exact Hn.
  - exact Hl.
  - exact Hd.
  - intros Hin. unfold safeExt. fold ext. now rewrite (proj2 (allowed_spec ext) Hin).
  - intros Hin. unfold safeExt. fold ext.
    destruct (existsb (String.eqb ext) allowed) eqn:E; [|reflexivity].
    apply allowed_spec in E. contradiction.
  - reflexivity.
  - reflexivity.
Qed.

Lemma no_slash_app a b : no_slash (a +:+ b) = no_slash a && no_slash b.
Proof. apply forallb_app_s. Qed.

Lemma digits_no_slash s : string_forallb is_digit s = true -> no_slash s = true.
Proof.
  unfold no_slash. induction s as [|c s IH]; [reflexivity|]. simpl. intros H.
  apply andb_true_iff in H as [Hc Hs]. rewrite (IH Hs), andb_true_r.
  destruct (Ascii.eqb_spec c "/") as [->|_]; [discriminate Hc | reflexivity].
Qed.

Lemma Z_to_string_no_slash n : no_slash (Z_to_string n) = true.
Proof.
  unfold Z_to_string. destruct n as [|p|p]; simpl; [reflexivity| |].
  - destruct (pos_text p) as (c & t & E & Hc & _ & Ht & _). rewrite E.
    apply digits_no_slash. simpl. now rewrite Hc, Ht.
  - destruct (pos_text p) as (c & t & E & Hc & _ & Ht & _). rewrite E.
    change (no_slash (String "-" (String c t))) with (no_slash (String c t)).
    apply digits_no_slash. simpl. now rewrite Hc, Ht.
Qed.

Lemma remove_chars_no_slash cs s : no_slash s = true -> no_slash (Str.remove_chars cs s) = true.
Proof.
  unfold no_slash. induction s as [|c s IH]; [reflexivity|]. simpl. intros H.
  apply andb_true_iff in H as [Hc Hs].
  destruct (existsb (Ascii.eqb c) cs); simpl; [now apply IH | now rewrite Hc, IH].
Qed.

Lemma take_no_slash n s : no_slash s = true -> no_slash (Str.take n s) = true.
Proof.
  unfold no_slash. revert s. induction n as [|n IH]; intros s; [reflexivity|].
  destruct s as [|c s]; [reflexivity|]. simpl. intros H.
  apply andb_true_iff in H as [Hc Hs]. now rewrite Hc, IH.
Qed.

Lemma iso_no_slash t : no_slash (Clock.toISOString t) = true.
Proof.
  unfold Clock.toISOString. rewrite !no_slash_app.
  rewrite !(digits_no_slash _ (digits_digits _ _)).
  assert (no_slash (Clock.year_text (Clock.YearFromTime t)) = true) as ->; [|reflexivity].
  unfold Clock.year_text.
  destruct ((0 <=? _) && _); [apply digits_no_slash, digits_digits|].
  destruct (_ <? 0);
    match goal with |- no_slash (String ?c ?s) = true =>
      change (no_slash (String c s)) with (no_slash s) end;
    apply digits_no_slash, digits_digits.
Qed.

Lemma safeExt_allowed name : In (safeExt name) allowed.
Proof.
  unfold safeExt. destruct (existsb _ allowed) eqn:E.
  - now apply allowed_spec.
  - simpl. auto.
Qed.

Lemma safeExt_no_slash name : no_slash (safeExt name) = true.
Proof.
  pose proof (safeExt_allowed name) as H. simpl in H.
  destruct H as [<-|[<-|[<-|[<-|[<-|[]]]]]]; reflexivity.
Qed.

Lemma genMoodFilename_no_slash name now rnd : no_slash (genMoodFilename name now rnd) = true.
Proof.
  unfold genMoodFilename. rewrite !no_slash_app.
  rewrite take_no_slash by apply remove_chars_no_slash, iso_no_slash.
  now rewrite Z_to_string_no_slash, safeExt_no_slash.
Qed.

Lemma split_no_slash s : no_slash s = true -> Path.split s = [s].
Proof.
  unfold no_slash. induction s as [|c s IH]; [reflexivity|]. simpl. intros H.
  apply andb_true_iff in H as [Hc Hs]. apply negb_true_iff in Hc.
  now rewrite Hc, (IH Hs).
Qed.

Lemma upload_path name now rnd :
  fst (Path.join (UPLOAD_DIR dirname) (genMoodFilename name now rnd))
  = dirname ++ ["uploads"; genMoodFilename name now rnd].
Proof.
  rewrite join_name.
  - rewrite UPLOAD_DIR_eq, <- app_assoc. reflexivity.
  - apply split_no_slash, genMoodFilename_no_slash.
  - unfold genMoodFilename. discriminate.
  - unfold genMoodFilename. discriminate.
  - unfold genMoodFilename. discriminate.
Qed.

(** Storing an upload writes below the upload directory and leaves the
    data file alone. *)
Lemma store_file_frame fs name data now rnd fs' st :
  store_file dirname fs name data now rnd = Some (fs', st) ->
  st = Stored (genMoodFilename name now rnd) /\
  fs' = <[dirname ++ ["uploads"; genMoodFilename name now rnd] := FS.File data]> fs /\
  fs' !! DATA_FILE dirname = fs !! DATA_FILE dirname.
Proof.
  unfold store_file, FS.writeFileSync. rewrite upload_path.
  remember (dirname ++ ["uploads"; genMoodFilename name now rnd]) as p eqn:Ep.
  intros H.
  assert (E : fs' = <[p := FS.File data]> fs /\ st = Stored (genMoodFilename name now rnd)).
  { repeat case_match; simplify_eq; auto. }
  destruct E as [-> ->]. split; [reflexivity|]. split; [reflexivity|].
  apply lookup_insert_ne. subst p. rewrite DATA_FILE_eq. intros E.
  apply app_inv_head in E. discriminate.
Qed.

(** C9: the handler of POST /api/upload-mood answers 200 with [ok: true]
    and, for the stored files in their order, the records of [filename]
    and [url], the url being [/uploads/] followed by the filename; without
    files the list is empty; the handler leaves the store as it is, and
    storing an upload before it does not touch the data file. *)
Theorem C9_upload_mood fs files :
  upload_mood fs files =
    (fs, Json 200 (VObj [("ok", VBool true);
                         ("files", VArr (List.map
                            (fun f => VObj [("filename", VStr (filename f));
                                            ("url", VStr ("/uploads/" +:+ filename f))])
                            (default [] files)))])) /\
  upload_mood fs None = (fs, Json 200 (VObj [("ok", VBool true); ("files", VArr [])])) /\
  upload_mood fs (Some []) = (fs, Json 200 (VObj [("ok", VBool true); ("files", VArr [])])) /\
  (forall i f, default [] files !! i = Some f ->
     exists saved, JS.get (response_body (snd (upload_mood fs files))) "files" = VArr saved /\
       saved !! i = Some (VObj [("filename", VStr (filename f));
                                ("url", VStr ("/uploads/" +:+ filename f))]) /\
       List.length saved = List.length (default [] files)) /\
  (forall name data now rnd fs' st,
     store_file dirname fs name data now rnd = Some (fs', st) ->
     fs' !! DATA_FILE dirname = fs !! DATA_FILE dirname /\
     snd (upload_mood fs' (Some [st])) =
       Json 200 (VObj [("ok", VBool true);
                       ("files", VArr [VObj [("filename", VStr (genMoodFilename name now rnd));
                                             ("url", VStr ("/uploads/" +:+
                                                           genMoodFilename name now rnd))]])])).
Proof.
  split; [reflexivity|]. split; [reflexivity|]. split; [reflexivity|]. split.
  - intros i f Hf. eexists. split; [reflexivity|]. split.
    + rewrite list_lookup_fmap, Hf. reflexivity.
    + apply length_map.
  - intros name data now rnd fs' st H.
    apply store_file_frame in H as (-> & _ & H). split; [exact H | reflexivity].
Qed.

End UploadFacts.

Lemma C8_name_witness :
  exists n,
    genMoodFilename (Some "photo.png") some_time 0 =
      "mood_" +:+ stamp some_time +:+ "_" +:+ Z_to_string n +:+ safeExt (Some "photo.png") /\
    1000 <= n <= 9999.
Proof.
  destruct (C8_genMoodFilename (Some "photo.png") some_time 0) as (n & E & _ & _ & Hn & _).
  - reflexivity.
  - vm_compute. split; discriminate.
  - exists n. split; assumption.
Defined.

Lemma C9_upload_witness :
  let name := "mood_20261101181500_1000.png" in
  let fs' := <[ ["srv"; "app"; "uploads"; name] := FS.File "PNG" ]> fresh_store in
  fs' !! DATA_FILE app = fresh_store !! DATA_FILE app /\
  snd (upload_mood fs' (Some [Stored name])) =
    Json 200 (VObj [("ok", VBool true);
                    ("files", VArr [VObj [
                       ("filename", VStr (genMoodFilename (Some "photo.png") some_time 0));
                       ("url", VStr ("/uploads/" +:+
                                     genMoodFilename (Some "photo.png") some_time 0))]])]).
Proof.
  intros name fs'.
  apply (proj2 (proj2 (proj2 (proj2 (C9_upload_mood app fresh_store None))))
           (Some "photo.png") "PNG" some_time 0 fs' (Stored name)).
  unfold store_file. rewrite upload_path.
  change (genMoodFilename (Some "photo.png") some_time 0) with name.
  reflexivity.
Defined.

(** * Further properties of the server *)

(** ** Start-up *)

Module MkdirFacts.

Lemma between_nil (done p : list string) :
  done `prefix_of` p -> p `prefix_of` done ++ [] -> p = done.
Proof.
  rewrite app_nil_r. intros H1 H2. now apply (anti_symm prefix).
Qed.

Lemma between_cons (done p : list string) s r :
  done `prefix_of` p -> p `prefix_of` done ++ s :: r ->
  p = done \/ ((done ++ [s]) `prefix_of` p /\ p `prefix_of` (done ++ [s]) ++ r).
Proof.
  intros [k ->] H. apply prefix_app_inv in H. destruct k as [|x k].
  - left. now rewrite app_nil_r.
  - right. apply prefix_cons_inv_1 in H as Hx. subst x.
    apply prefix_cons_inv_2 in H. split.
    + exists k. now rewrite <- app_assoc.
    + rewrite <- app_assoc. simpl. apply prefix_app, prefix_cons, H.
Qed.

Lemma not_below (done p : list string) s : (done ++ [s]) `prefix_of` p -> p <> done.
Proof.
  intros [k ->] E. apply (f_equal List.length) in E.
  rewrite !length_app in E. simpl in E. lia.
Qed.

(** What [mkdirs] does: it throws exactly when a file is on the way, and
    otherwise makes every path on the way a directory and leaves the other
    paths alone. *)
Lemma mkdirs_spec todo : forall (fs : gmap (list string) FS.node) done,
  match FS.mkdirs fs done todo with
  | Some fs' =>
      (forall p, done `prefix_of` p -> p `prefix_of` done ++ todo ->
         fs' !! p = Some FS.Dir /\ (fs !! p = None \/ fs !! p = Some FS.Dir)) /\
      (forall p, ~ (done `prefix_of` p /\ p `prefix_of` done ++ todo) -> fs' !! p = fs !! p)
  | None =>
      exists p data, done `prefix_of` p /\ p `prefix_of` done ++ todo /\
        fs !! p = Some (FS.File data)
  end.
Proof.
  induction todo as [|s r IH]; intros fs done; cbn [FS.mkdirs].
  - destruct (fs !! done) as [[data|]|] eqn:E.
    + exists done, data. split; [reflexivity|]. split; [now rewrite app_nil_r | exact E].
    + split.
      * intros p H1 H2. rewrite (between_nil done p H1 H2). auto.
      * reflexivity.
    + split.
      * intros p H1 H2. rewrite (between_nil done p H1 H2), lookup_insert_eq. auto.
      * intros p Hp. apply lookup_insert_ne. intros <-. apply Hp.
        split; [reflexivity | now rewrite app_nil_r].
  - assert (Hdone : done `prefix_of` done ++ s :: r) by apply prefix_app_r, reflexivity.
    assert (Hup : forall p, (done ++ [s]) `prefix_of` p -> done `prefix_of` p).
    { intros p [k ->]. exists ([s] ++ k). now rewrite <- app_assoc. }
    assert (Hdown : forall p, p `prefix_of` (done ++ [s]) ++ r -> p `prefix_of` done ++ s :: r).
    { intros p. now rewrite <- app_assoc. }
    destruct (fs !! done) as [[data|]|] eqn:E.
    + exists done, data. auto.
    + specialize (IH fs (done ++ [s])).
      destruct (FS.mkdirs fs (done ++ [s]) r) as [fs'|].
      * destruct IH as [Hon Hoff]. split.
        -- intros p H1 H2. destruct (between_cons done p s r H1 H2) as [->|[H3 H4]].
           ++ rewrite Hoff, E; [auto|]. intros [H3 _]. now apply not_below in H3.
           ++ now apply Hon.
        -- intros p Hp. apply Hoff. intros [H3 H4]. apply Hp. auto.
      * destruct IH as (p & data & H1 & H2 & H3). exists p, data. auto.
    + specialize (IH (<[done := FS.Dir]> fs) (done ++ [s])).
      destruct (FS.mkdirs (<[done := FS.Dir]> fs) (done ++ [s]) r) as [fs'|].
      * destruct IH as [Hon Hoff]. split.
        -- intros p H1 H2. destruct (between_cons done p s r H1 H2) as [->|[H3 H4]].
           ++ rewrite Hoff, lookup_insert_eq; [auto|]. intros [H3 _]. now apply not_below in H3.
           ++ destruct (Hon p H3 H4) as [Ha Hb]. split; [exact Ha|].
              rewrite lookup_insert_ne in Hb; [exact Hb|].
              intros <-. now apply not_below in H3.
        -- intros p Hp. rewrite Hoff.
           ++ apply lookup_insert_ne. intros <-. apply Hp. split; [reflexivity | exact Hdone].
           ++ intros [H3 H4]. apply Hp. auto.
      * destruct IH as (p & data & H1 & H2 & H3). exists p, data.
        split; [auto|]. split; [auto|].
        rewrite lookup_insert_ne in H3; [exact H3|]. intros <-. now apply not_below in H1.
Qed.

Lemma mkdirSync_some (fs fs' : gmap (list string) FS.node) target :
  FS.mkdirSync fs target = Some fs' ->
  (forall p, p `prefix_of` target ->
     fs' !! p = Some FS.Dir /\ (fs !! p = None \/ fs !! p = Some FS.Dir)) /\
  (forall p, ~ p `prefix_of` target -> fs' !! p = fs !! p).
Proof.
  unfold FS.mkdirSync. intros H. pose proof (mkdirs_spec target fs []) as S.
  rewrite H in S. destruct S as [Hon Hoff]. split.
  - intros p Hp. apply Hon; [apply prefix_nil | exact Hp].
  - intros p Hp. apply Hoff. intros [_ H2]. now apply Hp.
Qed.

Lemma mkdirSync_none (fs : gmap (list string) FS.node) target :
  FS.mkdirSync fs target = None <->
  exists p data, p `prefix_of` target /\ fs !! p = Some (FS.File data).
Proof.
  unfold FS.mkdirSync. pose proof (mkdirs_spec target fs []) as S. split.
  - intros H. rewrite H in S. destruct S as (p & data & _ & H2 & H3). now exists p, data.
  - intros (p & data & H2 & H3). destruct (FS.mkdirs fs [] target) as [fs'|]; [|reflexivity].
    destruct S as [Hon _]. destruct (Hon p (prefix_nil p) H2) as [_ [Hn|Hn]]; congruence.
Qed.

(** Entries are kept by [mkdirSync]. *)
Lemma mkdirSync_keeps (fs fs' : gmap (list string) FS.node) target p n :
  FS.mkdirSync fs target = Some fs' -> fs !! p = Some n -> fs' !! p = Some n.
Proof.
  intros H Hp. destruct (mkdirSync_some fs fs' target H) as [Hon Hoff].
  destruct (decide (p `prefix_of` target)) as [Hd|Hd].
  - destruct (Hon p Hd) as [Ha [Hb|Hb]]; congruence.
  - now rewrite Hoff.
Qed.

(** Where all the directories are there already, nothing changes. *)
Lemma mkdirSync_same (fs : gmap (list string) FS.node) target :
  (forall p, p `prefix_of` target -> fs !! p = Some FS.Dir) ->
  FS.mkdirSync fs target = Some fs.
Proof.
  intros Hall. destruct (FS.mkdirSync fs target) as [fs'|] eqn:E.
  - f_equal. apply map_eq. intros p.
    destruct (mkdirSync_some fs fs' target E) as [Hon Hoff].
    destruct (decide (p `prefix_of` target)) as [Hd|Hd].
    + rewrite (Hall p Hd). now apply Hon.
    + now apply Hoff.
  - apply mkdirSync_none in E. destruct E as (p & data & Hp & Hf).
    rewrite (Hall p Hp) in Hf. discriminate.
Qed.

End MkdirFacts.
Import MkdirFacts.

Section StartupFacts.

Variable dirname : Path.path.

Lemma PUBLIC_DIR_eq : PUBLIC_DIR dirname = dirname ++ ["public"].
Proof. unfold PUBLIC_DIR. now rewrite join_name. Qed.

Lemma data_file_not_on_way target :
  List.length target = S (List.length dirname) -> ~ DATA_FILE dirname `prefix_of` target.
Proof.
  intros L H. apply prefix_length in H. rewrite DATA_FILE_eq, length_app, L in H.
  simpl in H. lia.
Qed.

Lemma startup_inv fs fs' :
  startup dirname fs = Some fs' ->
  exists fs1 fs2,
    FS.mkdirSync fs (PUBLIC_DIR dirname) = Some fs1 /\
    FS.mkdirSync fs1 (DATA_DIR dirname) = Some fs2 /\
    FS.mkdirSync fs2 (UPLOAD_DIR dirname) = Some fs'.
Proof.
  unfold startup. intros H.
  destruct (FS.mkdirSync fs (PUBLIC_DIR dirname)) as [fs1|]; [|discriminate].
  destruct (FS.mkdirSync fs1 (DATA_DIR dirname)) as [fs2|] eqn:E2; [|discriminate].
  now exists fs1, fs2.
Qed.

(** X1: when the three [mkdirSync] calls of the start-up go through, the
    public, data and upload directories exist, every entry that was there
    is kept as it was, the only new entries are directories on the way to
    those three, the stored document reads as before, the document can be
    written unless its path is a directory, and a second start-up changes
    nothing. *)
Theorem X1_startup_directories fs fs' :
  startup dirname fs = Some fs' ->
  fs' !! PUBLIC_DIR dirname = Some FS.Dir /\
  fs' !! DATA_DIR dirname = Some FS.Dir /\
  fs' !! UPLOAD_DIR dirname = Some FS.Dir /\
  (forall p n, fs !! p = Some n -> fs' !! p = Some n) /\
  (forall p, fs !! p = None -> fs' !! p <> None ->
     fs' !! p = Some FS.Dir /\
     (p `prefix_of` PUBLIC_DIR dirname \/ p `prefix_of` DATA_DIR dirname \/
      p `prefix_of` UPLOAD_DIR dirname)) /\
  readBoard dirname fs' = readBoard dirname fs /\
  (fs !! DATA_FILE dirname <> Some FS.Dir -> writable dirname fs') /\
  startup dirname fs' = Some fs'.
Proof.
  intros H. destruct (startup_inv fs fs' H) as (fs1 & fs2 & H1 & H2 & H3).
  destruct (mkdirSync_some _ _ _ H1) as [On1 Off1].
  destruct (mkdirSync_some _ _ _ H2) as [On2 Off2].
  destruct (mkdirSync_some _ _ _ H3) as [On3 Off3].
  assert (Keep : forall p n, fs !! p = Some n -> fs' !! p = Some n).
  { intros p n Hp. apply (mkdirSync_keeps _ _ _ _ _ H3), (mkdirSync_keeps _ _ _ _ _ H2),
      (mkdirSync_keeps _ _ _ _ _ H1), Hp. }
  assert (P : forall p, p `prefix_of` PUBLIC_DIR dirname -> fs' !! p = Some FS.Dir).
  { intros p Hp. apply (mkdirSync_keeps _ _ _ _ _ H3), (mkdirSync_keeps _ _ _ _ _ H2).
    now apply On1. }
  assert (D : forall p, p `prefix_of` DATA_DIR dirname -> fs' !! p = Some FS.Dir).
  { intros p Hp. apply (mkdirSync_keeps _ _ _ _ _ H3). now apply On2. }
  assert (U : forall p, p `prefix_of` UPLOAD_DIR dirname -> fs' !! p = Some FS.Dir).
  { intros p Hp. now apply On3. }
  assert (New : forall p, fs !! p = None -> fs' !! p <> None ->
            fs' !! p = Some FS.Dir /\
            (p `prefix_of` PUBLIC_DIR dirname \/ p `prefix_of` DATA_DIR dirname \/
             p `prefix_of` UPLOAD_DIR dirname)).
  { intros p Hp Hn.
    destruct (decide (p `prefix_of` PUBLIC_DIR dirname)) as [d1|d1]; [auto|].
    destruct (decide (p `prefix_of` DATA_DIR dirname)) as [d2|d2]; [auto|].
    destruct (decide (p `prefix_of` UPLOAD_DIR dirname)) as [d3|d3]; [auto|].
    rewrite (Off3 p d3), (Off2 p d2), (Off1 p d1) in Hn. contradiction. }
  assert (File : fs' !! DATA_FILE dirname = fs !! DATA_FILE dirname).
  { rewrite Off3, Off2, Off1; [reflexivity| | |]; apply data_file_not_on_way.
    - rewrite PUBLIC_DIR_eq, length_app. simpl. lia.
    - rewrite DATA_DIR_eq, length_app. simpl. lia.
    - rewrite UPLOAD_DIR_eq, length_app. simpl. lia. }
  split; [apply P; reflexivity|]. split; [apply D; reflexivity|].
  split; [apply U; reflexivity|]. split; [exact Keep|]. split; [exact New|].
  split; [|split].
  - unfold readBoard, FS.existsSync, FS.readFileSync. cbn [fst snd]. now rewrite File.
  - intros Hd. split; [apply D; reflexivity | now rewrite File].
  - unfold startup. now rewrite !mkdirSync_same.
Qed.

(** X2: the start-up throws exactly when a file sits at one of the three
    directories or at a directory above one of them. *)
Theorem X2_startup_throws fs :
  startup dirname fs = None <->
  exists p data,
    (p `prefix_of` PUBLIC_DIR dirname \/ p `prefix_of` DATA_DIR dirname \/
     p `prefix_of` UPLOAD_DIR dirname) /\
    fs !! p = Some (FS.File data).
Proof.
  unfold startup. split.
  - destruct (FS.mkdirSync fs (PUBLIC_DIR dirname)) as [fs1|] eqn:H1.
    + destruct (FS.mkdirSync fs1 (DATA_DIR dirname)) as [fs2|] eqn:H2.
      * intros H3. apply mkdirSync_none in H3. destruct H3 as (p & data & Hp & Hf).
        exists p, data. split; [auto|].
        destruct (mkdirSync_some _ _ _ H1) as [On1 Off1].
        destruct (mkdirSync_some _ _ _ H2) as [On2 Off2].
        destruct (decide (p `prefix_of` DATA_DIR dirname)) as [d2|d2].
        { destruct (On2 p d2) as [E _]. congruence. }
        rewrite (Off2 p d2) in Hf.
        destruct (decide (p `prefix_of` PUBLIC_DIR dirname)) as [d1|d1].
        { destruct (On1 p d1) as [E _]. congruence. }
        now rewrite (Off1 p d1) in Hf.
      * intros _. apply mkdirSync_none in H2. destruct H2 as (p & data & Hp & Hf).
        exists p, data. split; [auto|].
        destruct (mkdirSync_some _ _ _ H1) as [On1 Off1].
        destruct (decide (p `prefix_of` PUBLIC_DIR dirname)) as [d1|d1].
        { destruct (On1 p d1) as [E _]. congruence. }
        now rewrite (Off1 p d1) in Hf.
    + intros _. apply mkdirSync_none in H1. destruct H1 as (p & data & Hp & Hf).
      exists p, data. auto.
  - intros (p & data & Hp & Hf).
    destruct (FS.mkdirSync fs (PUBLIC_DIR dirname)) as [fs1|] eqn:H1; [|reflexivity].
    pose proof (mkdirSync_keeps _ _ _ _ _ H1 Hf) as Hf1.
    destruct (FS.mkdirSync fs1 (DATA_DIR dirname)) as [fs2|] eqn:H2; [|reflexivity].
    pose proof (mkdirSync_keeps _ _ _ _ _ H2 Hf1) as Hf2.
    destruct Hp as [Hp|[Hp|Hp]].
    + destruct (mkdirSync_some _ _ _ H1) as [On1 _]. destruct (On1 p Hp) as [_ [E|E]]; congruence.
    + destruct (mkdirSync_some _ _ _ H2) as [On2 _]. destruct (On2 p Hp) as [_ [E|E]]; congruence.
    + apply mkdirSync_none. now exists p, data.
Qed.

End StartupFacts.

Lemma X1_startup_witness :
  fresh_store !! DATA_DIR app = Some FS.Dir /\ writable app fresh_store.
Proof.
  destruct (X1_startup_directories app ∅ fresh_store) as (_ & Hd & _ & _ & _ & _ & Hw & _).
  - reflexivity.
  - split; [exact Hd | apply Hw; rewrite lookup_empty; discriminate].
Defined.

(** ** POST /api/board: outcomes and repetition *)

Section PostOutcomes.

Variable dirname : Path.path.

Lemma writeBoard_unwritable fs d : ~ writable dirname fs -> writeBoard dirname fs d = None.
Proof.
  intros Hw. unfold writeBoard, FS.writeFileSync. destruct (stringify d); [|reflexivity].
  rewrite parent_DATA_FILE.
  destruct (fs !! DATA_FILE dirname) as [[x|]|] eqn:Ef; [|reflexivity|];
    (destruct (fs !! DATA_DIR dirname) as [[y|]|] eqn:Ed; try reflexivity;
     exfalso; apply Hw; split; [exact Ed | rewrite Ef; discriminate]).
Qed.

Lemma writable_written fs text :
  writable dirname fs -> writable dirname (<[DATA_FILE dirname := FS.File text]> fs).
Proof.
  intros [Hd Hf]. split.
  - rewrite lookup_insert_ne; [exact Hd|].
    rewrite DATA_FILE_eq, DATA_DIR_eq. intros E. apply (f_equal List.length) in E.
    rewrite !length_app in E. simpl in E. lia.
  - rewrite lookup_insert_eq. discriminate.
Qed.

Lemma writable_cases fs : writable dirname fs \/ ~ writable dirname fs.
Proof.
  unfold writable.
  destruct (fs !! DATA_DIR dirname) as [[t|]|]; try (right; intros [E _]; discriminate E).
  destruct (fs !! DATA_FILE dirname) as [[s|]|].
  - left. split; [reflexivity | discriminate].
  - right. intros [_ E]. now apply E.
  - left. split; [reflexivity | discriminate].
Qed.

(** The document that POST /api/board makes of [body] and the document
    [current]. *)
Lemma post_board_cases fs now body :
  let current := JS.or (readBoard dirname fs) (defaultBoard now) in
  let next :=
    VObj [("version", VNum 1); ("updatedAt", VStr (Clock.toISOString now));
          ("content", next_content (JS.or body (VObj [])) current);
          ("moodImages", next_images (JS.or body (VObj [])) current)] in
  (rejected body = true /\
   post_board dirname fs now body = (fs, Json 400 (error_body "Invalid payload"))) \/
  (rejected body = false /\ ~ writable dirname fs /\
   post_board dirname fs now body = (fs, ServerError)) \/
  (rejected body = false /\ writable dirname fs /\
   post_board dirname fs now body =
     (<[DATA_FILE dirname := FS.File (serialize 0 next)]> fs, Json 200 ok_body)).
Proof.
  intros current next. rewrite post_board_guard.
  destruct (rejected body); [left; auto | right]. cbv zeta.
  fold current. fold (next_content (JS.or body (VObj [])) current).
  fold (next_images (JS.or body (VObj [])) current). fold next.
  destruct (writable_cases fs) as [Hw|Hw].
  - right. now rewrite writeBoard_writable.
  - left. now rewrite writeBoard_unwritable.
Qed.

(** X3: POST /api/board has three outcomes.  It answers 200 exactly when
    the body passes the guard and the document can be written, and ends
    in a server error (the write throws) exactly when the body passes the
    guard and the document cannot be written; whenever the answer is not
    200 the store is as before, and no path other than the data file ever
    changes. *)
Theorem X3_post_board_outcomes fs now body :
  let r := post_board dirname fs now body in
  (snd r = Json 200 ok_body <-> rejected body = false /\ writable dirname fs) /\
  (snd r = ServerError <-> rejected body = false /\ ~ writable dirname fs) /\
  (snd r = Json 400 (error_body "Invalid payload") <-> rejected body = true) /\
  (snd r <> Json 200 ok_body -> fst r = fs) /\
  (snd r = Json 200 ok_body -> exists text, fst r !! DATA_FILE dirname = Some (FS.File text)) /\
  (forall p, p <> DATA_FILE dirname -> fst r !! p = fs !! p).
Proof.
  intros r. subst r.
  destruct (post_board_cases fs now body) as [[Hr ->]|[(Hr & Hw & ->)|(Hr & Hw & ->)]];
    cbn [fst snd]; rewrite Hr.
  - split; [|split; [|split; [|split; [|split]]]];
      try (split; [discriminate | intros [E _]; discriminate E]);
      try discriminate; try reflexivity. tauto.
  - split; [|split; [|split; [|split; [|split]]]];
      try discriminate; try reflexivity.
    + split; [discriminate | intros [_ E]; contradiction].
    + tauto.
    + split; discriminate.
  - split; [|split; [|split; [|split; [|split]]]].
    + tauto.
    + split; [discriminate | intros [_ E]; contradiction].
    + split; discriminate.
    + intros E. now contradiction E.
    + intros _. eexists. apply lookup_insert_eq.
    + intros p Hp. now apply lookup_insert_ne.
Qed.

(** X4: a body that is an array, or that is falsy ([undefined], [null],
    [false], [0] or the empty string), is treated by POST /api/board as
    the empty object is: same answer, same store. *)
Theorem X4_post_board_as_empty fs now body :
  JS.isArray body = true \/ JS.truthy body = false ->
  post_board dirname fs now body = post_board dirname fs now (VObj []).
Proof.
  intros H. rewrite !post_board_guard.
  destruct body as [| |b|n|s|l|o]; destruct H as [H|H]; try discriminate H;
    try reflexivity.
  - destruct b; [discriminate H | reflexivity].
  - unfold rejected, JS.or. rewrite H. reflexivity.
  - unfold rejected, JS.or. rewrite H. reflexivity.
Qed.








End PostOutcomes.

Lemma X4_array_witness :
  post_board app fresh_store some_time (VArr [VNum 1])
    = post_board app fresh_store some_time (VObj []) /\
  post_board app fresh_store some_time VNull
    = post_board app fresh_store some_time (VObj []).
Proof.
  split.
  - apply (X4_post_board_as_empty app fresh_store some_time (VArr [VNum 1])). now left.
  - apply (X4_post_board_as_empty app fresh_store some_time VNull). now right.
Defined.


(** ** POST /api/delete-mood: repetition *)

Section DeleteAgain.

Variable dirname : Path.path.

Lemma unlink_gone (fs fs1 : gmap (list string) FS.node) full :
  (if FS.existsSync fs full then FS.unlinkSync fs full else Some fs) = Some fs1 ->
  FS.existsSync fs1 full = false.
Proof.
  unfold FS.existsSync, FS.unlinkSync.
  destruct (fs !! fst full) as [[data|]|] eqn:E; destruct (snd full) eqn:Es; simpl;
    intros H; try discriminate H; injection H as <-;
    rewrite ?lookup_delete_eq, ?E, ?Es; reflexivity.
Qed.

Lemma unlink_absent (fs : gmap (list string) FS.node) full :
  FS.existsSync fs full = false ->
  (if FS.existsSync fs full then FS.unlinkSync fs full else Some fs) = Some fs.
Proof. now intros ->. Qed.

Lemma exists_written (fs : gmap (list string) FS.node) full text v :
  FS.existsSync fs full = false ->
  fs !! DATA_FILE dirname = Some (FS.File text) ->
  FS.existsSync (<[DATA_FILE dirname := FS.File v]> fs) full = false.
Proof.
  unfold FS.existsSync. intros H Hf.
  destruct (decide (fst full = DATA_FILE dirname)) as [E|E].
  - rewrite E in *. rewrite lookup_insert_eq. now rewrite Hf in H.
  - now rewrite lookup_insert_ne.
Qed.

Lemma readBoard_object fs o :
  readBoard dirname fs = VObj o ->
  json (VObj o) = true /\ exists text, fs !! DATA_FILE dirname = Some (FS.File text).
Proof.
  intros Hr. split.
  - destruct (readBoard_json dirname fs) as [E|E]; rewrite Hr in E; [discriminate | exact E].
  - destruct (fs !! DATA_FILE dirname) as [[text|]|] eqn:Ef.
    + now exists text.
    + rewrite readBoard_dir in Hr by assumption. discriminate.
    + rewrite readBoard_missing in Hr by assumption. discriminate.
Qed.

Lemma filter_neq_twice name images :
  List.filter (JS.strict_neq_str name) (List.filter (JS.strict_neq_str name) images)
  = List.filter (JS.strict_neq_str name) images.
Proof. apply filter_neq_id, filter_neq_gone. Qed.

(** What the handler does to the object that it wrote back: only
    [updatedAt] is set again. *)
Lemma cleaned_again o name iso iso' images :
  let o' := JS.set (JS.set o "moodImages" (VArr (List.filter (JS.strict_neq_str name) images)))
                   "updatedAt" (VStr iso) in
  JS.get (VObj o') "moodImages" = VArr (List.filter (JS.strict_neq_str name) images) /\
  JS.set (JS.set o' "moodImages"
            (VArr (List.filter (JS.strict_neq_str name)
                     (List.filter (JS.strict_neq_str name) images))))
         "updatedAt" (VStr iso') = JS.set o' "updatedAt" (VStr iso') /\
  JS.set o' "updatedAt" (VStr iso) = o'.
Proof.
  intros o'. split; [|split].
  - subst o'. rewrite get_set_other by discriminate. apply get_set_same.
  - rewrite filter_neq_twice. rewrite (set_same o' "moodImages"); [reflexivity|].
    subst o'. rewrite lookup_set_other by discriminate. apply lookup_set_same.
  - apply set_same. subst o'. apply lookup_set_same.
Qed.

(** X6: POST /api/delete-mood can be repeated.  A second request with the
    same body gets the answer of the first, changes no path other than the
    data file, and leaves every field of the stored document other than
    [updatedAt] as the first request left it; at the same time of the clock
    it changes nothing at all.  This holds whatever the store and the body
    are.  After an answer of 200 [existsSync] finds nothing at the joined
    path. *)
Theorem X6_delete_mood_again fs now later body :
  let r := delete_mood dirname fs now body in
  let r' := delete_mood dirname (fst r) later body in
  snd r' = snd r /\
  (forall p, p <> DATA_FILE dirname -> fst r' !! p = fst r !! p) /\
  (forall k, k <> "updatedAt" ->
     JS.get (readBoard dirname (fst r')) k = JS.get (readBoard dirname (fst r)) k) /\
  (later = now -> r' = r) /\
  (forall name, JS.get (JS.or body (VObj [])) "filename" = VStr name ->
     snd r = Json 200 ok_body ->
     FS.existsSync (fst r) (Path.join (UPLOAD_DIR dirname) name) = false).
Proof.
  intros r r'.
  assert (Same : r' = r ->
            snd r' = snd r /\
            (forall p, p <> DATA_FILE dirname -> fst r' !! p = fst r !! p) /\
            (forall k, k <> "updatedAt" ->
               JS.get (readBoard dirname (fst r')) k = JS.get (readBoard dirname (fst r)) k) /\
            (later = now -> r' = r)).
  { intros ->. repeat split. }
  assert (Join : forall A B C D E : Prop, (A /\ B /\ C /\ D) -> E -> A /\ B /\ C /\ D /\ E)
    by tauto.
  subst r r'.
  destruct (JS.get (JS.or body (VObj [])) "filename") as [| | | |name| |] eqn:E;
    try (apply Join; [apply Same|discriminate];
         rewrite !delete_mood_400 by (intros name E'; rewrite E in E'; discriminate E');
         reflexivity).
  destruct (String.eqb name "") eqn:En.
  { apply String.eqb_eq in En. subst name.
    assert (H400 : forall fs0 t, delete_mood dirname fs0 t body
                   = (fs0, Json 400 (error_body "filename required"))).
    { intros fs0 t. apply delete_mood_400. intros name E'. rewrite E in E'.
      now injection E' as <-. }
    apply Join; [apply Same; now rewrite !H400 | rewrite H400; discriminate]. }
  apply String.eqb_neq in En.
  pose proof (delete_mood_run dirname fs now body name E En) as Hrun.
  set (full := Path.join (UPLOAD_DIR dirname) name) in *.
  assert (Hname : forall name', VStr name = VStr name' ->
            Path.join (UPLOAD_DIR dirname) name' = full).
  { intros name' Heq. now injection Heq as <-. }
  destruct (if FS.existsSync fs full then FS.unlinkSync fs full else Some fs)
    as [fs1|] eqn:Hu.
  2:{ apply Join; [apply Same | rewrite Hrun; intros name' _ H; discriminate H].
      rewrite Hrun. cbn [fst].
      rewrite (delete_mood_run dirname fs later body name E En). fold full. now rewrite Hu. }
  pose proof (unlink_gone fs fs1 full Hu) as Hgone.
  pose proof (delete_mood_run dirname fs1 later body name E En) as Hrun1.
  fold full in Hrun1. rewrite (unlink_absent fs1 full Hgone) in Hrun1.
  destruct (readBoard dirname fs1) as [| | | | | |o] eqn:Er;
    try (apply Join; [apply Same; rewrite Hrun; exact Hrun1
                     | rewrite Hrun; intros name' Heq _; now rewrite (Hname name' Heq)]).
  destruct (JS.get (VObj o) "moodImages") as [| | | | |images|] eqn:Eg;
    try (apply Join; [apply Same; rewrite Hrun; exact Hrun1
                     | rewrite Hrun; intros name' Heq _; now rewrite (Hname name' Heq)]).
  destruct (readBoard_object fs1 o Er) as [Hj [text Hf]].
  destruct (writable_cases dirname fs1) as [Hw|Hw].
  2:{ rewrite writeBoard_unwritable in Hrun, Hrun1 by exact Hw.
      apply Join; [apply Same; rewrite Hrun; exact Hrun1
                  | rewrite Hrun; intros name' _ H; discriminate H]. }
  clear Hrun1.
  destruct (board_step dirname fs1 now name o images Er Eg Hw) as [Hwr Hrd].
  rewrite Hwr in Hrun. rewrite Hrun. cbn [fst snd].
  set (o2 := JS.set (JS.set o "moodImages" (VArr (List.filter (JS.strict_neq_str name) images)))
                    "updatedAt" (VStr (Clock.toISOString now))) in *.
  set (fs2 := <[DATA_FILE dirname := FS.File (serialize 0 (VObj o2))]> fs1) in *.
  assert (Hgone2 : FS.existsSync fs2 full = false)
    by (subst fs2; now apply (exists_written fs1 full text)).
  destruct (cleaned_again o name (Clock.toISOString now) (Clock.toISOString later) images)
    as (G & S & S0). fold o2 in G, S, S0.
  assert (Hw2 : writable dirname fs2) by (subst fs2; now apply writable_written).
  assert (Hj2 : json (VObj o2) = true).
  { rewrite <- Hrd. destruct (readBoard_json dirname fs2) as [Hn|Hn]; [|exact Hn].
    rewrite Hrd in Hn. discriminate Hn. }
  assert (Hrun2 : delete_mood dirname fs2 later body =
            (<[DATA_FILE dirname := FS.File (serialize 0
                 (VObj (JS.set o2 "updatedAt" (VStr (Clock.toISOString later)))))]> fs2,
             Json 200 ok_body)).
  { rewrite (delete_mood_run dirname fs2 later body name E En). fold full.
    rewrite (unlink_absent fs2 full Hgone2), Hrd, G, S.
    now rewrite writeBoard_writable. }
  rewrite Hrun2. cbn [fst snd].
  split; [reflexivity|]. split; [intros p Hp; now apply lookup_insert_ne|].
  split; [|split].
  - intros k Hk. rewrite Hrd.
    rewrite readBoard_written by (apply json_set; [exact Hj2 | reflexivity]).
    now apply get_set_other.
  - intros ->. rewrite S0. f_equal. subst fs2. apply insert_insert_eq.
  - intros name' Heq _. now rewrite (Hname name' Heq).
Qed.

End DeleteAgain.

(** ** File names and the upload directory *)

Module JoinFacts.

Lemma step_grows stack seg :
  seg <> ".." -> exists new, Path.step stack seg = new ++ stack.
Proof.
  intros H. unfold Path.step.
  destruct (String.eqb seg "" || String.eqb seg "."); [now exists []|].
  apply String.eqb_neq in H. rewrite H. now exists [seg].
Qed.

Lemma steps_grow segs : forall stack,
  ~ In ".." segs -> exists new, List.fold_left Path.step segs stack = new ++ stack.
Proof.
  induction segs as [|seg segs IH]; intros stack H; [now exists []|].
  cbn [List.fold_left].
  destruct (step_grows stack seg) as [n1 ->]; [intros ->; apply H; now left|].
  destruct (IH (n1 ++ stack)) as [n2 ->]; [intros Hin; apply H; now right|].
  exists (n2 ++ n1). now rewrite app_assoc.
Qed.

(** Without a [..] segment, [path.join] stays below its first argument. *)
Lemma join_inside base rel :
  ~ In ".." (Path.split rel) -> base `prefix_of` fst (Path.join base rel).
Proof.
  intros H. unfold Path.join. cbn [fst].
  destruct (steps_grow (Path.split rel) (List.rev base) H) as [new ->].
  rewrite rev_app_distr, rev_involutive. now exists (List.rev new).
Qed.

Lemma no_slash_ends s : no_slash s = true -> Path.ends_with_slash s = false.
Proof.
  unfold no_slash. induction s as [|c s IH]; [reflexivity|]. cbn [string_forallb].
  intros H. apply andb_true_iff in H as [Hc Hs]. apply negb_true_iff in Hc.
  cbn [Path.ends_with_slash]. destruct s; [exact Hc | now apply IH].
Qed.

End JoinFacts.
Import JoinFacts.

Section InsideFacts.

Variable dirname : Path.path.

Lemma data_file_not_inside : ~ UPLOAD_DIR dirname `prefix_of` DATA_FILE dirname.
Proof. intros [rest H]. apply (data_file_outside dirname). now exists rest. Qed.

(** X7: a filename without a [..] segment keeps POST /api/delete-mood
    inside the upload directory: the joined path lies in it, no path
    outside it other than the data file changes, and a stored document
    stays a file (it is rewritten at most, never deleted). *)
Theorem X7_delete_stays_inside fs now body name :
  JS.get (JS.or body (VObj [])) "filename" = VStr name ->
  ~ In ".." (Path.split name) ->
  let fs' := fst (delete_mood dirname fs now body) in
  UPLOAD_DIR dirname `prefix_of` fst (Path.join (UPLOAD_DIR dirname) name) /\
  (forall p, ~ UPLOAD_DIR dirname `prefix_of` p -> p <> DATA_FILE dirname ->
     fs' !! p = fs !! p) /\
  (forall text, fs !! DATA_FILE dirname = Some (FS.File text) ->
     exists text', fs' !! DATA_FILE dirname = Some (FS.File text')).
Proof.
  intros E Hdots fs'. pose proof (join_inside (UPLOAD_DIR dirname) name Hdots) as Hin.
  split; [exact Hin|].
  assert (Hfull : fst (Path.join (UPLOAD_DIR dirname) name) <> DATA_FILE dirname).
  { intros Heq. rewrite Heq in Hin. now apply data_file_not_inside in Hin. }
  destruct (String.eqb name "") eqn:En.
  { apply String.eqb_eq in En. subst name fs'.
    rewrite delete_mood_400
      by (intros name E'; rewrite E in E'; now injection E' as <-).
    cbn [fst]. split; [reflexivity | eauto]. }
  apply String.eqb_neq in En.
  destruct (if FS.existsSync fs (Path.join (UPLOAD_DIR dirname) name)
            then FS.unlinkSync fs (Path.join (UPLOAD_DIR dirname) name) else Some fs)
    as [fs1|] eqn:Hu.
  2:{ subst fs'. rewrite (delete_mood_run dirname fs now body name E En), Hu.
      cbn [fst]. split; [reflexivity | eauto]. }
  assert (Hfs1 : forall p, p <> fst (Path.join (UPLOAD_DIR dirname) name) ->
            fs1 !! p = fs !! p).
  { intros p Hp. destruct (unlink_cases fs fs1 _ Hu) as [->| ->];
      [reflexivity | now apply lookup_delete_ne]. }
  destruct (delete_mood_store dirname fs now body name E En fs1 Hu)
    as [Hs|(text0 & v & Hd & Hs)]; fold fs' in Hs; rewrite Hs.
  - split.
    + intros p Hp _. apply Hfs1. intros ->. now apply Hp.
    + intros text Hf. exists text. rewrite Hfs1; [exact Hf | congruence].
  - split.
    + intros p Hp Hp'. rewrite lookup_insert_ne by congruence.
      apply Hfs1. intros ->. now apply Hp.
    + intros text Hf. exists v. apply lookup_insert_eq.
Qed.

(** X8: whatever name the client gives a file, with separators or [..]
    segments or none at all, the disk storage writes it to a path right in
    the upload directory, under the generated name, and changes no other
    path; the write throws exactly when the upload directory is not there
    or a directory has the generated name. *)
Theorem X8_store_file_inside fs name data now rnd :
  let target := UPLOAD_DIR dirname ++ [genMoodFilename name now rnd] in
  Path.join (UPLOAD_DIR dirname) (genMoodFilename name now rnd) = (target, false) /\
  (forall fs' st, store_file dirname fs name data now rnd = Some (fs', st) ->
     filename st = genMoodFilename name now rnd /\
     fs' !! target = Some (FS.File data) /\
     (forall p, p <> target -> fs' !! p = fs !! p)) /\
  (store_file dirname fs name data now rnd = None <->
   fs !! UPLOAD_DIR dirname <> Some FS.Dir \/ fs !! target = Some FS.Dir).
Proof.
  intros target.
  assert (Ht : target = dirname ++ ["uploads"; genMoodFilename name now rnd]).
  { subst target. now rewrite UPLOAD_DIR_eq, <- app_assoc. }
  assert (Hj : Path.join (UPLOAD_DIR dirname) (genMoodFilename name now rnd) = (target, false)).
  { rewrite (surjective_pairing (Path.join _ _)). f_equal.
    - now rewrite upload_path.
    - apply no_slash_ends, genMoodFilename_no_slash. }
  split; [exact Hj|]. split.
  - intros fs' st H. apply store_file_frame in H as (-> & -> & _). rewrite <- Ht.
    split; [reflexivity|]. split; [apply lookup_insert_eq|].
    intros p Hp. now apply lookup_insert_ne.
  - unfold store_file, FS.writeFileSync. rewrite Hj. cbn [fst].
    assert (Hp : FS.parent target = UPLOAD_DIR dirname).
    { subst target. unfold FS.parent. apply removelast_last. }
    rewrite Hp.
    destruct (fs !! target) as [[d|]|]; destruct (fs !! UPLOAD_DIR dirname) as [[d'|]|];
      split; try discriminate; try reflexivity; try tauto; try (intros _; left; discriminate);
      try (intros [H|H]; [now contradiction H | discriminate H]); auto.
Qed.

(** X9: deleting a file just uploaded, by the name the upload reported,
    removes it again: apart from the data file the store is as it was
    before the upload (with a file of the same name, had there been one,
    gone); the request is not turned down, and it is answered with 200
    when the document can be written. *)
Theorem X9_upload_then_delete fs name data now rnd fs' st later :
  store_file dirname fs name data now rnd = Some (fs', st) ->
  let target := UPLOAD_DIR dirname ++ [filename st] in
  let r := delete_mood dirname fs' later (VObj [("filename", VStr (filename st))]) in
  fst r !! target = None /\
  (forall p, p <> DATA_FILE dirname -> p <> target -> fst r !! p = fs !! p) /\
  (fs !! target = None -> forall p, p <> DATA_FILE dirname -> fst r !! p = fs !! p) /\
  (forall b, snd r <> Json 400 b) /\
  (writable dirname fs -> snd r = Json 200 ok_body).
Proof.
  intros H. apply store_file_frame in H as (-> & -> & _).
  change (filename (Stored ?x)) with x.
  set (gen := genMoodFilename name now rnd).
  assert (Ht : dirname ++ ["uploads"; gen] = UPLOAD_DIR dirname ++ [gen])
    by now rewrite UPLOAD_DIR_eq, <- app_assoc.
  rewrite Ht. intros target r.
  assert (Hj : Path.join (UPLOAD_DIR dirname) gen = (target, false)).
  { rewrite (surjective_pairing (Path.join _ _)). f_equal.
    - subst gen. now rewrite upload_path.
    - apply no_slash_ends, genMoodFilename_no_slash. }
  assert (Hgen : gen <> "") by (subst gen; unfold genMoodFilename; discriminate).
  assert (Htd : target <> DATA_FILE dirname).
  { intros Heq. apply (data_file_outside dirname). exists [gen]. now rewrite <- Heq. }
  assert (Hu : (if FS.existsSync (<[target := FS.File data]> fs)
                     (Path.join (UPLOAD_DIR dirname) gen)
                then FS.unlinkSync (<[target := FS.File data]> fs)
                       (Path.join (UPLOAD_DIR dirname) gen)
                else Some (<[target := FS.File data]> fs))
               = Some (delete target fs)).
  { rewrite Hj. unfold FS.existsSync, FS.unlinkSync. cbn [fst snd].
    rewrite lookup_insert_eq. cbn [negb]. now rewrite delete_insert_eq. }
  subst r.
  rewrite (delete_mood_run dirname (<[target := FS.File data]> fs) later
             (VObj [("filename", VStr gen)]) gen eq_refl Hgen), Hu.
  assert (Hw' : writable dirname fs -> writable dirname (delete target fs)).
  { intros [Hd Hf]. split.
    - rewrite lookup_delete_ne; [exact Hd|]. intros Heq. subst target.
      rewrite <- Ht, DATA_DIR_eq in Heq. apply app_inv_head in Heq. discriminate.
    - now rewrite lookup_delete_ne. }
  assert (Hvac : fs !! target = None -> forall p, delete target fs !! p = fs !! p).
  { intros Hv p. destruct (decide (p = target)) as [->|Hne];
      [now rewrite lookup_delete_eq | now apply lookup_delete_ne]. }
  destruct (readBoard dirname (delete target fs)) as [| | | | | |o] eqn:Er; cbn [fst snd];
    try (split; [apply lookup_delete_eq|];
         split; [intros p _ Hp; now apply lookup_delete_ne|];
         split; [intros Hv p _; now apply Hvac|];
         split; [discriminate | reflexivity]).
  destruct (JS.get (VObj o) "moodImages") as [| | | | |images|] eqn:Eg; cbn [fst snd];
    try (split; [apply lookup_delete_eq|];
         split; [intros p _ Hp; now apply lookup_delete_ne|];
         split; [intros Hv p _; now apply Hvac|];
         split; [discriminate | reflexivity]).
  destruct (writeBoard dirname (delete target fs) _) as [fs2|] eqn:Ew; cbn [fst snd].
  - apply writeBoard_inv in Ew as [_ ->].
    split; [rewrite lookup_insert_ne by congruence; apply lookup_delete_eq|].
    split; [intros p Hp Hp'; rewrite lookup_insert_ne by congruence;
            now apply lookup_delete_ne|].
    split; [intros Hv p Hp; rewrite lookup_insert_ne by congruence; now apply Hvac|].
    split; [discriminate | reflexivity].
  - split; [apply lookup_delete_eq|].
    split; [intros p _ Hp; now apply lookup_delete_ne|].
    split; [intros Hv p _; now apply Hvac|].
    split; [discriminate|].
    intros Hw. destruct (board_step dirname _ later gen o images Er Eg (Hw' Hw)) as [Hwr _].
    rewrite Hwr in Ew. discriminate.
Qed.

End InsideFacts.

Lemma X7_inside_witness :
  fst (delete_mood app pictures_store some_time (VObj [("filename", VStr "a/./b.png")]))
    !! ["srv"; "app"; "public"]
  = pictures_store !! ["srv"; "app"; "public"].
Proof.
  destruct (X7_delete_stays_inside app pictures_store some_time
              (VObj [("filename", VStr "a/./b.png")]) "a/./b.png" eq_refl) as (_ & H & _).
  - simpl. intros [H|[H|[H|[]]]]; discriminate H.
  - apply H.
    + intros [k Hk]. vm_compute in Hk. discriminate Hk.
    + discriminate.
Defined.

Lemma X9_upload_delete_witness :
  let name := genMoodFilename (Some "photo.png") some_time 0 in
  fst (delete_mood app (<[UPLOAD_DIR app ++ [name] := FS.File "PNG"]> fresh_store)
         some_time (VObj [("filename", VStr name)])) !! (UPLOAD_DIR app ++ [name]) = None.
Proof.
  intros name.
  assert (S : store_file app fresh_store (Some "photo.png") "PNG" some_time 0
              = Some (<[UPLOAD_DIR app ++ [name] := FS.File "PNG"]> fresh_store, Stored name)).
  { unfold store_file. rewrite upload_path. reflexivity. }
  exact (proj1 (X9_upload_then_delete app fresh_store (Some "photo.png") "PNG" some_time 0
                  _ _ some_time S)).
Defined.

(** ** Extensions *)

Module ExtFacts.

Import Path.

Lemma forallb_list p s : string_forallb p s = forallb p (list_ascii_of_string s).
Proof. induction s as [|c s IH]; [reflexivity|]. simpl. now rewrite IH. Qed.

Lemma plain_chars s :
  no_dot s = true -> no_slash s = true ->
  forallb plainb (List.rev (list_ascii_of_string s)) = true.
Proof.
  unfold no_dot, no_slash. rewrite !forallb_list, forallb_rev'.
  intros H1 H2. rewrite forallb_forall in *. intros c Hc. unfold plainb.
  now rewrite (H1 c Hc), (H2 c Hc).
Qed.

Lemma scan_down_app st i a b :
  scan_down st i (a ++ b) = scan_down (scan_down st i a) (i - Z.of_nat (List.length a)) b.
Proof.
  revert st i. induction a as [|c a IH]; intros st i.
  - simpl. f_equal. lia.
  - change ((c :: a) ++ b) with (c :: (a ++ b)). cbn [scan_down]. rewrite IH.
    f_equal. cbn [List.length]. lia.
Qed.

Lemma step_plain st i c :
  finished st = false -> plainb c = true ->
  scan_step st i c =
  let st1 :=
    if stop st =? -1
    then Scan (startDot st) (startPart st) (i + 1) false (preDotState st) false
    else st in
  if negb (startDot st1 =? -1)
  then Scan (startDot st1) (startPart st1) (stop st1) (matchedSlash st1) (-1) false
  else st1.
Proof.
  intros Hf Hc. unfold plainb in Hc. apply andb_true_iff in Hc as [H1 H2].
  apply negb_true_iff in H1, H2. unfold scan_step. now rewrite Hf, H1, H2.
Qed.

(** No dot seen and the end known: plain characters change nothing. *)
Lemma scan_before rs : forall i sp s ms pd,
  forallb plainb rs = true -> s <> -1 ->
  scan_down (Scan (-1) sp s ms pd false) i rs = Scan (-1) sp s ms pd false.
Proof.
  induction rs as [|c rs IH]; intros i sp s ms pd H Hs; [reflexivity|].
  cbn [forallb] in H. apply andb_true_iff in H as [Hc Hr].
  cbn [scan_down]. rewrite step_plain by (reflexivity || exact Hc). cbn.
  apply Z.eqb_neq in Hs. rewrite Hs. cbn. apply Z.eqb_neq in Hs. now apply IH.
Qed.

(** From the start: the first plain character marks the end. *)
Lemma scan_start rs i :
  forallb plainb rs = true -> 0 <= i ->
  scan_down (Scan (-1) 0 (-1) true 0 false) i rs =
  match rs with
  | [] => Scan (-1) 0 (-1) true 0 false
  | _ => Scan (-1) 0 (i + 1) false 0 false
  end.
Proof.
  destruct rs as [|c rs]; [reflexivity|]. intros H Hi.
  cbn [forallb] in H. apply andb_true_iff in H as [Hc Hr].
  cbn [scan_down]. rewrite step_plain by (reflexivity || exact Hc). cbn.
  apply scan_before; [exact Hr | lia].
Qed.

(** After the dot: plain characters before it make it the dot of an
    extension. *)
Lemma scan_after rs : forall i d sp s ms pd,
  forallb plainb rs = true -> d <> -1 -> s <> -1 -> rs <> [] ->
  scan_down (Scan d sp s ms pd false) i rs = Scan d sp s ms (-1) false.
Proof.
  induction rs as [|c rs IH]; intros i d sp s ms pd H Hd Hs Hne; [congruence|].
  cbn [forallb] in H. apply andb_true_iff in H as [Hc Hr].
  cbn [scan_down]. rewrite step_plain by (reflexivity || exact Hc). cbn.
  pose proof Hd as Hd'. pose proof Hs as Hs'.
  apply Z.eqb_neq in Hd', Hs'. rewrite Hs'. cbn. rewrite Hd'. cbn.
  destruct rs as [|c' rs']; [reflexivity|]. now apply IH.
Qed.

Lemma step_dot i sp s ms :
  0 <= i ->
  scan_step (Scan (-1) sp s ms 0 false) i "." =
  Scan i sp (if s =? -1 then i + 1 else s) (if s =? -1 then false else ms) 0 false.
Proof.
  intros Hi. unfold scan_step. cbn. destruct (s =? -1); reflexivity.
Qed.

Lemma substring_all s : String.substring 0 (String.length s) s = s.
Proof. induction s as [|c s IH]; [reflexivity|]. simpl. now rewrite IH. Qed.

Lemma substring_tail a b :
  String.substring (String.length a) (String.length b) (a +:+ b) = b.
Proof. induction a as [|c a IH]; [apply substring_all | exact IH]. Qed.

Lemma length_list s : List.length (list_ascii_of_string s) = String.length s.
Proof. induction s as [|c s IH]; [reflexivity|]. simpl. now rewrite IH. Qed.

(** [path.extname] of a plain stem, a dot and a plain rest. *)
Lemma extname_simple pre e :
  pre <> "" -> no_dot pre = true -> no_slash pre = true ->
  no_dot e = true -> no_slash e = true ->
  extname (pre +:+ String "." e) = String "." e.
Proof.
  intros Hne Hd Hs Hde Hse. unfold extname.
  rewrite list_of_app. cbn [list_ascii_of_string].
  rewrite rev_app_distr. cbn [List.rev]. rewrite <- app_assoc.
  change (["."%char] ++ ?l) with ("."%char :: l).
  rewrite length_app_s. cbn [String.length].
  set (n := Z.of_nat (String.length pre)).
  set (m := Z.of_nat (String.length e)).
  replace (Z.of_nat (String.length pre + S (String.length e)) - 1) with (n + m) by lia.
  rewrite scan_down_app, length_rev, length_list. fold m.
  rewrite scan_start by (try apply plain_chars; try assumption; lia).
  replace (n + m - m) with n by lia.
  assert (Hpre : List.rev (list_ascii_of_string pre) <> []).
  { destruct pre as [|c pre]; [congruence|]. simpl. now destruct (List.rev _). }
  assert (Hdot : scan_down
            match List.rev (list_ascii_of_string e) with
            | [] => Scan (-1) 0 (-1) true 0 false
            | _ :: _ => Scan (-1) 0 (n + m + 1) false 0 false
            end n ("."%char :: List.rev (list_ascii_of_string pre))
          = Scan n 0 (n + m + 1) false (-1) false).
  { cbn [scan_down].
    destruct (List.rev (list_ascii_of_string e)) as [|c r] eqn:Er.
    - assert (m = 0) as ->.
      { subst m. rewrite <- length_list, <- length_rev, Er. reflexivity. }
      rewrite step_dot by lia. cbn.
      replace (n + 0 + 1) with (n + 1) by lia.
      apply scan_after; [now apply plain_chars | lia | lia | exact Hpre].
    - rewrite step_dot by lia.
      assert ((n + m + 1 =? -1) = false) as -> by (apply Z.eqb_neq; lia).
      apply scan_after; [now apply plain_chars | lia | lia | exact Hpre]. }
  rewrite Hdot. cbn [startDot stop preDotState startPart].
  assert ((n =? -1) = false) as -> by (apply Z.eqb_neq; lia).
  assert ((n + m + 1 =? -1) = false) as -> by (apply Z.eqb_neq; lia).
  cbn.
  replace (Z.to_nat n) with (String.length pre) by lia.
  replace (Z.to_nat (n + m + 1 - n)) with (String.length (String "." e))
    by (cbn [String.length]; lia).
  apply substring_tail.
Qed.

(** Without a dot there is no extension. *)
Lemma scan_no_dot rs : forall st i,
  startDot st = -1 -> forallb (fun c => negb (Ascii.eqb c ".")) rs = true ->
  startDot (scan_down st i rs) = -1.
Proof.
  induction rs as [|c rs IH]; intros st i Hst H; [exact Hst|].
  cbn [forallb] in H. apply andb_true_iff in H as [Hc Hr]. apply negb_true_iff in Hc.
  cbn [scan_down]. apply IH; [|exact Hr].
  destruct st as [d sp s ms pd f]. cbn in Hst. subst d.
  unfold scan_step. cbn. destruct f; [reflexivity|].
  destruct (Ascii.eqb c "/").
  - destruct (negb ms); reflexivity.
  - rewrite Hc. destruct (s =? -1); reflexivity.
Qed.

Lemma extname_no_dot s : no_dot s = true -> extname s = "".
Proof.
  intros H. unfold extname.
  rewrite scan_no_dot; [reflexivity | reflexivity |].
  unfold no_dot in H. rewrite forallb_list in H. now rewrite forallb_rev'.
Qed.

(** A name that starts with its only dot has no extension. *)
Lemma extname_dotfile e :
  no_dot e = true -> no_slash e = true -> extname (String "." e) = "".
Proof.
  intros Hd Hs. unfold extname. cbn [list_ascii_of_string List.rev String.length].
  set (m := Z.of_nat (String.length e)).
  replace (Z.of_nat (S (String.length e)) - 1) with m by lia.
  rewrite scan_down_app, length_rev, length_list. fold m.
  rewrite scan_start by (try apply plain_chars; try assumption; lia).
  replace (m - m) with 0 by lia. cbn [scan_down]. clearbody m.
  destruct (List.rev (list_ascii_of_string e)); rewrite step_dot by lia;
    cbn [startDot stop preDotState startPart]; [reflexivity|].
  change (0 + 1 =? -1) with false. cbv iota.
  change (0 =? -1) with false. change (0 =? 0) with true.
  cbn [orb]. now rewrite orb_true_r.
Qed.

End ExtFacts.
Import ExtFacts.

Module DotFacts.

Lemma no_dot_app a b : no_dot (a +:+ b) = no_dot a && no_dot b.
Proof. apply forallb_app_s. Qed.

Lemma digits_no_dot s : string_forallb is_digit s = true -> no_dot s = true.
Proof.
  unfold no_dot. induction s as [|c s IH]; [reflexivity|]. simpl. intros H.
  apply andb_true_iff in H as [Hc Hs]. rewrite (IH Hs), andb_true_r.
  destruct (Ascii.eqb_spec c ".") as [->|_]; [discriminate Hc | reflexivity].
Qed.

Lemma Z_to_string_no_dot n : no_dot (Z_to_string n) = true.
Proof.
  unfold Z_to_string. destruct n as [|p|p]; simpl; [reflexivity| |].
  - destruct (pos_text p) as (c & t & E & Hc & _ & Ht & _). rewrite E.
    apply digits_no_dot. simpl. now rewrite Hc, Ht.
  - destruct (pos_text p) as (c & t & E & Hc & _ & Ht & _). rewrite E.
    change (no_dot (String "-" (String c t))) with (no_dot (String c t)).
    apply digits_no_dot. simpl. now rewrite Hc, Ht.
Qed.

(** Removing the dots, among others, leaves none. *)
Lemma remove_chars_no_dot cs s : In "."%char cs -> no_dot (Str.remove_chars cs s) = true.
Proof.
  intros Hin. unfold no_dot. induction s as [|c s IH]; [reflexivity|]. simpl.
  destruct (existsb (Ascii.eqb c) cs) eqn:E; [exact IH|]. simpl. rewrite IH, andb_true_r.
  destruct (Ascii.eqb_spec c ".") as [->|_]; [|reflexivity].
  assert (existsb (Ascii.eqb ".") cs = true) as H; [|congruence].
  apply existsb_exists. exists "."%char. split; [exact Hin | apply Ascii.eqb_refl].
Qed.

Lemma take_no_dot n s : no_dot s = true -> no_dot (Str.take n s) = true.
Proof.
  unfold no_dot. revert s. induction n as [|n IH]; intros s; [reflexivity|].
  destruct s as [|c s]; [reflexivity|]. simpl. intros H.
  apply andb_true_iff in H as [Hc Hs]. now rewrite Hc, IH.
Qed.

Lemma lower_char_dot c : Ascii.eqb (Str.lower_char c) "." = Ascii.eqb c ".".
Proof. destruct c as [[] [] [] [] [] [] [] []]; reflexivity. Qed.

Lemma lower_char_slash c : Ascii.eqb (Str.lower_char c) "/" = Ascii.eqb c "/".
Proof. destruct c as [[] [] [] [] [] [] [] []]; reflexivity. Qed.

Lemma lower_no_dot s : no_dot (Str.toLowerCase s) = no_dot s.
Proof.
  unfold no_dot. induction s as [|c s IH]; [reflexivity|]. simpl.
  now rewrite lower_char_dot, IH.
Qed.

Lemma lower_no_slash s : no_slash (Str.toLowerCase s) = no_slash s.
Proof.
  unfold no_slash. induction s as [|c s IH]; [reflexivity|]. simpl.
  now rewrite lower_char_slash, IH.
Qed.

(** An allowed extension is a dot and plain lower-case letters. *)
Lemma allowed_shape ext :
  In ext allowed ->
  exists e, ext = String "." e /\ no_dot e = true /\ no_slash e = true /\
    Str.toLowerCase ext = ext.
Proof.
  simpl. intros [<-|[<-|[<-|[<-|[<-|[]]]]]]; eexists; repeat split.
Qed.

Lemma safeExt_of_ext s :
  In (Str.toLowerCase (Path.extname s)) allowed ->
  safeExt (Some s) = Str.toLowerCase (Path.extname s).
Proof.
  intros H. unfold safeExt. change (default "" (Some s)) with s. cbv zeta.
  apply allowed_spec in H. now rewrite H.
Qed.

Lemma safeExt_no_ext s : Path.extname s = "" -> safeExt (Some s) = ".jpg".
Proof. intros H. unfold safeExt. change (default "" (Some s)) with s. now rewrite H. Qed.

End DotFacts.
Import DotFacts.

Section ExtensionFacts.

(** The part of a generated name before its extension. *)
Lemma genMoodFilename_stem name now rnd :
  exists stem,
    genMoodFilename name now rnd = stem +:+ safeExt name /\
    stem <> "" /\ no_dot stem = true /\ no_slash stem = true.
Proof.
  exists ("mood_" +:+
          Str.take 14 (Str.remove_chars ["-"; ":"; "."; "T"; "Z"]%char (Clock.toISOString now))
          +:+ "_" +:+
          Z_to_string (F64.floor (F64.add (F64.of_int 1000) (F64.mul rnd (F64.of_int 9000))))).
  split; [|split; [discriminate|split]].
  - unfold genMoodFilename. now rewrite !app_assoc_s.
  - rewrite !no_dot_app, Z_to_string_no_dot.
    rewrite take_no_dot by (apply remove_chars_no_dot; simpl; auto). reflexivity.
  - rewrite !no_slash_app, Z_to_string_no_slash.
    rewrite take_no_slash by apply remove_chars_no_slash, iso_no_slash. reflexivity.
Qed.

(** X10: whatever the original name, the time and the random number, the
    extension of the generated name, as [path.extname] reads it, is the
    safe extension, one of the allowed ones; so [safeExt] gives a generated
    name its own extension back. *)
Theorem X10_generated_extension name now rnd :
  Path.extname (genMoodFilename name now rnd) = safeExt name /\
  In (Path.extname (genMoodFilename name now rnd)) allowed /\
  safeExt (Some (genMoodFilename name now rnd)) = safeExt name.
Proof.
  destruct (genMoodFilename_stem name now rnd) as (stem & -> & Hne & Hd & Hs).
  destruct (allowed_shape _ (safeExt_allowed name)) as (e & He & Hde & Hse & Hl).
  assert (Hx : Path.extname (stem +:+ safeExt name) = safeExt name).
  { rewrite He. now apply extname_simple. }
  split; [exact Hx|]. split; [rewrite Hx; apply safeExt_allowed|].
  rewrite safeExt_of_ext; rewrite Hx, Hl; [reflexivity | apply safeExt_allowed].
Qed.

(** X11: [safeExt] at the edges.  A missing name and a name without a dot
    get [.jpg]; so does a name that is a dot followed by letters (a
    dotfile has no extension), even [.png]; and the case of the extension
    does not matter: a plain stem followed by an extension whose lower case
    is allowed gets that lower case. *)
Theorem X11_safeExt_edges :
  safeExt None = ".jpg" /\
  (forall s, no_dot s = true -> safeExt (Some s) = ".jpg") /\
  (forall e, no_dot e = true -> no_slash e = true ->
     safeExt (Some (String "." e)) = ".jpg") /\
  (forall stem e,
     stem <> "" -> no_dot stem = true -> no_slash stem = true ->
     In (Str.toLowerCase (String "." e)) allowed ->
     safeExt (Some (stem +:+ String "." e)) = Str.toLowerCase (String "." e)).
Proof.
  split; [reflexivity|]. split; [|split].
  - intros s H. apply safeExt_no_ext. now apply extname_no_dot.
  - intros e Hd Hs. apply safeExt_no_ext. now apply extname_dotfile.
  - intros stem e Hne Hd Hs Hin.
    destruct (allowed_shape _ Hin) as (e' & He & Hde & Hse & _).
    cbn [Str.toLowerCase] in He. injection He as He.
    assert (Hx : Path.extname (stem +:+ String "." e) = String "." e).
    { apply extname_simple; try assumption.
      - now rewrite <- lower_no_dot, He.
      - now rewrite <- lower_no_slash, He. }
    rewrite safeExt_of_ext; now rewrite Hx.
Qed.

End ExtensionFacts.

(** ** The document store *)

Module TrimMore.










End TrimMore.
Import TrimMore.

Section StoreRoundTrip.

Variable dirname : Path.path.



End StoreRoundTrip.


(** ** Time stamps *)

Module DateFacts.

Import Clock.

Lemma doe_all : all_from doe_ok 0 (Z.to_nat 146097) = true.
Proof. vm_compute. reflexivity. Qed.

Lemma civil_eq day :
  civil day =
  let z := day + 719468 in
  let '(yoe, m, d) := of_doe (z mod 146097) in
  (yoe + z / 146097 * 400 + (if m <=? 2 then 1 else 0), m, d).
Proof. reflexivity. Qed.

(** [civil] is undone by [days_from_civil], and its months and days are
    those of a calendar. *)
Lemma civil_inverse day :
  let '(y, m, d) := civil day in
  days_from_civil y m d = day /\ 1 <= m <= 12 /\ 1 <= d <= 31.
Proof.
  rewrite civil_eq. cbv zeta.
  set (z := day + 719468).
  pose proof (Z.mod_pos_bound z 146097 eq_refl) as Hb.
  pose proof (all_from_spec doe_ok 0 (Z.to_nat 146097) (z mod 146097) doe_all) as Hok.
  unfold doe_ok in Hok.
  destruct (of_doe (z mod 146097)) as [[yoe m] d].
  assert (Hok' : (0 <=? yoe) && (yoe <=? 399) && (1 <=? m) && (m <=? 12) && (1 <=? d) &&
                 (d <=? 31) && (to_doe yoe m d =? z mod 146097) = true) by (apply Hok; lia).
  clear Hok. repeat (apply andb_true_iff in Hok' as [Hok' ?]).
  assert (Hy : (if m <=? 2
                then yoe + z / 146097 * 400 + (if m <=? 2 then 1 else 0) - 1
                else yoe + z / 146097 * 400 + (if m <=? 2 then 1 else 0))
               = yoe + z / 146097 * 400) by (destruct (m <=? 2); lia).
  unfold days_from_civil. rewrite Hy.
  assert (Hq : (yoe + z / 146097 * 400) / 400 = z / 146097) by (rewrite Z.div_add by lia;
    rewrite Z.div_small by lia; lia).
  assert (Hr : (yoe + z / 146097 * 400) mod 400 = yoe) by (rewrite Z.mod_add by lia;
    apply Z.mod_small; lia).
  rewrite Hq, Hr.
  assert (to_doe yoe m d = z mod 146097) as -> by lia.
  pose proof (Z.div_mod z 146097). subst z. lia.
Qed.

Lemma seconds_split t :
  t / 60000 = t / 1000 / 60 /\ t / 3600000 = t / 1000 / 60 / 60 /\
  t / 86400000 = t / 1000 / 60 / 60 / 24.
Proof. rewrite !Z.div_div by lia. repeat split. Qed.

Lemma seconds_join s :
  ((s / 60 / 60 / 24 * 24 + (s / 60 / 60) mod 24) * 60 + (s / 60) mod 60) * 60 + s mod 60 = s.
Proof.
  pose proof (Z.div_mod s 60). pose proof (Z.div_mod (s / 60) 60).
  pose proof (Z.div_mod (s / 60 / 60) 24). lia.
Qed.

Lemma civil_fields t :
  days_from_civil (YearFromTime t) (MonthFromTime t) (DateFromTime t) = t / msPerDay /\
  1 <= MonthFromTime t <= 12 /\ 1 <= DateFromTime t <= 31.
Proof.
  unfold YearFromTime, MonthFromTime, DateFromTime.
  pose proof (civil_inverse (t / msPerDay)) as H.
  destruct (civil (t / msPerDay)) as [[y m] d]. exact H.
Qed.

(** The fields of a time give the time back. *)
Lemma time_round_trip t :
  time_of_fields (YearFromTime t) (MonthFromTime t) (DateFromTime t)
                 (HourFromTime t) (MinFromTime t) (SecFromTime t) (msFromTime t) = t.
Proof.
  unfold time_of_fields. destruct (civil_fields t) as [-> _].
  unfold msPerDay, HourFromTime, MinFromTime, SecFromTime, msFromTime.
  destruct (seconds_split t) as (-> & -> & ->). rewrite seconds_join.
  pose proof (Z.div_mod t 1000). lia.
Qed.

(** The fields down to the second give the second back. *)
Lemma second_round_trip t :
  ((days_from_civil (YearFromTime t) (MonthFromTime t) (DateFromTime t) * 24
    + HourFromTime t) * 60 + MinFromTime t) * 60 + SecFromTime t = t / 1000.
Proof.
  destruct (civil_fields t) as [-> _].
  unfold msPerDay, HourFromTime, MinFromTime, SecFromTime.
  destruct (seconds_split t) as (-> & -> & ->). apply seconds_join.
Qed.

(** The fields down to the second depend on the second only. *)
Lemma fields_of_second t t' :
  t / 1000 = t' / 1000 ->
  YearFromTime t = YearFromTime t' /\ MonthFromTime t = MonthFromTime t' /\
  DateFromTime t = DateFromTime t' /\ HourFromTime t = HourFromTime t' /\
  MinFromTime t = MinFromTime t' /\ SecFromTime t = SecFromTime t'.
Proof.
  intros H.
  unfold YearFromTime, MonthFromTime, DateFromTime, HourFromTime, MinFromTime, SecFromTime,
    msPerDay.
  destruct (seconds_split t) as (-> & -> & ->).
  destruct (seconds_split t') as (-> & -> & ->).
  now rewrite H.
Qed.

Lemma app_inj_length a a' b b' :
  String.length a = String.length a' -> a +:+ b = a' +:+ b' -> a = a' /\ b = b'.
Proof.
  revert a'. induction a as [|c a IH]; intros [|c' a'] L H; try discriminate L.
  - now split.
  - injection L as L. injection H as -> H. destruct (IH a' L H) as [-> ->]. now split.
Qed.

Lemma app_sep_inj sep a a' b b' :
  String.length a = String.length a' ->
  a +:+ String sep b = a' +:+ String sep b' -> a = a' /\ b = b'.
Proof.
  intros L H. apply app_inj_length in H as [-> H]; [|exact L].
  injection H as ->. now split.
Qed.

Lemma digit_inj n n' : digit n = digit n' -> n mod 10 = n' mod 10.
Proof.
  unfold digit. intros H. apply (f_equal nat_of_ascii) in H.
  pose proof (Z.mod_pos_bound n 10 eq_refl). pose proof (Z.mod_pos_bound n' 10 eq_refl).
  rewrite !nat_ascii_embedding in H by lia. lia.
Qed.

(** [w] digits tell numbers below [10 ^ w] apart. *)
Lemma digits_inj w : forall n n',
  0 <= n < 10 ^ Z.of_nat w -> 0 <= n' < 10 ^ Z.of_nat w ->
  digits w n = digits w n' -> n = n'.
Proof.
  induction w as [|w IH]; intros n n' Hn Hn' H.
  - simpl in Hn, Hn'. lia.
  - cbn [digits] in H.
    apply app_inj_length in H as [H1 H2]; [|now rewrite !length_digits].
    injection H2 as H2. apply digit_inj in H2.
    rewrite Nat2Z.inj_succ, Z.pow_succ_r in Hn, Hn' by lia.
    remember (10 ^ Z.of_nat w) as P eqn:EP.
    assert (R : 0 <= n / 10 < P).
    { split; [apply Z.div_pos; lia | apply Z.div_lt_upper_bound; lia]. }
    assert (R' : 0 <= n' / 10 < P).
    { split; [apply Z.div_pos; lia | apply Z.div_lt_upper_bound; lia]. }
    assert (n / 10 = n' / 10) by (apply IH; [exact R | exact R' | exact H1]).
    pose proof (Z.div_mod n 10). pose proof (Z.div_mod n' 10). lia.
Qed.

Lemma field_ranges t :
  0 <= MonthFromTime t < 10 ^ Z.of_nat 2 /\ 0 <= DateFromTime t < 10 ^ Z.of_nat 2 /\
  0 <= HourFromTime t < 10 ^ Z.of_nat 2 /\ 0 <= MinFromTime t < 10 ^ Z.of_nat 2 /\
  0 <= SecFromTime t < 10 ^ Z.of_nat 2 /\ 0 <= msFromTime t < 10 ^ Z.of_nat 3.
Proof.
  destruct (civil_fields t) as (_ & Hm & Hd).
  unfold HourFromTime, MinFromTime, SecFromTime, msFromTime.
  change (10 ^ Z.of_nat 2) with 100. change (10 ^ Z.of_nat 3) with 1000.
  pose proof (Z.mod_pos_bound (t / 3600000) 24 eq_refl).
  pose proof (Z.mod_pos_bound (t / 60000) 60 eq_refl).
  pose proof (Z.mod_pos_bound (t / 1000) 60 eq_refl).
  pose proof (Z.mod_pos_bound t 1000 eq_refl). lia.
Qed.

(** Equal time stamps: equal fields, hence the same second. *)
Lemma stamp_inj t t' :
  0 <= YearFromTime t <= 9999 -> 0 <= YearFromTime t' <= 9999 ->
  stamp t = stamp t' -> t / 1000 = t' / 1000.
Proof.
  intros Hy Hy' H. unfold stamp in H.
  destruct (field_ranges t) as (R1 & R2 & R3 & R4 & R5 & _).
  destruct (field_ranges t') as (R1' & R2' & R3' & R4' & R5' & _).
  apply app_inj_length in H as [E1 H]; [|now rewrite !length_digits].
  apply app_inj_length in H as [E2 H]; [|now rewrite !length_digits].
  apply app_inj_length in H as [E3 H]; [|now rewrite !length_digits].
  apply app_inj_length in H as [E4 H]; [|now rewrite !length_digits].
  apply app_inj_length in H as [E5 E6]; [|now rewrite !length_digits].
  apply digits_inj in E1; [|change (10 ^ Z.of_nat 4) with 10000; lia..].
  apply digits_inj in E2, E3, E4, E5, E6; try assumption.
  rewrite <- (second_round_trip t), <- (second_round_trip t').
  now rewrite E1, E2, E3, E4, E5, E6.
Qed.

Lemma stamp_of_second t t' : t / 1000 = t' / 1000 -> stamp t = stamp t'.
Proof.
  intros H. destruct (fields_of_second t t' H) as (E1 & E2 & E3 & E4 & E5 & E6).
  unfold stamp. now rewrite E1, E2, E3, E4, E5, E6.
Qed.

Lemma iso_in_range t :
  0 <= YearFromTime t <= 9999 ->
  toISOString t =
  digits 4 (YearFromTime t) +:+ "-" +:+ digits 2 (MonthFromTime t) +:+ "-" +:+
  digits 2 (DateFromTime t) +:+ "T" +:+ digits 2 (HourFromTime t) +:+ ":" +:+
  digits 2 (MinFromTime t) +:+ ":" +:+ digits 2 (SecFromTime t) +:+ "." +:+
  digits 3 (msFromTime t) +:+ "Z".
Proof.
  intros Hy. unfold toISOString, year_text.
  assert ((0 <=? YearFromTime t) && (YearFromTime t <=? 9999) = true) as ->; [|reflexivity].
  apply andb_true_iff. split; lia.
Qed.

(** Equal ISO texts, in the years of four digits: equal times. *)
Lemma iso_inj t t' :
  0 <= YearFromTime t <= 9999 -> 0 <= YearFromTime t' <= 9999 ->
  toISOString t = toISOString t' -> t = t'.
Proof.
  intros Hy Hy' H. rewrite !iso_in_range in H by assumption.
  destruct (field_ranges t) as (R1 & R2 & R3 & R4 & R5 & R6).
  destruct (field_ranges t') as (R1' & R2' & R3' & R4' & R5' & R6').
  apply app_sep_inj in H as [E1 H]; [|now rewrite !length_digits].
  apply app_sep_inj in H as [E2 H]; [|now rewrite !length_digits].
  apply app_sep_inj in H as [E3 H]; [|now rewrite !length_digits].
  apply app_sep_inj in H as [E4 H]; [|now rewrite !length_digits].
  apply app_sep_inj in H as [E5 H]; [|now rewrite !length_digits].
  apply app_sep_inj in H as [E6 H]; [|now rewrite !length_digits].
  apply app_sep_inj in H as [E7 _]; [|now rewrite !length_digits].
  apply digits_inj in E1; [|change (10 ^ Z.of_nat 4) with 10000; lia..].
  apply digits_inj in E2, E3, E4, E5, E6, E7; try assumption.
  rewrite <- (time_round_trip t), <- (time_round_trip t').
  now rewrite E1, E2, E3, E4, E5, E6, E7.
Qed.

Lemma length_iso t :
  0 <= YearFromTime t <= 9999 -> String.length (toISOString t) = 24%nat.
Proof.
  intros Hy. rewrite iso_in_range by exact Hy.
  rewrite !length_app_s, !length_digits. reflexivity.
Qed.

Lemma Z_to_string_inj n n' : Z_to_string n = Z_to_string n' -> n = n'.
Proof.
  unfold Z_to_string. intros H.
  assert (Hs : forall z, NilZero.int_of_string (NilZero.string_of_int (Z.to_int z))
                         = Some (Z.to_int z)).
  { intros z. apply NilZero.isi; destruct z; simpl; try discriminate;
      intros E; injection E as E; now apply DecimalPos.Unsigned.to_uint_nonnil in E. }
  pose proof (Hs n) as H1. rewrite H, Hs in H1. injection H1 as H1.
  apply (f_equal Z.of_int) in H1. now rewrite !DecimalZ.of_to in H1.
Qed.

(** Texts without a dot, each followed by a text that starts with a dot. *)
Lemma split_at_dot a b x y :
  no_dot a = true -> no_dot b = true ->
  a +:+ String "." x = b +:+ String "." y -> a = b /\ x = y.
Proof.
  revert b. induction a as [|c a IH]; intros [|c' b] Ha Hb H.
  - injection H as ->. now split.
  - injection H as <- _. discriminate Hb.
  - injection H as -> _. discriminate Ha.
  - injection H as -> H. unfold no_dot in Ha, Hb. cbn [string_forallb] in Ha, Hb.
    apply andb_true_iff in Ha as [_ Ha], Hb as [_ Hb].
    destruct (IH b Ha Hb H) as [-> ->]. now split.
Qed.

End DateFacts.
Import DateFacts.

Section ClashFacts.

Variable dirname : Path.path.

Lemma genMoodFilename_parts name t rnd :
  0 <= Clock.YearFromTime t <= 9999 ->
  genMoodFilename name t rnd =
  "mood_" +:+ stamp t +:+ "_" +:+ Z_to_string (drawn rnd) +:+ safeExt name.
Proof. intros Hy. unfold genMoodFilename. now rewrite stamp_of_iso. Qed.

Lemma store_file_ok fs name data now rnd :
  fs !! UPLOAD_DIR dirname = Some FS.Dir ->
  fs !! (UPLOAD_DIR dirname ++ [genMoodFilename name now rnd]) <> Some FS.Dir ->
  store_file dirname fs name data now rnd
  = Some (<[UPLOAD_DIR dirname ++ [genMoodFilename name now rnd] := FS.File data]> fs,
          Stored (genMoodFilename name now rnd)).
Proof.
  intros Hd Hnd. unfold store_file, FS.writeFileSync. rewrite upload_path.
  assert (Ht : dirname ++ ["uploads"; genMoodFilename name now rnd]
               = UPLOAD_DIR dirname ++ [genMoodFilename name now rnd])
    by now rewrite UPLOAD_DIR_eq, <- app_assoc.
  rewrite Ht. unfold FS.parent. rewrite removelast_last, Hd.
  destruct (fs !! (UPLOAD_DIR dirname ++ [genMoodFilename name now rnd])) as [[x|]|];
    try reflexivity. congruence.
Qed.

Lemma store_file_inv fs name data now rnd fs' st :
  store_file dirname fs name data now rnd = Some (fs', st) ->
  fs !! UPLOAD_DIR dirname = Some FS.Dir /\
  fs !! (UPLOAD_DIR dirname ++ [genMoodFilename name now rnd]) <> Some FS.Dir /\
  fs' = <[UPLOAD_DIR dirname ++ [genMoodFilename name now rnd] := FS.File data]> fs /\
  st = Stored (genMoodFilename name now rnd).
Proof.
  intros H.
  assert (Hd : fs !! UPLOAD_DIR dirname = Some FS.Dir /\
               fs !! (UPLOAD_DIR dirname ++ [genMoodFilename name now rnd]) <> Some FS.Dir).
  { revert H. unfold store_file, FS.writeFileSync. rewrite upload_path.
    assert (Ht : dirname ++ ["uploads"; genMoodFilename name now rnd]
                 = UPLOAD_DIR dirname ++ [genMoodFilename name now rnd])
      by now rewrite UPLOAD_DIR_eq, <- app_assoc.
    rewrite Ht. unfold FS.parent. rewrite removelast_last.
    destruct (fs !! (UPLOAD_DIR dirname ++ [genMoodFilename name now rnd])) as [[x|]|];
      destruct (fs !! UPLOAD_DIR dirname) as [[y|]|]; intros H; try discriminate H;
      split; (reflexivity || discriminate). }
  destruct Hd as [Hd Hnd]. rewrite (store_file_ok fs name data now rnd Hd Hnd) in H.
  injection H as <- <-. auto.
Qed.

(** X13: when two uploads get the same name.  In the years of four digits
    the generated names of two files are equal exactly when the files are
    stored within the same second, draw the same integer, and have the same
    safe extension; neither the rest of the original names nor the
    milliseconds matter.  When that happens the second file is written over
    the first: the store is as if the second alone had been stored. *)
Theorem X13_name_clash n1 t1 r1 n2 t2 r2 :
  0 <= Clock.YearFromTime t1 <= 9999 -> 0 <= Clock.YearFromTime t2 <= 9999 ->
  (genMoodFilename n1 t1 r1 = genMoodFilename n2 t2 r2 <->
   t1 / 1000 = t2 / 1000 /\ drawn r1 = drawn r2 /\ safeExt n1 = safeExt n2) /\
  (genMoodFilename n1 t1 r1 = genMoodFilename n2 t2 r2 ->
   forall fs d1 d2 fs1 st1,
     store_file dirname fs n1 d1 t1 r1 = Some (fs1, st1) ->
     store_file dirname fs1 n2 d2 t2 r2 = store_file dirname fs n2 d2 t2 r2 /\
     exists fs2,
       store_file dirname fs1 n2 d2 t2 r2 = Some (fs2, st1) /\
       fs2 !! (UPLOAD_DIR dirname ++ [filename st1]) = Some (FS.File d2)).
Proof.
  intros Hy1 Hy2. split.
  - rewrite !genMoodFilename_parts by assumption. split.
    + intros H.
      apply app_inj_length in H as [_ H]; [|reflexivity].
      apply app_sep_inj in H as [Hs H]; [|now rewrite !length_stamp].
      destruct (allowed_shape _ (safeExt_allowed n1)) as (e1 & E1 & _).
      destruct (allowed_shape _ (safeExt_allowed n2)) as (e2 & E2 & _).
      rewrite E1, E2 in H |- *.
      apply split_at_dot in H as [Hd He]; [|apply Z_to_string_no_dot..].
      split; [now apply stamp_inj|]. split; [now apply Z_to_string_inj | now rewrite He].
    + intros (Hs & Hd & He). now rewrite (stamp_of_second t1 t2 Hs), Hd, He.
  - intros Hname fs d1 d2 fs1 st1 H1.
    apply store_file_inv in H1 as (Hd & Hnd & -> & ->). cbn [filename].
    rewrite Hname in *.
    set (target := UPLOAD_DIR dirname ++ [genMoodFilename n2 t2 r2]) in *.
    assert (Hd1 : <[target := FS.File d1]> fs !! UPLOAD_DIR dirname = Some FS.Dir).
    { rewrite lookup_insert_ne; [exact Hd|]. subst target. intros E.
      apply (f_equal (@List.length string)) in E. rewrite length_app in E. simpl in E. lia. }
    assert (Hnd1 : <[target := FS.File d1]> fs !! target <> Some FS.Dir)
      by (rewrite lookup_insert_eq; discriminate).
    rewrite (store_file_ok _ n2 d2 t2 r2 Hd1 Hnd1).
    rewrite (store_file_ok fs n2 d2 t2 r2 Hd Hnd).
    fold target. rewrite insert_insert_eq.
    split; [reflexivity|]. eexists. split; [reflexivity | apply lookup_insert_eq].
Qed.

End ClashFacts.

Lemma X13_clash_witness :
  genMoodFilename (Some "photo.png") some_time 0
  = genMoodFilename (Some "holiday/beach.PNG") (some_time + 500) 0.
Proof.
  apply (proj1 (X13_name_clash app (Some "photo.png") some_time 0
                  (Some "holiday/beach.PNG") (some_time + 500) 0
                  ltac:(vm_compute; split; discriminate)
                  ltac:(vm_compute; split; discriminate))).
  split; [reflexivity|]. split; reflexivity.
Defined.

Section IsoFacts.

(** X14: the text of a time.  In the years of four digits [toISOString]
    gives 24 characters whose month, day, hour, minute, second and
    millisecond are those of a calendar and a clock; the fields give the
    time back, so two times with the same text are the same time, and the
    [updatedAt] of the default document tells the milliseconds apart. *)
Theorem X14_iso_text t :
  0 <= Clock.YearFromTime t <= 9999 ->
  String.length (Clock.toISOString t) = 24%nat /\
  1 <= Clock.MonthFromTime t <= 12 /\ 1 <= Clock.DateFromTime t <= 31 /\
  0 <= Clock.HourFromTime t <= 23 /\ 0 <= Clock.MinFromTime t <= 59 /\
  0 <= Clock.SecFromTime t <= 59 /\ 0 <= Clock.msFromTime t <= 999 /\
  time_of_fields (Clock.YearFromTime t) (Clock.MonthFromTime t) (Clock.DateFromTime t)
    (Clock.HourFromTime t) (Clock.MinFromTime t) (Clock.SecFromTime t) (Clock.msFromTime t)
  = t /\
  (forall t', 0 <= Clock.YearFromTime t' <= 9999 ->
     Clock.toISOString t = Clock.toISOString t' -> t = t') /\
  (forall t', 0 <= Clock.YearFromTime t' <= 9999 ->
     JS.get (defaultBoard t) "updatedAt" = JS.get (defaultBoard t') "updatedAt" -> t = t').
Proof.
  intros Hy. destruct (civil_fields t) as (_ & Hm & Hd).
  split; [now apply length_iso|]. split; [exact Hm|]. split; [exact Hd|].
  unfold Clock.HourFromTime, Clock.MinFromTime, Clock.SecFromTime, Clock.msFromTime.
  pose proof (Z.mod_pos_bound (t / 3600000) 24 eq_refl).
  pose proof (Z.mod_pos_bound (t / 60000) 60 eq_refl).
  pose proof (Z.mod_pos_bound (t / 1000) 60 eq_refl).
  pose proof (Z.mod_pos_bound t 1000 eq_refl).
  split; [lia|]. split; [lia|]. split; [lia|]. split; [lia|].
  split; [apply time_round_trip|]. split.
  - intros t' Hy' H'. now apply iso_inj.
  - intros t' Hy' H'. cbn in H'. injection H' as H'. now apply iso_inj.
Qed.

End IsoFacts.

Lemma X14_iso_witness :
  String.length (Clock.toISOString some_time) = 24%nat /\
  time_of_fields 2026 11 1 18 15 0 123 = some_time.
Proof.
  destruct (X14_iso_text some_time ltac:(vm_compute; split; discriminate))
    as (H & _ & _ & _ & _ & _ & _ & E & _).
  split; [exact H | exact E].
Defined.

(** ** White space around the stored text *)

Module BlankFacts.







End BlankFacts.
Import BlankFacts.

Section PaddedFacts.

Variable dirname : Path.path.


End PaddedFacts.


(** ** POST /api/delete-mood on a directory *)

Section DirectoryFacts.

Variable dirname : Path.path.

Lemma join_dot : Path.join (UPLOAD_DIR dirname) "." = (UPLOAD_DIR dirname, false).
Proof. unfold Path.join. cbn. now rewrite rev_involutive. Qed.

Lemma join_dotdot : Path.join (UPLOAD_DIR dirname) ".." = (dirname, false).
Proof.
  unfold Path.join. rewrite UPLOAD_DIR_eq, rev_app_distr. cbn.
  now rewrite rev_involutive.
Qed.

(** X16: when the joined path is a directory, POST /api/delete-mood ends in
    a server error ([unlinkSync] throws and nothing catches it) and the
    store is as before; the filename [.] names the upload directory itself
    and [..] the directory of the server, so both fail in this way once the
    directories exist.  A filename with a separator at its end never
    deletes a file: a file at the joined path is still a file afterwards. *)
Theorem X16_delete_mood_directory fs now body name :
  JS.get (JS.or body (VObj [])) "filename" = VStr name -> name <> "" ->
  let full := Path.join (UPLOAD_DIR dirname) name in
  (fs !! fst full = Some FS.Dir -> delete_mood dirname fs now body = (fs, ServerError)) /\
  (snd full = true -> forall data, fs !! fst full = Some (FS.File data) ->
     exists data', fst (delete_mood dirname fs now body) !! fst full = Some (FS.File data')) /\
  (fs !! UPLOAD_DIR dirname = Some FS.Dir ->
     delete_mood dirname fs now (VObj [("filename", VStr ".")]) = (fs, ServerError)) /\
  (fs !! dirname = Some FS.Dir ->
     delete_mood dirname fs now (VObj [("filename", VStr "..")]) = (fs, ServerError)).
Proof.
  intros E Hn full.
  assert (Hdir : forall body' name', JS.get (JS.or body' (VObj [])) "filename" = VStr name' ->
            name' <> "" ->
            fs !! fst (Path.join (UPLOAD_DIR dirname) name') = Some FS.Dir ->
            delete_mood dirname fs now body' = (fs, ServerError)).
  { intros body' name' E' Hn' Hd. rewrite (delete_mood_run dirname fs now body' name' E' Hn').
    unfold FS.existsSync, FS.unlinkSync. now rewrite Hd. }
  split; [now apply Hdir|]. split; [|split].
  - intros Hs data Hf.
    assert (Hu : (if FS.existsSync fs full then FS.unlinkSync fs full else Some fs) = Some fs).
    { unfold FS.existsSync. now rewrite Hf, Hs. }
    destruct (delete_mood_store dirname fs now body name E Hn fs Hu)
      as [->|(text & v & _ & ->)]; [eauto|].
    destruct (decide (fst full = DATA_FILE dirname)) as [->|Hne].
    + exists v. apply lookup_insert_eq.
    + exists data. rewrite lookup_insert_ne by congruence. exact Hf.
  - intros Hd. apply (Hdir (VObj [("filename", VStr ".")]) "." eq_refl); [discriminate|].
    now rewrite join_dot.
  - intros Hd. apply (Hdir (VObj [("filename", VStr "..")]) ".." eq_refl); [discriminate|].
    now rewrite join_dotdot.
Qed.

End DirectoryFacts.

Lemma X16_directory_witness :
  delete_mood app pictures_store some_time (VObj [("filename", VStr ".")])
  = (pictures_store, ServerError).
Proof.
  destruct (X16_delete_mood_directory app pictures_store some_time
              (VObj [("filename", VStr ".")]) "." eq_refl) as (_ & _ & H & _).
  - discriminate.
  - apply H. reflexivity.
Defined.

(** ** What the requests keep *)

Section Invariants.

Variable dirname : Path.path.

Lemma unlink_file (fs fs1 : gmap (list string) FS.node) full :
  (if FS.existsSync fs full then FS.unlinkSync fs full else Some fs) = Some fs1 ->
  fs1 = fs \/ exists data, fs !! fst full = Some (FS.File data) /\ fs1 = delete (fst full) fs.
Proof.
  unfold FS.existsSync, FS.unlinkSync.
  destruct (fs !! fst full) as [[data|]|]; destruct (snd full); simpl; intros H;
    try discriminate H; injection H as <-; eauto.
Qed.

(** How a request changes the store: not at all, by deleting a file, by
    writing a file where no directory is, or by both in this order. *)
Lemma request_change fs fs' :
  request dirname fs fs' ->
  exists fs1,
    (fs1 = fs \/ exists p data, fs !! p = Some (FS.File data) /\ fs1 = delete p fs) /\
    (fs' = fs1 \/ exists p text, fs1 !! p <> Some FS.Dir /\ fs' = <[p := FS.File text]> fs1).
Proof.
  intros [fs0 now body Hj|fs0 now body|fs0 name data now rnd fs2 st H].
  - exists fs0. split; [now left|].
    destruct (post_board_cases dirname fs0 now body) as [[_ ->]|[(_ & _ & ->)|(_ & Hw & ->)]];
      cbn [fst]; [now left | now left |].
    right. destruct Hw as [_ Hf]. eauto.
  - destruct (JS.get (JS.or body (VObj [])) "filename") as [| | | |name| |] eqn:E;
      try (exists fs0; rewrite delete_mood_400
             by (intros name E'; rewrite E in E'; discriminate E'); cbn [fst]; auto).
    destruct (String.eqb name "") eqn:En.
    { apply String.eqb_eq in En. subst name. exists fs0.
      rewrite delete_mood_400 by (intros name E'; rewrite E in E'; now injection E' as <-).
      cbn [fst]. auto. }
    apply String.eqb_neq in En.
    destruct (if FS.existsSync fs0 (Path.join (UPLOAD_DIR dirname) name)
              then FS.unlinkSync fs0 (Path.join (UPLOAD_DIR dirname) name) else Some fs0)
      as [fs1|] eqn:Hu.
    + exists fs1. split.
      * destruct (unlink_file fs0 fs1 _ Hu) as [->|(data & Hf & ->)]; [now left|].
        right. eauto.
      * destruct (delete_mood_store dirname fs0 now body name E En fs1 Hu)
          as [->|(text & v & Hd & ->)]; [now left|].
        right. exists (DATA_FILE dirname), v. split; [rewrite Hd; discriminate | reflexivity].
    + exists fs0. rewrite (delete_mood_run dirname fs0 now body name E En), Hu.
      cbn [fst]. auto.
  - exists fs0. split; [now left|]. right.
    apply store_file_inv in H as (_ & Hnd & -> & _). eauto.
Qed.

Lemma request_dirs fs fs' :
  request dirname fs fs' -> forall p, fs' !! p = Some FS.Dir <-> fs !! p = Some FS.Dir.
Proof.
  intros H p. destruct (request_change fs fs' H) as (fs1 & H1 & H2).
  assert (E1 : fs1 !! p = Some FS.Dir <-> fs !! p = Some FS.Dir).
  { destruct H1 as [->|(q & data & Hq & ->)]; [reflexivity|].
    destruct (decide (p = q)) as [->|Hne].
    - rewrite lookup_delete_eq, Hq. split; discriminate.
    - now rewrite lookup_delete_ne. }
  rewrite <- E1. destruct H2 as [->|(q & text & Hq & ->)]; [reflexivity|].
  destruct (decide (p = q)) as [->|Hne].
  - rewrite lookup_insert_eq. split; [discriminate | intros E; now contradiction Hq].
  - now rewrite lookup_insert_ne.
Qed.

(** X17: the requests neither make nor remove a directory.  In every
    state reached by any number of them, the directories are those of the
    state they started from; so after a start-up that went through, with
    no directory at the path of the data file, the three directories are
    still there, the document can still be written, and POST /api/board is
    never answered with a server error. *)
Theorem X17_directories_stay fs fs' :
  rtc (request dirname) fs fs' ->
  (forall p, fs' !! p = Some FS.Dir <-> fs !! p = Some FS.Dir) /\
  (forall fs0, startup dirname fs0 = Some fs -> fs0 !! DATA_FILE dirname <> Some FS.Dir ->
     fs' !! PUBLIC_DIR dirname = Some FS.Dir /\
     fs' !! DATA_DIR dirname = Some FS.Dir /\
     fs' !! UPLOAD_DIR dirname = Some FS.Dir /\
     writable dirname fs' /\
     forall now body, snd (post_board dirname fs' now body) <> ServerError).
Proof.
  intros H.
  assert (Hd : forall p, fs' !! p = Some FS.Dir <-> fs !! p = Some FS.Dir).
  { induction H as [fs|fs fs1 fs2 H1 _ IH]; [reflexivity|].
    intros p. rewrite IH. now apply request_dirs. }
  split; [exact Hd|]. intros fs0 Hs Hf.
  destruct (startup_inv dirname fs0 fs Hs) as (a & b & H1 & H2 & H3).
  assert (P : fs !! PUBLIC_DIR dirname = Some FS.Dir).
  { apply (mkdirSync_keeps _ _ _ _ _ H3), (mkdirSync_keeps _ _ _ _ _ H2).
    now apply (mkdirSync_some _ _ _ H1). }
  assert (D : fs !! DATA_DIR dirname = Some FS.Dir).
  { apply (mkdirSync_keeps _ _ _ _ _ H3). now apply (mkdirSync_some _ _ _ H2). }
  assert (U : fs !! UPLOAD_DIR dirname = Some FS.Dir)
    by now apply (mkdirSync_some _ _ _ H3).
  assert (F : fs !! DATA_FILE dirname <> Some FS.Dir).
  { destruct (mkdirSync_some _ _ _ H1) as [_ Off1].
    destruct (mkdirSync_some _ _ _ H2) as [_ Off2].
    destruct (mkdirSync_some _ _ _ H3) as [_ Off3].
    rewrite Off3, Off2, Off1; [exact Hf| | |]; apply data_file_not_on_way.
    - rewrite PUBLIC_DIR_eq, length_app. simpl. lia.
    - rewrite DATA_DIR_eq, length_app. simpl. lia.
    - rewrite UPLOAD_DIR_eq, length_app. simpl. lia. }
  assert (W : writable dirname fs').
  { split; [now apply Hd | intros E; apply F; now apply Hd]. }
  split; [now apply Hd|]. split; [now apply Hd|]. split; [now apply Hd|].
  split; [exact W|]. intros now body.
  destruct (post_board_cases dirname fs' now body) as [[_ ->]|[(_ & Hw & _)|(_ & _ & ->)]];
    [discriminate | contradiction | discriminate].
Qed.












End Invariants.

Lemma X17_directories_witness :
  fst (post_board app fresh_store some_time (VObj [])) !! UPLOAD_DIR app = Some FS.Dir /\
  writable app (fst (post_board app fresh_store some_time (VObj []))).
Proof.
  destruct (X17_directories_stay app fresh_store
              (fst (post_board app fresh_store some_time (VObj []))))
    as [_ H].
  - apply rtc_once. now apply request_post.
  - destruct (H ∅) as (_ & _ & U & W & _); [reflexivity | rewrite lookup_empty; discriminate|].
    split; [exact U | exact W].
Defined.

